(** * SyncStream: room registry, membership handlers and sync engine

    A shallow embedding of the room coordination core of SyncStream:
    - [Registry]   : server/state.js (the in-memory room map),
    - [Server]     : syncstream-server/server.js (the Socket.IO handlers),
    - [SyncEngine] : the client sync engine (offset, extrapolation, drift),
    - [Store]      : the client store's [control_update] handler (lib/socket.ts),
    - [App]        : the follower reconciliation effect of SyncStreamApp.tsx,
    - [Client]     : the leader actions and room handlers of the client store.

    JavaScript objects used as dictionaries are finite maps of their own
    properties, read through [JsObject.get]: a key that is no own property
    but a name of Object.prototype yields the inherited value.  The mutable
    registry and the mutable room objects are threaded explicitly, and a
    call that throws is an [outcome] without a value.  Payload fields used
    as keys are strings.  JavaScript numbers are IEEE binary64 floats; the
    server's [Date.now()] readings, which are only compared and offset by
    integer constants, are integers. *)

From Stdlib Require Import ZArith Floats.
From stdpp Require Import gmap strings pretty list.

Local Open Scope string_scope.
Local Open Scope Z_scope.

(** ** JavaScript values carried by message payloads *)

Inductive jsval : Type :=
  | JUndefined
  | JNull
  | JBool (b : bool)
  | JNum (x : float)
  | JStr (s : string).

(** [if (v)]: undefined, null, false, 0, -0, NaN and the empty string are falsy. *)
Definition truthy (v : jsval) : bool :=
  match v with
  | JUndefined | JNull => false
  | JBool b => b
  | JNum x => negb (PrimFloat.eqb x 0%float) && PrimFloat.eqb x x
  | JStr s => negb (String.eqb s "")
  end.

(** [typeof v === 'number'] *)
Definition is_number (v : jsval) : bool :=
  match v with JNum _ => true | _ => false end.

(** [a || b] on values. *)
Definition js_or (a b : jsval) : jsval := if truthy a then a else b.

(** Truthiness of a field holding [null] or a string (socket ids, tokens). *)
Definition truthy_str (o : option string) : bool :=
  match o with
  | Some s => negb (String.eqb s "")
  | None => false
  end.

(** A call returns a value or throws (here always a TypeError, raised by a
    property access on [undefined]). *)
Inductive outcome (A : Type) : Type :=
  | Returned (a : A)
  | Thrown.

Arguments Returned {A} a.
Arguments Thrown {A}.

(** ** Property lookup on plain objects *)

Module JsObject.

(** The property names of Object.prototype, which every object literal
    inherits. *)
Definition prototype_names : list string :=
  [ "constructor"; "__defineGetter__"; "__defineSetter__"; "hasOwnProperty";
    "__lookupGetter__"; "__lookupSetter__"; "isPrototypeOf";
    "propertyIsEnumerable"; "toString"; "valueOf"; "__proto__";
    "toLocaleString" ].

Definition inherited (key : string) : bool :=
  bool_decide (key ∈ prototype_names).

(** What [o[key]] evaluates to: the own property, else the value inherited
    under that name (a built-in function; Object.prototype itself for
    [__proto__]), else [undefined]. *)
Inductive slot (V : Type) : Type :=
  | Own (v : V)
  | Inherited (key : string)
  | Undefined.

Arguments Own {V} v.
Arguments Inherited {V} key.
Arguments Undefined {V}.

Definition get {V : Type} (key : string) (o : gmap string V) : slot V :=
  match o !! key with
  | Some v => Own v
  | None => if inherited key then Inherited key else Undefined
  end.

(** [if (o[key])] where the own properties hold objects: objects and
    functions are truthy. *)
Definition present {V : Type} (x : slot V) : bool :=
  match x with
  | Own _ | Inherited _ => true
  | Undefined => false
  end.

(** [o[key].name] for an inherited value: a built-in function carries its
    name ([Object] for the constructor), Object.prototype has none. *)
Definition inherited_name (key : string) : jsval :=
  if String.eqb key "__proto__" then JUndefined
  else if String.eqb key "constructor" then JStr "Object"
  else JStr key.

End JsObject.

(** ** server/state.js *)

Module Registry.
Import JsObject.

Record Participant := { name : jsval }.

Record PendingRequest := {
  socketId : string;
  requestName : jsval;
  timestamp : Z
}.

Record ShareToken := {
  createdAt : Z;
  createdBy : string;
  expiresAt : Z
}.

(** The [shareTokens] object.  Its keys are chosen by clients, so an
    assignment can hit [__proto__]: that makes the assigned record the
    prototype of the table instead of an own property. *)
Record TokenTable := {
  own_tokens : gmap string ShareToken;
  proto_token : option ShareToken
}.

(** [{}] *)
Definition no_tokens : TokenTable :=
  {| own_tokens := ∅; proto_token := None |}.

(** What [shareTokens[tok]] evaluates to, as the join handler uses it: a
    token record, another truthy value (which has no [expiresAt]), or a
    falsy one. *)
Inductive token_slot : Type :=
  | TokenData (tokenData : ShareToken)
  | OtherValue
  | NoValue.

Definition token_get (tok : string) (t : TokenTable) : token_slot :=
  match own_tokens t !! tok with
  | Some tokenData => TokenData tokenData
  | None =>
      match proto_token t with
      | Some p =>
          if String.eqb tok "__proto__" then TokenData p
          else if String.eqb tok "createdAt"
          then (if (createdAt p =? 0)%Z then NoValue else OtherValue)
          else if String.eqb tok "createdBy"
          then (if String.eqb (createdBy p) "" then NoValue else OtherValue)
          else if String.eqb tok "expiresAt"
          then (if (expiresAt p =? 0)%Z then NoValue else OtherValue)
          else if inherited tok then OtherValue else NoValue
      | None => if inherited tok then OtherValue else NoValue
      end
  end.

(** [shareTokens[tok] = tokenData] *)
Definition token_set (tok : string) (tokenData : ShareToken) (t : TokenTable)
  : TokenTable :=
  if String.eqb tok "__proto__" && bool_decide (own_tokens t !! tok = None)
  then {| own_tokens := own_tokens t; proto_token := Some tokenData |}
  else {| own_tokens := <[tok := tokenData]> (own_tokens t);
          proto_token := proto_token t |}.

(** [delete shareTokens[tok]] *)
Definition token_delete (tok : string) (t : TokenTable) : TokenTable :=
  {| own_tokens := delete tok (own_tokens t); proto_token := proto_token t |}.

(** A room object.  [pendingRequests] and [shareTokens] are absent until a
    handler first creates them, hence the options.  The keys written to
    [participants] are socket ids and those written to [pendingRequests]
    end in a time stamp; neither is ever [__proto__]. *)
Record Room := {
  leaderId : option string;
  mediaKind : jsval;
  mediaRef : jsval;
  isPlaying : jsval;
  leaderMediaTime : jsval;
  leaderServerTs : Z;
  participants : gmap string Participant;
  pendingRequests : option (gmap string PendingRequest);
  shareTokens : option TokenTable
}.

Definition set_leaderId (v : option string) (r : Room) : Room :=
  {| leaderId := v; mediaKind := mediaKind r; mediaRef := mediaRef r;
     isPlaying := isPlaying r; leaderMediaTime := leaderMediaTime r;
     leaderServerTs := leaderServerTs r; participants := participants r;
     pendingRequests := pendingRequests r; shareTokens := shareTokens r |}.

Definition set_mediaKind (v : jsval) (r : Room) : Room :=
  {| leaderId := leaderId r; mediaKind := v; mediaRef := mediaRef r;
     isPlaying := isPlaying r; leaderMediaTime := leaderMediaTime r;
     leaderServerTs := leaderServerTs r; participants := participants r;
     pendingRequests := pendingRequests r; shareTokens := shareTokens r |}.

Definition set_mediaRef (v : jsval) (r : Room) : Room :=
  {| leaderId := leaderId r; mediaKind := mediaKind r; mediaRef := v;
     isPlaying := isPlaying r; leaderMediaTime := leaderMediaTime r;
     leaderServerTs := leaderServerTs r; participants := participants r;
     pendingRequests := pendingRequests r; shareTokens := shareTokens r |}.

Definition set_isPlaying (v : jsval) (r : Room) : Room :=
  {| leaderId := leaderId r; mediaKind := mediaKind r; mediaRef := mediaRef r;
     isPlaying := v; leaderMediaTime := leaderMediaTime r;
     leaderServerTs := leaderServerTs r; participants := participants r;
     pendingRequests := pendingRequests r; shareTokens := shareTokens r |}.

Definition set_leaderMediaTime (v : jsval) (r : Room) : Room :=
  {| leaderId := leaderId r; mediaKind := mediaKind r; mediaRef := mediaRef r;
     isPlaying := isPlaying r; leaderMediaTime := v;
     leaderServerTs := leaderServerTs r; participants := participants r;
     pendingRequests := pendingRequests r; shareTokens := shareTokens r |}.

Definition set_leaderServerTs (v : Z) (r : Room) : Room :=
  {| leaderId := leaderId r; mediaKind := mediaKind r; mediaRef := mediaRef r;
     isPlaying := isPlaying r; leaderMediaTime := leaderMediaTime r;
     leaderServerTs := v; participants := participants r;
     pendingRequests := pendingRequests r; shareTokens := shareTokens r |}.

Definition set_participants (v : gmap string Participant) (r : Room) : Room :=
  {| leaderId := leaderId r; mediaKind := mediaKind r; mediaRef := mediaRef r;
     isPlaying := isPlaying r; leaderMediaTime := leaderMediaTime r;
     leaderServerTs := leaderServerTs r; participants := v;
     pendingRequests := pendingRequests r; shareTokens := shareTokens r |}.

Definition set_pendingRequests (v : option (gmap string PendingRequest)) (r : Room) : Room :=
  {| leaderId := leaderId r; mediaKind := mediaKind r; mediaRef := mediaRef r;
     isPlaying := isPlaying r; leaderMediaTime := leaderMediaTime r;
     leaderServerTs := leaderServerTs r; participants := participants r;
     pendingRequests := v; shareTokens := shareTokens r |}.

Definition set_shareTokens (v : option TokenTable) (r : Room) : Room :=
  {| leaderId := leaderId r; mediaKind := mediaKind r; mediaRef := mediaRef r;
     isPlaying := isPlaying r; leaderMediaTime := leaderMediaTime r;
     leaderServerTs := leaderServerTs r; participants := participants r;
     pendingRequests := pendingRequests r; shareTokens := v |}.

(** The object literal of [createRoom]. *)
Definition newRoom : Room :=
  {| leaderId := None; mediaKind := JNull; mediaRef := JNull;
     isPlaying := JBool false; leaderMediaTime := JNum 0%float;
     leaderServerTs := 0; participants := ∅;
     pendingRequests := None; shareTokens := None |}.

(** [export const rooms = {}], threaded through every operation. *)

(** [return rooms[roomId]] *)
Definition getRoom (roomId : string) (rooms : gmap string Room) : slot Room :=
  get roomId rooms.

(** [if (!rooms[roomId]) rooms[roomId] = {...}; return rooms[roomId]]: under
    an inherited name the test finds a value, nothing is stored and that
    value is returned. *)
Definition createRoom (roomId : string) (rooms : gmap string Room)
  : gmap string Room * slot Room :=
  match get roomId rooms with
  | Undefined => (<[roomId := newRoom]> rooms, Own newRoom)
  | found => (rooms, found)
  end.

Definition deleteRoom (roomId : string) (rooms : gmap string Room)
  : gmap string Room :=
  delete roomId rooms.

(** The returned room is the object stored in the registry: the mutation
    of its fields is written back under [roomId].  On a value that is no
    room object, [room.participants] is undefined and the assignment to
    [room.participants[socketId]] throws. *)
Definition addParticipant (roomId socketId : string) (name : jsval)
    (rooms : gmap string Room) : outcome (gmap string Room * Room) :=
  match createRoom roomId rooms with
  | (rooms1, Own room) =>
      let room1 :=
        set_participants (<[socketId := {| name := name |}]> (participants room))
          room in
      let room2 :=
        if negb (truthy_str (leaderId room1))
        then set_leaderId (Some socketId) room1
        else room1 in
      Returned (<[roomId := room2]> rooms1, room2)
  | (_, _) => Thrown
  end.

(** [None] is the [null] return: the room is no longer in the registry.
    On a value that is no room object, [delete room.participants[socketId]]
    throws. *)
Definition removeParticipant (roomId socketId : string)
    (rooms : gmap string Room) : outcome (gmap string Room * option Room) :=
  match getRoom roomId rooms with
  | Undefined => Returned (rooms, None)
  | Inherited _ => Thrown
  | Own room =>
      let wasLeader := bool_decide (leaderId room = Some socketId) in
      let room1 := set_participants (delete socketId (participants room)) room in
      if wasLeader then Returned (deleteRoom roomId rooms, None)
      else if bool_decide (size (participants room1) = 0%nat)
      then Returned (deleteRoom roomId rooms, None)
      else Returned (<[roomId := room1]> rooms, Some room1)
  end.

(** [if (room && room.participants[newLeaderId])]: the test is one of
    truthiness, so it also passes for a name the participants object
    inherits.  On a value that is no room object, [room.participants] is
    undefined and the lookup throws. *)
Definition promoteLeader (roomId newLeaderId : string)
    (rooms : gmap string Room) : outcome (gmap string Room * option Room) :=
  match getRoom roomId rooms with
  | Own room =>
      if present (get newLeaderId (participants room)) then
        let room1 := set_leaderId (Some newLeaderId) room in
        Returned (<[roomId := room1]> rooms, Some room1)
      else Returned (rooms, None)
  | Inherited _ => Thrown
  | Undefined => Returned (rooms, None)
  end.

End Registry.

(** ** syncstream-server/server.js *)

(** A handler is a function from the server state to the new state and the
    emissions it made, in order.  It runs to completion on one reading of
    the clock: its calls of [Date.now()] are the one value [now]. *)

Module Server.
Import JsObject Registry.

(** The per-connection object: the properties the handlers hang on it and
    [socket.rooms], the rooms the transport lists for it (its own id first). *)
Record Socket := {
  joinCallback : bool;
  pendingRoomId : option string;
  pendingName : option jsval;
  socket_rooms : list string
}.

(** [rooms] is the registry of state.js; [sockets] is [io.sockets.sockets],
    the connected sockets by id. *)
Record State := {
  rooms : gmap string Room;
  sockets : gmap string Socket
}.

Definition set_rooms (v : gmap string Room) (s : State) : State :=
  {| rooms := v; sockets := sockets s |}.

Definition set_sockets (v : gmap string Socket) (s : State) : State :=
  {| rooms := rooms s; sockets := v |}.

(** [socket.join(roomId)] and [socket.leave(roomId)]. *)
Definition join (roomId : string) (k : Socket) : Socket :=
  {| joinCallback := joinCallback k; pendingRoomId := pendingRoomId k;
     pendingName := pendingName k;
     socket_rooms :=
       if bool_decide (roomId ∈ socket_rooms k) then socket_rooms k
       else socket_rooms k ++ [roomId] |}.

Definition leave (roomId : string) (k : Socket) : Socket :=
  {| joinCallback := joinCallback k; pendingRoomId := pendingRoomId k;
     pendingName := pendingName k;
     socket_rooms := filter (λ r, r ≠ roomId) (socket_rooms k) |}.

(** [socket.joinCallback = callback; socket.pendingRoomId = roomId; ...] *)
Definition store_pending (roomId : string) (name : jsval) (k : Socket) : Socket :=
  {| joinCallback := true; pendingRoomId := Some roomId;
     pendingName := Some name; socket_rooms := socket_rooms k |}.

(** [delete socket.joinCallback; delete socket.pendingRoomId; ...] *)
Definition clear_pending (k : Socket) : Socket :=
  {| joinCallback := false; pendingRoomId := None;
     pendingName := None; socket_rooms := socket_rooms k |}.

(** Where an emission goes. *)
Inductive target : Type :=
  | IoTo (roomId : string)                 (* io.to(roomId): the whole room *)
  | SocketTo (sender roomId : string)      (* socket.to(roomId): room minus sender *)
  | SocketEmit (sid : string)              (* socket.emit: that socket only *)
  | Callback (sid : string).               (* the join_room acknowledgement of sid *)

Record RoomStateView := {
  v_mediaKind : jsval;
  v_mediaRef : jsval;
  v_isPlaying : jsval;
  v_leaderMediaTime : jsval;
  v_leaderServerTs : Z
}.

Definition roomState (room : Room) : RoomStateView :=
  {| v_mediaKind := mediaKind room; v_mediaRef := mediaRef room;
     v_isPlaying := isPlaying room; v_leaderMediaTime := leaderMediaTime room;
     v_leaderServerTs := leaderServerTs room |}.

(** [snapshot_undefined] is the [snapshot_response] built from a value that
    is no room object: every field of its payload is undefined. *)
Inductive message : Type :=
  | join_ack (participantId : string) (isLeader : bool) (view : RoomStateView)
  | join_error (error : string)
  | participant_joined (participantId : string) (name : jsval)
      (members : gmap string Participant)
  | participant_join_request (requestId : string) (participantName : jsval)
  | sync_state (mediaTime : jsval) (serverTs : Z) (playing kind ref : jsval)
  | control_update (type : string) (toTime mediaTime : jsval) (serverTs : Z)
      (playing : jsval)
  | media_cleared
  | leader_changed (newLeaderId : string) (members : gmap string Participant)
  | participant_kicked (reason : string)
  | participant_left (participantId : string) (members : gmap string Participant)
      (newLeaderId : option string) (reason : option string)
      (kickedParticipantName : option jsval)
  | participant_kicked_notification (participantId : string)
      (participantName : jsval) (kickedBy : string)
  | room_closed (reason : string)
  | snapshot_response (view : RoomStateView) (leader : option string)
      (members : gmap string Participant)
  | snapshot_undefined.

Definition emission : Type := target * message.

(** The sockets an emission reaches, by the transport's room membership. *)
Definition in_room (s : State) (sid roomId : string) : Prop :=
  ∃ k, sockets s !! sid = Some k ∧ roomId ∈ socket_rooms k.

Definition receives (s : State) (t : target) (sid : string) : Prop :=
  match t with
  | IoTo roomId => in_room s sid roomId
  | SocketTo sender roomId => in_room s sid roomId ∧ sid ≠ sender
  | SocketEmit sid' => sid = sid' ∧ is_Some (sockets s !! sid)
  | Callback sid' => sid = sid' ∧ is_Some (sockets s !! sid)
  end.

Definition expired_error : string :=
  "Share link has expired. Please request a new one from the room leader.".

Definition rejected_error : string :=
  "Join request was rejected by the room leader".

Definition failed_error : string := "Failed to join room".

(** [existingRoom.leaderId] when it is truthy. *)
Definition leader_of (room : Room) : option string :=
  if truthy_str (leaderId room) then leaderId room else None.

(** [shareToken && room.shareTokens && room.shareTokens[shareToken]]: when
    the condition holds, the token's name with the value found under it,
    the token record or [None] for a truthy value that is no record (its
    [expiresAt] is undefined). *)
Definition lookup_token (shareToken : option string) (room : Room)
  : option (string * option ShareToken) :=
  if truthy_str shareToken then
    match shareToken, shareTokens room with
    | Some tok, Some toks =>
        match token_get tok toks with
        | TokenData tokenData => Some (tok, Some tokenData)
        | OtherValue => Some (tok, None)
        | NoValue => None
        end
    | _, _ => None
    end
  else None.

(** [Date.now() < tokenData.expiresAt]; a comparison with undefined is
    false. *)
Definition still_valid (now : Z) (found : option ShareToken) : bool :=
  match found with
  | Some tokenData => (now <? expiresAt tokenData)%Z
  | None => false
  end.

(** [socket.join(roomId); const room = addParticipant(roomId, socket.id, name)]
    followed by the acknowledgement and the notification of the others.
    When [addParticipant] throws, the socket has joined the transport room
    already and the [catch] of the join handler answers the callback. *)
Definition join_directly (sid roomId : string) (name : jsval)
    (asLeader : Room → bool) (s : State) : State * list emission :=
  let sockets1 := alter (join roomId) sid (sockets s) in
  match addParticipant roomId sid name (rooms s) with
  | Returned (rooms1, room) =>
      ({| rooms := rooms1; sockets := sockets1 |},
       [ (Callback sid, join_ack sid (asLeader room) (roomState room));
         (SocketTo sid roomId, participant_joined sid name (participants room)) ])
  | Thrown =>
      ({| rooms := rooms s; sockets := sockets1 |},
       [ (Callback sid, join_error failed_error) ])
  end.

(** [socket.on('join_room', ({ roomId, name, shareToken }, callback) => ...)];
    [now] is the handler's reading of [Date.now()].  A value found under
    an inherited name has no [leaderId] and is treated as a room without
    leader. *)
Definition on_join_room (now : Z) (sid roomId : string) (name : jsval)
    (shareToken : option string) (s : State) : State * list emission :=
  let first := join_directly sid roomId name
                 (λ room, bool_decide (leaderId room = Some sid)) s in
  match getRoom roomId (rooms s) with
  | Own existingRoom =>
      match leader_of existingRoom with
      | None => first
      | Some leader =>
          match lookup_token shareToken existingRoom with
          | Some (tok, found) =>
              if still_valid now found
              then join_directly sid roomId name (λ _, false) s
              else
                let room1 :=
                  set_shareTokens (token_delete tok <$> shareTokens existingRoom)
                    existingRoom in
                (set_rooms (<[roomId := room1]> (rooms s)) s,
                 [ (Callback sid, join_error expired_error) ])
          | None =>
              let requestId := sid +:+ "_" +:+ pretty now in
              let request :=
                {| socketId := sid; requestName := name; timestamp := now |} in
              let room1 :=
                set_pendingRequests
                  (Some (<[requestId := request]>
                           (default ∅ (pendingRequests existingRoom))))
                  existingRoom in
              ({| rooms := <[roomId := room1]> (rooms s);
                  sockets := alter (store_pending roomId name) sid (sockets s) |},
               [ (SocketTo sid leader,
                  participant_join_request requestId name) ])
          end
      end
  | Inherited _ | Undefined => first
  end.

(** The authorization test shared by the leader-only handlers:
    [!room || room.leaderId !== socket.id] negated.  A value found under an
    inherited name has no [leaderId], so it never passes. *)
Definition led_by (sid roomId : string) (s : State) : option Room :=
  match getRoom roomId (rooms s) with
  | Own room => if bool_decide (leaderId room = Some sid) then Some room else None
  | Inherited _ | Undefined => None
  end.

Definition on_leader_state (now : Z) (sid roomId : string)
    (mediaTime isPlaying mediaKind mediaRef : jsval) (s : State)
  : State * list emission :=
  match led_by sid roomId s with
  | None => (s, [])
  | Some room =>
      let room1 := set_leaderMediaTime mediaTime room in
      let room2 := set_leaderServerTs now room1 in
      let room3 := set_isPlaying isPlaying room2 in
      let room4 := if truthy mediaKind then set_mediaKind mediaKind room3 else room3 in
      let room5 := if truthy mediaRef then set_mediaRef mediaRef room4 else room4 in
      (set_rooms (<[roomId := room5]> (rooms s)) s,
       [ (SocketTo sid roomId,
          sync_state mediaTime (leaderServerTs room5) isPlaying
            (Registry.mediaKind room5) (Registry.mediaRef room5)) ])
  end.

(** The [switch (type)] of the control handler. *)
Definition apply_control (now : Z) (type : string) (toTime : jsval) (room : Room)
  : Room :=
  if String.eqb type "PLAY" then
    set_leaderServerTs now (set_isPlaying (JBool true) room)
  else if String.eqb type "PAUSE" then
    set_leaderServerTs now (set_isPlaying (JBool false) room)
  else if String.eqb type "SEEK" then
    if is_number toTime
    then set_leaderServerTs now (set_leaderMediaTime toTime room)
    else room
  else room.

Definition on_control (now : Z) (sid roomId type : string) (toTime : jsval)
    (s : State) : State * list emission :=
  match led_by sid roomId s with
  | None => (s, [])
  | Some room =>
      let room1 := apply_control now type toTime room in
      (set_rooms (<[roomId := room1]> (rooms s)) s,
       [ (IoTo roomId,
          control_update type toTime (leaderMediaTime room1)
            (leaderServerTs room1) (isPlaying room1)) ])
  end.

Definition on_media_cleared (now : Z) (sid roomId : string) (s : State)
  : State * list emission :=
  match led_by sid roomId s with
  | None => (s, [])
  | Some room =>
      let room1 :=
        set_leaderServerTs now
          (set_leaderMediaTime (JNum 0%float)
             (set_isPlaying (JBool false)
                (set_mediaRef JNull (set_mediaKind JNull room)))) in
      (set_rooms (<[roomId := room1]> (rooms s)) s, [ (IoTo roomId, media_cleared) ])
  end.

(** Past the guard the room is a room object, so [promoteLeader] returns;
    a throw would leave the handler before anything is done. *)
Definition on_promote_leader (sid roomId participantId : string) (s : State)
  : State * list emission :=
  match led_by sid roomId s with
  | None => (s, [])
  | Some _ =>
      match promoteLeader roomId participantId (rooms s) with
      | Returned (rooms1, Some updatedRoom) =>
          (set_rooms rooms1 s,
           [ (IoTo roomId, leader_changed participantId (participants updatedRoom)) ])
      | Returned (rooms1, None) => (set_rooms rooms1 s, [])
      | Thrown => (s, [])
      end
  end.

(** [room.participants[participantId]?.name || 'Unknown'] *)
Definition shown_name (participantId : string) (room : Room) : jsval :=
  match get participantId (participants room) with
  | Own p => js_or (name p) (JStr "Unknown")
  | Inherited key => js_or (inherited_name key) (JStr "Unknown")
  | Undefined => JStr "Unknown"
  end.

Definition on_kick_participant (sid roomId participantId : string) (s : State)
  : State * list emission :=
  match led_by sid roomId s with
  | None => (s, [])
  | Some room =>
      if bool_decide (participantId = sid) then (s, [])
      else
        let participantName := shown_name participantId room in
        let '(sockets1, out1) :=
          match sockets s !! participantId with
          | Some _ =>
              (alter (leave roomId) participantId (sockets s),
               [ (SocketEmit participantId,
                  participant_kicked "Removed by room leader") ])
          | None => (sockets s, [])
          end in
        match removeParticipant roomId participantId (rooms s) with
        | Returned (rooms1, Some updatedRoom) =>
            ({| rooms := rooms1; sockets := sockets1 |},
             (out1 ++
              [ (SocketTo sid roomId,
                 participant_left participantId (participants updatedRoom)
                   (leaderId updatedRoom) (Some "kicked") (Some participantName));
                (SocketTo sid roomId,
                 participant_kicked_notification participantId participantName
                   "leader") ])%list)
        | Returned (rooms1, None) =>
            ({| rooms := rooms1; sockets := sockets1 |}, out1)
        | Thrown => ({| rooms := rooms s; sockets := sockets1 |}, out1)
        end
  end.

Definition on_create_share_token (now : Z) (sid roomId shareToken : string)
    (s : State) : State * list emission :=
  match led_by sid roomId s with
  | None => (s, [])
  | Some room =>
      let tokenData :=
        {| createdAt := now; createdBy := sid;
           expiresAt := (now + 24 * 60 * 60 * 1000)%Z |} in
      let room1 :=
        set_shareTokens
          (Some (token_set shareToken tokenData
                   (default no_tokens (shareTokens room)))) room in
      (set_rooms (<[roomId := room1]> (rooms s)) s, [])
  end.

(** The state after [delete room.pendingRequests[requestId]]. *)
Definition drop_request (roomId requestId : string)
    (pending : gmap string PendingRequest) (room : Room) (s : State) : State :=
  set_rooms
    (<[roomId := set_pendingRequests (Some (delete requestId pending)) room]>
       (rooms s)) s.

(** A value found under an inherited name has no [socketId]: no socket is
    looked up, and the handler takes its clean-up branch. *)
Definition on_approve_participant (sid roomId requestId : string) (s : State)
  : State * list emission :=
  match led_by sid roomId s with
  | None => (s, [])
  | Some room =>
      match pendingRequests room with
      | None => (s, [])
      | Some pending =>
          (* the clean-up branch: no socket, or no stored callback *)
          let cleaned := (drop_request roomId requestId pending room s,
                          @nil emission) in
          match get requestId pending with
          | Undefined => (s, [])
          | Inherited _ => cleaned
          | Own request =>
              match sockets s !! socketId request with
              | None => cleaned
              | Some participantSocket =>
                  if negb (joinCallback participantSocket) then cleaned
                  else
                    let sockets1 :=
                      alter (join roomId) (socketId request) (sockets s) in
                    match addParticipant roomId (socketId request)
                            (requestName request) (rooms s) with
                    | Returned (rooms1, room1) =>
                        let room2 :=
                          set_pendingRequests
                            (delete requestId <$> pendingRequests room1) room1 in
                        ({| rooms := <[roomId := room2]> rooms1;
                            sockets :=
                              alter clear_pending (socketId request) sockets1 |},
                         [ (Callback (socketId request),
                            join_ack (socketId request) false (roomState room1));
                           (SocketTo (socketId request) roomId,
                            participant_joined (socketId request)
                              (requestName request) (participants room1)) ])
                    | Thrown =>
                        ({| rooms := rooms s; sockets := sockets1 |},
                         [ (Callback (socketId request),
                            join_error failed_error) ])
                    end
              end
          end
      end
  end.

Definition on_reject_participant (sid roomId requestId : string) (s : State)
  : State * list emission :=
  match led_by sid roomId s with
  | None => (s, [])
  | Some room =>
      match pendingRequests room with
      | None => (s, [])
      | Some pending =>
          match get requestId pending with
          | Undefined => (s, [])
          | Inherited _ => (drop_request roomId requestId pending room s, [])
          | Own request =>
              let '(sockets1, out) :=
                match sockets s !! socketId request with
                | Some participantSocket =>
                    if joinCallback participantSocket
                    then (alter clear_pending (socketId request) (sockets s),
                          [ (Callback (socketId request),
                             join_error rejected_error) ])
                    else (sockets s, [])
                | None => (sockets s, [])
                end in
              ({| rooms :=
                    <[roomId := set_pendingRequests
                                  (Some (delete requestId pending)) room]> (rooms s);
                  sockets := sockets1 |}, out)
          end
      end
  end.

Definition on_leader_leave_room (sid roomId : string) (s : State)
  : State * list emission :=
  match led_by sid roomId s with
  | None => (s, [])
  | Some _ =>
      ({| rooms := deleteRoom roomId (rooms s);
          sockets := leave roomId <$> sockets s |},
       [ (IoTo roomId, room_closed "Leader left the room") ])
  end.

(** [if (!room) return;] lets a value found under an inherited name
    through; none of the fields read from it exists. *)
Definition on_snapshot_request (sid roomId : string) (s : State)
  : State * list emission :=
  match getRoom roomId (rooms s) with
  | Undefined => (s, [])
  | Inherited _ => (s, [ (SocketEmit sid, snapshot_undefined) ])
  | Own room =>
      (s, [ (SocketEmit sid,
             snapshot_response (roomState room) (leaderId room)
               (participants room)) ])
  end.

(** One turn of [rooms.forEach(roomId => ...)] in the disconnect handler.
    The accumulator holds the registry, the emissions made so far, and
    whether a throw of [removeParticipant] has ended the loop. *)
Definition disconnect_room (sid : string)
    (acc : gmap string Room * list emission * bool) (roomId : string)
  : gmap string Room * list emission * bool :=
  let '(rooms0, out, ended) := acc in
  if ended then acc
  else if bool_decide (roomId ≠ sid) then
    let wasLeader :=
      match getRoom roomId rooms0 with
      | Own room => bool_decide (leaderId room = Some sid)
      | Inherited _ | Undefined => false
      end in
    match removeParticipant roomId sid rooms0 with
    | Thrown => (rooms0, out, true)
    | Returned (rooms1, None) =>
        if wasLeader
        then (rooms1,
              (out ++ [ (SocketTo sid roomId,
                         room_closed "Leader left the room") ])%list, false)
        else (rooms1, out, false)
    | Returned (rooms1, Some updatedRoom) =>
        (rooms1,
         (out ++
          [ (SocketTo sid roomId,
             participant_left sid (participants updatedRoom)
               (leaderId updatedRoom) None None) ] ++
          match leader_of updatedRoom with
          | Some newLeader =>
              if bool_decide (newLeader ≠ sid)
              then [ (SocketTo sid roomId,
                      leader_changed newLeader (participants updatedRoom)) ]
              else []
          | None => []
          end)%list, false)
    end
  else acc.

(** [socket.on('disconnect', ...)], run over [socket.rooms] as the handler
    finds it. *)
Definition on_disconnect (sid : string) (s : State) : State * list emission :=
  match sockets s !! sid with
  | None => (s, [])
  | Some k =>
      let '(rooms1, out, _) :=
        foldl (disconnect_room sid) (rooms s, [], false) (socket_rooms k) in
      (set_rooms rooms1 s, out)
  end.

(** ** The transport's events *)

(** A new connection: the socket sits in the room named by its own id. *)
Definition on_connection (sid : string) (s : State) : State :=
  set_sockets
    (<[sid := {| joinCallback := false; pendingRoomId := None;
                 pendingName := None; socket_rooms := [sid] |}]> (sockets s)) s.

(** [socket.rooms] once the socket has left every room. *)
Definition leave_all (k : Socket) : Socket :=
  {| joinCallback := joinCallback k; pendingRoomId := pendingRoomId k;
     pendingName := pendingName k; socket_rooms := [] |}.

(** A disconnection.  The transport takes the socket out of all its rooms
    before it fires 'disconnect', so the handler finds [socket.rooms]
    empty; afterwards the socket is gone from [io.sockets.sockets]. *)
Definition disconnection (sid : string) (s : State) : State * list emission :=
  let s0 := set_sockets (alter leave_all sid (sockets s)) s in
  let '(s1, out) := on_disconnect sid s0 in
  (set_sockets (delete sid (sockets s1)) s1, out).

Inductive event : Type :=
  | Connection
  | JoinRoom (roomId : string) (name : jsval) (shareToken : option string)
  | LeaderState (roomId : string) (mediaTime isPlaying mediaKind mediaRef : jsval)
  | Control (roomId type : string) (toTime : jsval)
  | MediaCleared (roomId : string)
  | PromoteLeader (roomId participantId : string)
  | KickParticipant (roomId participantId : string)
  | CreateShareToken (roomId shareToken : string)
  | ApproveParticipant (roomId requestId : string)
  | RejectParticipant (roomId requestId : string)
  | LeaderLeaveRoom (roomId : string)
  | SnapshotRequest (roomId : string)
  | Disconnect.

(** The handler table of [io.on('connection', socket => ...)]. *)
Definition handle (now : Z) (sid : string) (e : event) (s : State)
  : State * list emission :=
  match e with
  | Connection => (s, [])
  | JoinRoom roomId name shareToken => on_join_room now sid roomId name shareToken s
  | LeaderState roomId mediaTime isPlaying mediaKind mediaRef =>
      on_leader_state now sid roomId mediaTime isPlaying mediaKind mediaRef s
  | Control roomId type toTime => on_control now sid roomId type toTime s
  | MediaCleared roomId => on_media_cleared now sid roomId s
  | PromoteLeader roomId participantId => on_promote_leader sid roomId participantId s
  | KickParticipant roomId participantId =>
      on_kick_participant sid roomId participantId s
  | CreateShareToken roomId shareToken =>
      on_create_share_token now sid roomId shareToken s
  | ApproveParticipant roomId requestId =>
      on_approve_participant sid roomId requestId s
  | RejectParticipant roomId requestId =>
      on_reject_participant sid roomId requestId s
  | LeaderLeaveRoom roomId => on_leader_leave_room sid roomId s
  | SnapshotRequest roomId => on_snapshot_request sid roomId s
  | Disconnect => disconnection sid s
  end.

(** One event of socket [sid] at server time [now].  Handlers exist only on
    connected sockets.  The transport hands out ids that are not in use,
    twenty characters drawn from letters, digits, [-] and [_]: never the
    empty string and never [__proto__]. *)
Definition step (now : Z) (sid : string) (e : event) (s : State)
  : State * list emission :=
  match e, sockets s !! sid with
  | Connection, None =>
      if String.eqb sid "" || String.eqb sid "__proto__" then (s, [])
      else (on_connection sid s, [])
  | Connection, Some _ => (s, [])
  | _, Some _ => handle now sid e s
  | _, None => (s, [])
  end.

Definition init : State := {| rooms := ∅; sockets := ∅ |}.

Inductive reachable : State → Prop :=
  | reachable_init : reachable init
  | reachable_step now sid e s :
      reachable s → reachable (step now sid e s).1.

End Server.

(** ** The client sync engine (class SyncEngine) *)

Set Warnings "-inexact-float".

Module SyncEngine.

Record SyncState := {
  serverOffset : float;
  lastSyncTime : float;
  isConnected : bool;
  driftHistory : list float
}.

Definition initial : SyncState :=
  {| serverOffset := 0%float; lastSyncTime := 0%float;
     isConnected := false; driftHistory := [] |}.

Definition DRIFT_HISTORY_SIZE : nat := 10.
Definition MAX_DRIFT_MS : float := 150%float.

(** What the body of [calculateServerOffset] meets after reading
    [clientStartTime]: no [serverUrl], a health reply carrying
    [data.timestamp] and read at [clientEndTime], or a thrown error. *)
Inductive probe : Type :=
  | NoServerUrl
  | HealthReply (timestamp clientEndTime : float)
  | FetchFailed.

(** [clientNow] is the closing [Date.now()] stored in [lastSyncTime]. *)
Definition calculateServerOffset (clientStartTime : float) (p : probe)
    (clientNow : float) (st : SyncState) : SyncState :=
  match p with
  | FetchFailed =>
      {| serverOffset := serverOffset st; lastSyncTime := lastSyncTime st;
         isConnected := false; driftHistory := driftHistory st |}
  | NoServerUrl =>
      {| serverOffset := serverOffset st; lastSyncTime := clientNow;
         isConnected := true; driftHistory := driftHistory st |}
  | HealthReply serverTime clientEndTime =>
      let roundTripTime := (clientEndTime - clientStartTime)%float in
      let estimatedServerNow := (serverTime + roundTripTime / 2)%float in
      {| serverOffset := (estimatedServerNow - clientEndTime)%float;
         lastSyncTime := clientNow;
         isConnected := true; driftHistory := driftHistory st |}
  end.

Definition getServerTime (localTime : float) (st : SyncState) : float :=
  (localTime + serverOffset st)%float.

Definition getLocalTime (serverTime : float) (st : SyncState) : float :=
  (serverTime - serverOffset st)%float.

(** [localNow] is the [Date.now()] that [getServerTime()] defaults to. *)
Definition calculateCurrentMediaTime (localNow : float)
    (leaderMediaTime leaderServerTs : float) (isPlaying : bool)
    (st : SyncState) : float :=
  if negb isPlaying then leaderMediaTime
  else
    let currentServerTime := getServerTime localNow st in
    let timeSinceLeaderUpdate :=
      ((currentServerTime - leaderServerTs) / 1000)%float in
    (leaderMediaTime + timeSinceLeaderUpdate)%float.

Definition calculateDrift (expectedTime actualTime : float) : float :=
  (actualTime - expectedTime)%float.

Definition recordDrift (drift : float) (st : SyncState) : SyncState :=
  let pushed := (driftHistory st ++ [drift])%list in
  {| serverOffset := serverOffset st; lastSyncTime := lastSyncTime st;
     isConnected := isConnected st;
     driftHistory :=
       if (DRIFT_HISTORY_SIZE <? length pushed)%nat then tail pushed else pushed |}.

Definition getAverageDrift (st : SyncState) : float :=
  match driftHistory st with
  | [] => 0%float
  | h =>
      let sum := foldl (λ acc drift, (acc + drift)%float) 0%float h in
      (sum / PrimFloat.of_uint63 (Uint63.of_Z (Z.of_nat (length h))))%float
  end.

Definition shouldCorrectDrift (drift : float) : bool :=
  PrimFloat.ltb (MAX_DRIFT_MS / 1000)%float (PrimFloat.abs drift).

Definition calculateCorrectionAmount (drift : float) : float :=
  if PrimFloat.ltb (PrimFloat.abs drift) 0.5%float
  then (drift * 0.1)%float
  else (drift * 0.5)%float.

(** The result pairs the new state with the argument [onSeek] was called
    with, if it was called; the boolean result is [true] exactly then. *)
Definition applyCorrectionIfNeeded (expectedTime actualTime : float)
    (st : SyncState) : SyncState * option float :=
  let drift := calculateDrift expectedTime actualTime in
  let st1 := recordDrift drift st in
  if shouldCorrectDrift drift then
    let correction := calculateCorrectionAmount drift in
    let correctedTime := (actualTime - correction)%float in
    (st1, Some correctedTime)
  else (st1, None).

Definition resetDriftHistory (st : SyncState) : SyncState :=
  {| serverOffset := serverOffset st; lastSyncTime := lastSyncTime st;
     isConnected := isConnected st; driftHistory := [] |}.

End SyncEngine.

(** ** The client store (lib/socket.ts, useSyncStreamStore) *)

Module Store.

Inductive MediaKind : Type := youtube | mp3.

Record RoomState := {
  roomId : option string;
  participantId : option string;
  participants : gmap string jsval;
  leaderId : option string;
  isLeader : bool;
  mediaKind : option MediaKind;
  mediaRef : option string;
  isPlaying : bool;
  currentTime : float
}.

Record Store := {
  room : RoomState;
  syncEngine : SyncEngine.SyncState
}.

(** [{ ...state.room, isPlaying, currentTime }] *)
Definition set_playback (playing : bool) (time : float) (r : RoomState)
  : RoomState :=
  {| roomId := roomId r; participantId := participantId r;
     participants := participants r; leaderId := leaderId r;
     isLeader := isLeader r; mediaKind := mediaKind r; mediaRef := mediaRef r;
     isPlaying := playing; currentTime := time |}.

(** [socket.on('control_update', ({ type, toTime, leaderMediaTime,
    leaderServerTs, isPlaying }) => ...)] *)
Definition on_control_update (localNow : float) (type : string) (toTime : jsval)
    (leaderMediaTime leaderServerTs : float) (isPlaying : bool) (st : Store)
  : Store :=
  let '(currentTime, engine) :=
    match String.eqb type "SEEK", toTime with
    | true, JNum t => (t, SyncEngine.resetDriftHistory (syncEngine st))
    | _, _ =>
        (SyncEngine.calculateCurrentMediaTime localNow leaderMediaTime
           leaderServerTs isPlaying (syncEngine st),
         syncEngine st)
    end in
  {| room := set_playback isPlaying currentTime (room st);
     syncEngine := engine |}.

End Store.

(** ** The follower effect of SyncStreamApp.tsx *)

Module App.
Import Store.

Inductive command : Type :=
  | play
  | pause
  | seekTo (seconds : float).

(** "Sync follower player with leader state".  [tsArg] is the [Date.now()]
    passed as the leader timestamp, [localNow] the one read inside the
    engine; [playerState] and [actualTime] are what the player reports.
    The result lists the calls made on the player, in order. *)
Definition follower_sync (tsArg localNow : float) (hasPlayer isPlayerReady : bool)
    (playerState : Z) (actualTime : float) (st : Store)
  : Store * list command :=
  let r := room st in
  if negb (isLeader r) && hasPlayer && bool_decide (is_Some (mediaKind r))
     && truthy_str (mediaRef r) && isPlayerReady
  then
    let isActuallyPlaying := (playerState =? 1)%Z in
    let expectedTime :=
      SyncEngine.calculateCurrentMediaTime localNow (currentTime r) tsArg
        (isPlaying r) (syncEngine st) in
    let reconcile :=
      if isPlaying r && negb isActuallyPlaying && negb (playerState =? 3)%Z
      then [play]
      else if negb (isPlaying r) && isActuallyPlaying then [pause]
      else [] in
    if isPlaying r && isActuallyPlaying then
      let timeDrift := PrimFloat.abs (expectedTime - actualTime)%float in
      if PrimFloat.ltb 0.5%float timeDrift
      then ({| room := r;
               syncEngine := SyncEngine.resetDriftHistory (syncEngine st) |},
            (reconcile ++ [seekTo expectedTime])%list)
      else (st, reconcile)
    else (st, reconcile)
  else (st, []).

End App.

(** ** Well-formedness of rooms and of server states *)

Module Invariant.
Import Registry Server.

(** A room in the registry has a leader and at least one participant; the
    ids it records (participants, requesters) are transport ids, never the
    empty string. *)
Record room_ok (room : Room) : Prop := {
  has_leader : truthy_str (leaderId room) = true;
  has_member : participants room ≠ ∅;
  member_ids :
    ∀ p, is_Some (participants room !! p) → p ≠ "";
  requester_ids :
    ∀ pending rid req,
      pendingRequests room = Some pending → pending !! rid = Some req →
      socketId req ≠ ""
}.

Definition registry_ok (rooms : gmap string Room) : Prop :=
  map_Forall (λ _ room, room_ok room) rooms.

Record state_ok (s : State) : Prop := {
  rooms_ok : registry_ok (rooms s);
  socket_ids : ∀ sid, is_Some (sockets s !! sid) → sid ≠ ""
}.

End Invariant.

(** ** Scenarios used to exercise the statements *)

Module Scenario.
Import Registry Server.

(** L connects and opens room R1 at t = 1000, P connects at t = 2000. *)
Definition opened : State :=
  (step 1000 "L" (JoinRoom "R1" (JStr "Lea") None)
     (step 1000 "L" Connection init).1).1.

Definition with_P_connected : State :=
  (step 2000 "P" Connection opened).1.

(** P asks to join at t = 2500 and waits for the leader. *)
Definition P_pending : State :=
  (step 2500 "P" (JoinRoom "R1" (JStr "Pat") None) with_P_connected).1.

(** L approves at t = 3000: R1 now has the two members L (leader) and P. *)
Definition two_members : State :=
  (step 3000 "L" (ApproveParticipant "R1" "P_2500") P_pending).1.

(** L hands out the share token "tok" at t = 2100 (P is connected, not yet
    in the room); it expires at 2100 + 86400000. *)
Definition with_token : State :=
  (step 2100 "L" (CreateShareToken "R1" "tok") with_P_connected).1.

(** P, still waiting for approval, loses its connection at t = 2700. *)
Definition P_gone : State :=
  (step 2700 "P" Disconnect P_pending).1.

(** L, alone in R1, promotes the name "constructor" at t = 1500. *)
Definition misled : State :=
  (step 1500 "L" (PromoteLeader "R1" "constructor") opened).1.

(** A follower's store: in room R1, media loaded, leader state "playing at
    10 s", two drift samples recorded. *)
Definition follower : Store.Store :=
  {| Store.room :=
       {| Store.roomId := Some "R1"; Store.participantId := Some "P";
          Store.participants := ∅; Store.leaderId := Some "L";
          Store.isLeader := false; Store.mediaKind := Some Store.youtube;
          Store.mediaRef := Some "video"; Store.isPlaying := true;
          Store.currentTime := 10%float |};
     Store.syncEngine :=
       {| SyncEngine.serverOffset := 0%float;
          SyncEngine.lastSyncTime := 0%float;
          SyncEngine.isConnected := true;
          SyncEngine.driftHistory := [0.25%float; 0.125%float] |} |}.

End Scenario.

(** ** The messages of the protocol, by the room they name *)

Module Protocol.
Import Registry Server.

(** The room named by a message that only the leader may send. *)
Definition leader_only (e : event) : option string :=
  match e with
  | LeaderState roomId _ _ _ _ => Some roomId
  | Control roomId _ _ => Some roomId
  | MediaCleared roomId => Some roomId
  | PromoteLeader roomId _ => Some roomId
  | KickParticipant roomId _ => Some roomId
  | CreateShareToken roomId _ => Some roomId
  | ApproveParticipant roomId _ => Some roomId
  | RejectParticipant roomId _ => Some roomId
  | LeaderLeaveRoom roomId => Some roomId
  | Connection | JoinRoom _ _ _ | SnapshotRequest _ | Disconnect => None
  end.

(** The room named by any message with a roomId in its payload. *)
Definition room_of (e : event) : option string :=
  match e with
  | JoinRoom roomId _ _ => Some roomId
  | SnapshotRequest roomId => Some roomId
  | _ => leader_only e
  end.

End Protocol.

(** ** The actions of the client store (lib/socket.ts) *)

Module Client.
Import Store.

(** The store around the room and the engine: whether [socket] is set,
    and the connection flags. *)
Record Client := {
  store : Store.Store;
  socket : bool;
  isConnected : bool;
  connectionError : option string
}.

Definition set_store (v : Store.Store) (c : Client) : Client :=
  {| store := v; socket := socket c; isConnected := isConnected c;
     connectionError := connectionError c |}.

(** [{ ...state.room, roomId: null, participantId: null, participants: {},
    leaderId: null, isLeader: false, mediaKind: null, mediaRef: null,
    isPlaying: false, currentTime: 0 }] *)
Definition left_room : RoomState :=
  {| roomId := None; participantId := None; participants := ∅;
     leaderId := None; isLeader := false; mediaKind := None; mediaRef := None;
     isPlaying := false; currentTime := 0%float |}.

Definition reset_room (c : Client) : Client :=
  set_store {| room := left_room; syncEngine := syncEngine (store c) |} c.

(** [room.mediaKind] and [room.mediaRef] as payload values. *)
Definition kind_value (k : option MediaKind) : jsval :=
  match k with
  | Some youtube => JStr "youtube"
  | Some mp3 => JStr "mp3"
  | None => JNull
  end.

Definition ref_value (r : option string) : jsval :=
  match r with
  | Some ref => JStr ref
  | None => JNull
  end.

(** [if (!socket || !room.isLeader || !room.roomId) return;]: the room id
    when the guard lets the action through. *)
Definition leading (c : Client) : option string :=
  if socket c && isLeader (room (store c)) && truthy_str (roomId (room (store c)))
  then roomId (room (store c)) else None.

(** The leader-side actions of the store.  [KickParticipant] carries the
    answer given to its [confirm] dialog. *)
Inductive action : Type :=
  | Play
  | Pause
  | Seek (time : float)
  | PromoteLeader (participantId : string)
  | KickParticipant (participantId : string) (confirmed : bool)
  | ApproveParticipant (requestId : string)
  | RejectParticipant (requestId : string)
  | SendLeaderState (mediaTime : float) (isPlaying : bool).

(** An action gives the new store and the payloads handed to
    [socket.emit], as the server's handlers name them ([leader_state] is
    sent with a [serverOffset] field that no handler reads). *)
Definition act (a : action) (c : Client) : Client * list Server.event :=
  match leading c with
  | None => (c, [])
  | Some roomId =>
      match a with
      | Play => (c, [Server.Control roomId "PLAY" JUndefined])
      | Pause => (c, [Server.Control roomId "PAUSE" JUndefined])
      | Seek time =>
          (set_store
             {| room := room (store c);
                syncEngine := SyncEngine.resetDriftHistory (syncEngine (store c)) |} c,
           [Server.Control roomId "SEEK" (JNum time)])
      | PromoteLeader participantId =>
          (c, [Server.PromoteLeader roomId participantId])
      | KickParticipant participantId confirmed =>
          (c, if confirmed then [Server.KickParticipant roomId participantId]
              else [])
      | ApproveParticipant requestId =>
          (c, [Server.ApproveParticipant roomId requestId])
      | RejectParticipant requestId =>
          (c, [Server.RejectParticipant roomId requestId])
      | SendLeaderState mediaTime isPlaying =>
          (c, [Server.LeaderState roomId (JNum mediaTime) (JBool isPlaying)
                 (kind_value (mediaKind (room (store c))))
                 (ref_value (mediaRef (room (store c))))])
      end
  end.

(** What [leaveRoom] does with the socket. *)
Inductive departure : Type :=
  | EmitLeaderLeave (roomId : string)   (* socket.emit('leader_leave_room') *)
  | Reconnect.                          (* socket.disconnect(); socket.connect() *)

(** [socket.on('disconnect', ...)]: [isConnected] is cleared and the room
    loses its identity, keeping media and playback. *)
Definition on_socket_disconnect (c : Client) : Client :=
  let r := room (store c) in
  {| store :=
       {| room :=
            {| roomId := None; participantId := None; participants := ∅;
               leaderId := None; isLeader := false;
               mediaKind := mediaKind r; mediaRef := mediaRef r;
               isPlaying := isPlaying r; currentTime := currentTime r |};
          syncEngine := syncEngine (store c) |};
     socket := socket c; isConnected := false;
     connectionError := connectionError c |}.

(** [socket.disconnect()]: on a connected socket the 'disconnect' listener
    runs before the call returns.  [isConnected] is set by the 'connect'
    listener and cleared by this one, so it tells whether the socket is
    connected. *)
Definition socket_disconnect (c : Client) : Client :=
  if isConnected c then on_socket_disconnect c else c.

(** [leaveRoom].  The reconnection started by [socket.connect()] completes
    later, in a 'connect' event. *)
Definition leaveRoom (c : Client) : Client * list departure :=
  if socket c && truthy_str (roomId (room (store c))) then
    if isLeader (room (store c))
    then (reset_room c,
          match roomId (room (store c)) with
          | Some roomId => [EmitLeaderLeave roomId]
          | None => []
          end)
    else (reset_room (socket_disconnect c), [Reconnect])
  else (c, []).

(** [socket.on('room_closed', ({ reason }) => ...)]; [confirmed] is the
    answer to the dialog shown when the leader left. *)
Definition on_room_closed (reason : string) (confirmed : bool) (c : Client)
  : Client :=
  if String.eqb reason "Leader left the room" then
    if confirmed then reset_room c else reset_room c
  else reset_room c.

(** [socket.on('participant_kicked', ...)] *)
Definition on_participant_kicked (c : Client) : Client := reset_room c.

(** The [participants] object of a server payload as the store keeps it. *)
Definition names (members : gmap string Registry.Participant)
  : gmap string jsval :=
  Registry.name <$> members.

(** [{ ...state.room, leaderId: newLeaderId,
       isLeader: newLeaderId === state.room.participantId, participants }],
    the update made by both [leader_changed] and [participant_left]. *)
Definition follow_leader (newLeaderId : option string)
    (members : gmap string jsval) (c : Client) : Client :=
  let r := room (store c) in
  set_store
    {| room :=
         {| roomId := roomId r; participantId := participantId r;
            participants := members; leaderId := newLeaderId;
            isLeader := bool_decide (newLeaderId = participantId r);
            mediaKind := mediaKind r; mediaRef := mediaRef r;
            isPlaying := isPlaying r; currentTime := currentTime r |};
       syncEngine := syncEngine (store c) |} c.

(** [socket.on('leader_changed', ({ newLeaderId, participants }) => ...)] *)
Definition on_leader_changed (newLeaderId : string)
    (members : gmap string Registry.Participant) (c : Client) : Client :=
  follow_leader (Some newLeaderId) (names members) c.

(** [socket.on('participant_left',
               ({ participantId, participants, newLeaderId }) => ...)] *)
Definition on_participant_left (members : gmap string Registry.Participant)
    (newLeaderId : option string) (c : Client) : Client :=
  follow_leader newLeaderId (names members) c.

End Client.

(** ** Two clients of room R1 *)

Module ClientScenario.
Import Store Client.

Definition member (id : string) (leader : bool) : Client :=
  {| store :=
       {| room :=
            {| roomId := Some "R1"; participantId := Some id;
               participants := ∅; leaderId := Some "L"; isLeader := leader;
               mediaKind := None; mediaRef := None; isPlaying := false;
               currentTime := 0%float |};
          syncEngine := SyncEngine.initial |};
     socket := true; isConnected := true; connectionError := None |}.

Definition of_L : Client := member "L" true.
Definition of_P : Client := member "P" false.

End ClientScenario.

(** * Properties *)

(** ** The registry operations preserve well-formedness *)

Section RegistryFacts.
Import JsObject Registry Server Invariant.

Lemma truthy_str_Some (l : string) : l ≠ "" → truthy_str (Some l) = true.
Proof.
  intros Hl. simpl. destruct (String.eqb_spec l ""); [contradiction | reflexivity].
Qed.

Lemma truthy_str_inv (o : option string) :
  truthy_str o = true → ∃ l, o = Some l ∧ l ≠ "".
Proof.
  destruct o as [l|]; simpl; [|discriminate].
  destruct (String.eqb_spec l ""); [discriminate|]. eauto.
Qed.

Lemma inherited_nonempty (key : string) : inherited key = true → key ≠ "".
Proof. intros H ->. vm_compute in H. discriminate H. Qed.

Lemma get_own {V : Type} (o : gmap string V) key v :
  o !! key = Some v → get key o = Own v.
Proof. intros H. unfold get. by rewrite H. Qed.

Lemma get_plain {V : Type} (o : gmap string V) key :
  o !! key = None → inherited key = false → get key o = Undefined.
Proof. intros H Hi. unfold get. by rewrite H, Hi. Qed.

Lemma get_inherited {V : Type} (o : gmap string V) key :
  o !! key = None → inherited key = true → get key o = Inherited key.
Proof. intros H Hi. unfold get. by rewrite H, Hi. Qed.

Lemma get_Own_inv {V : Type} (o : gmap string V) key v :
  get key o = Own v → o !! key = Some v.
Proof.
  unfold get. destruct (o !! key); [by intros [= ->]|].
  by destruct (inherited key).
Qed.

Lemma get_Undefined_inv {V : Type} (o : gmap string V) key :
  get key o = Undefined → o !! key = None ∧ inherited key = false.
Proof.
  unfold get. destruct (o !! key); [done|].
  by destruct (inherited key).
Qed.

Lemma get_Inherited_inv {V : Type} (o : gmap string V) key key' :
  get key o = Inherited key' →
  key' = key ∧ o !! key = None ∧ inherited key = true.
Proof.
  unfold get. destruct (o !! key); [done|].
  destruct (inherited key); [|done]. by intros [= ->].
Qed.

(** A truthy lookup names an own key or an inherited name. *)
Lemma present_get {V : Type} (o : gmap string V) key :
  present (get key o) = true ↔ is_Some (o !! key) ∨ inherited key = true.
Proof.
  unfold get. destruct (o !! key) as [v|]; simpl.
  - split; eauto.
  - destruct (inherited key); simpl; split; try done; auto.
    intros [[? ?]|?]; done.
Qed.

Lemma room_ok_leader_truthy (room : Room) :
  room_ok room → truthy_str (leaderId room) = true.
Proof. by intros [H _ _ _]. Qed.

(** Fields other than [leaderId], [participants] and [pendingRequests] do
    not matter to [room_ok]. *)
Lemma room_ok_same (room room' : Room) :
  leaderId room' = leaderId room →
  participants room' = participants room →
  pendingRequests room' = pendingRequests room →
  room_ok room → room_ok room'.
Proof.
  intros Hl Hp Hq [H1 H2 H3 H4]. split; rewrite ?Hl, ?Hp, ?Hq; assumption.
Qed.

Lemma registry_ok_insert (rooms : gmap string Room) roomId room :
  room_ok room → registry_ok rooms → registry_ok (<[roomId := room]> rooms).
Proof. intros Hr Hok. by apply map_Forall_insert_2. Qed.

Lemma registry_ok_delete (rooms : gmap string Room) roomId :
  registry_ok rooms → registry_ok (delete roomId rooms).
Proof. intros Hok. by apply map_Forall_delete. Qed.

Lemma registry_ok_lookup (rooms : gmap string Room) roomId room :
  registry_ok rooms → rooms !! roomId = Some room → room_ok room.
Proof. intros Hok Hr. exact (map_Forall_lookup_1 _ _ _ _ Hok Hr). Qed.

(** [addParticipant] on a room object, and on an id that names nothing. *)
Lemma addParticipant_existing_room (rooms : gmap string Room) roomId sid name room :
  rooms !! roomId = Some room →
  let entered :=
    set_participants (<[sid := {| name := name |}]> (participants room)) room in
  let room' :=
    if truthy_str (leaderId room) then entered
    else set_leaderId (Some sid) entered in
  addParticipant roomId sid name rooms
  = Returned (<[roomId := room']> rooms, room').
Proof.
  intros Hroom. unfold addParticipant, createRoom, get. rewrite Hroom. simpl.
  by destruct (truthy_str (leaderId room)).
Qed.

Lemma addParticipant_fresh (rooms : gmap string Room) roomId sid name :
  rooms !! roomId = None → inherited roomId = false →
  let room' :=
    set_leaderId (Some sid)
      (set_participants {[ sid := {| name := name |} ]} newRoom) in
  addParticipant roomId sid name rooms
  = Returned (<[roomId := room']> rooms, room').
Proof.
  intros Hroom Hplain. unfold addParticipant, createRoom, get.
  rewrite Hroom, Hplain. simpl. by rewrite insert_insert_eq, insert_empty.
Qed.

Lemma addParticipant_inherited (rooms : gmap string Room) roomId sid name :
  rooms !! roomId = None → inherited roomId = true →
  addParticipant roomId sid name rooms = Thrown.
Proof.
  intros Hroom Hin. unfold addParticipant, createRoom, get.
  by rewrite Hroom, Hin.
Qed.

(** When [addParticipant] returns, the room it returns is the one stored
    under [roomId]. *)
Lemma addParticipant_rooms (rooms : gmap string Room) roomId sid name rooms' room' :
  addParticipant roomId sid name rooms = Returned (rooms', room') →
  rooms' = <[roomId := room']> rooms.
Proof.
  destruct (rooms !! roomId) as [room|] eqn:Hroom.
  - rewrite (addParticipant_existing_room _ _ _ _ _ Hroom). by intros [= <- <-].
  - destruct (inherited roomId) eqn:Hin.
    + by rewrite (addParticipant_inherited _ _ _ _ Hroom Hin).
    + rewrite (addParticipant_fresh _ _ _ _ Hroom Hin). by intros [= <- <-].
Qed.

Lemma addParticipant_room_ok (rooms : gmap string Room) roomId sid name rooms' room' :
  sid ≠ "" → registry_ok rooms →
  addParticipant roomId sid name rooms = Returned (rooms', room') →
  room_ok room'.
Proof.
  intros Hsid Hok.
  destruct (rooms !! roomId) as [room|] eqn:Hroom.
  - rewrite (addParticipant_existing_room _ _ _ _ _ Hroom).
    pose proof (registry_ok_lookup _ _ _ Hok Hroom) as Hr.
    rewrite (room_ok_leader_truthy _ Hr). intros [= _ <-].
    destruct Hr as [Hl Hm Hids Hreq]. split; simpl; [done| | |done].
    + apply insert_non_empty.
    + intros p. destruct (decide (sid = p)) as [->|Hne]; [done|].
      rewrite lookup_insert_ne by done. apply Hids.
  - destruct (inherited roomId) eqn:Hin.
    + by rewrite (addParticipant_inherited _ _ _ _ Hroom Hin).
    + rewrite (addParticipant_fresh _ _ _ _ Hroom Hin). intros [= _ <-].
      split; simpl.
      * by apply truthy_str_Some.
      * apply insert_non_empty.
      * intros p. destruct (decide (sid = p)) as [->|Hne]; [done|].
        rewrite lookup_singleton_ne by done. by intros [? ?].
      * intros pending rid req Hp. discriminate Hp.
Qed.

Lemma addParticipant_registry_ok (rooms : gmap string Room) roomId sid name
    rooms' room' :
  sid ≠ "" → registry_ok rooms →
  addParticipant roomId sid name rooms = Returned (rooms', room') →
  registry_ok rooms'.
Proof.
  intros Hsid Hok Hadd. rewrite (addParticipant_rooms _ _ _ _ _ _ Hadd).
  apply registry_ok_insert; [by eapply addParticipant_room_ok | done].
Qed.

(** [removeParticipant] on a room object. *)
Lemma removeParticipant_room (rooms : gmap string Room) roomId sid room :
  rooms !! roomId = Some room →
  let room' := set_participants (delete sid (participants room)) room in
  removeParticipant roomId sid rooms
  = if bool_decide (leaderId room = Some sid)
    then Returned (delete roomId rooms, None)
    else if bool_decide (size (delete sid (participants room)) = 0%nat)
    then Returned (delete roomId rooms, None)
    else Returned (<[roomId := room']> rooms, Some room').
Proof.
  intros Hroom. unfold removeParticipant, getRoom, get, deleteRoom.
  by rewrite Hroom.
Qed.

Lemma removeParticipant_registry_ok (rooms : gmap string Room) roomId sid
    rooms' left :
  registry_ok rooms →
  removeParticipant roomId sid rooms = Returned (rooms', left) →
  registry_ok rooms'.
Proof.
  intros Hok.
  destruct (rooms !! roomId) as [room|] eqn:Hroom.
  - rewrite (removeParticipant_room _ _ _ _ Hroom).
    case_bool_decide as Hlead; [intros [= <- _]; by apply registry_ok_delete|].
    case_bool_decide as Hsize; [intros [= <- _]; by apply registry_ok_delete|].
    intros [= <- _]. apply registry_ok_insert; [|done].
    destruct (registry_ok_lookup _ _ _ Hok Hroom) as [Hl Hm Hids Hreq].
    split; simpl; [done| | |done].
    + intros Hempty. apply Hsize. by rewrite Hempty, map_size_empty.
    + intros p [x Hx]. apply Hids.
      apply lookup_delete_Some in Hx as [_ Hx]. eauto.
  - unfold removeParticipant, getRoom, get. rewrite Hroom.
    destruct (inherited roomId); [done|]. by intros [= <- _].
Qed.

(** [promoteLeader] on a room object. *)
Lemma promoteLeader_room (rooms : gmap string Room) roomId newLeaderId room :
  rooms !! roomId = Some room →
  promoteLeader roomId newLeaderId rooms
  = if present (get newLeaderId (participants room))
    then Returned (<[roomId := set_leaderId (Some newLeaderId) room]> rooms,
                   Some (set_leaderId (Some newLeaderId) room))
    else Returned (rooms, None).
Proof.
  intros Hroom. unfold promoteLeader, getRoom. by rewrite (get_own _ _ _ Hroom).
Qed.

Lemma promoteLeader_registry_ok (rooms : gmap string Room) roomId newLeaderId
    rooms' promoted :
  registry_ok rooms →
  promoteLeader roomId newLeaderId rooms = Returned (rooms', promoted) →
  registry_ok rooms'.
Proof.
  intros Hok.
  destruct (rooms !! roomId) as [room|] eqn:Hroom.
  - rewrite (promoteLeader_room _ _ _ _ Hroom).
    destruct (present (get newLeaderId (participants room))) eqn:Hp;
      intros [= <- _]; [|done].
    apply registry_ok_insert; [|done].
    destruct (registry_ok_lookup _ _ _ Hok Hroom) as [Hl Hm Hids Hreq].
    split; simpl; [|done..].
    apply truthy_str_Some.
    apply present_get in Hp as [Hown|Hin];
      [by apply Hids | by apply inherited_nonempty].
  - unfold promoteLeader, getRoom, get. rewrite Hroom.
    destruct (inherited roomId); [done|]. by intros [= <- _].
Qed.

End RegistryFacts.

(** ** Every handler preserves well-formedness *)

Section HandlerFacts.
Import JsObject Registry Server Invariant.

Lemma led_by_Some sid roomId s room :
  led_by sid roomId s = Some room →
  rooms s !! roomId = Some room ∧ leaderId room = Some sid.
Proof.
  unfold led_by, getRoom.
  destruct (get roomId (rooms s)) as [r| |] eqn:Hget; [|discriminate..].
  apply get_Own_inv in Hget.
  case_bool_decide; [|discriminate]. intros [= ->]. done.
Qed.

Lemma led_by_intro sid roomId s room :
  rooms s !! roomId = Some room → leaderId room = Some sid →
  led_by sid roomId s = Some room.
Proof.
  intros Hroom Hl. unfold led_by, getRoom. rewrite (get_own _ _ _ Hroom).
  by rewrite bool_decide_eq_true_2.
Qed.

Lemma led_by_None sid roomId s :
  led_by sid roomId s = None ↔
  ∀ room, rooms s !! roomId = Some room → leaderId room ≠ Some sid.
Proof.
  unfold led_by, getRoom, get. destruct (rooms s !! roomId) as [r|].
  - case_bool_decide as H; split; try done.
    + intros Hall. exfalso. by apply (Hall r).
    + intros _ room [= <-]. done.
  - destruct (inherited roomId);
      (split; [intros _ room Hr; discriminate Hr | done]).
Qed.

Lemma leader_of_Some room l :
  leader_of room = Some l → leaderId room = Some l ∧ l ≠ "".
Proof.
  unfold leader_of. destruct (truthy_str (leaderId room)) eqn:Ht; [|discriminate].
  intros Hl. apply truthy_str_inv in Ht as (l' & Hl' & Hne). split; congruence.
Qed.

(** Rewriting a stored room without touching leader, members or requests. *)
Lemma state_ok_update s roomId room room' :
  state_ok s → rooms s !! roomId = Some room →
  leaderId room' = leaderId room →
  participants room' = participants room →
  pendingRequests room' = pendingRequests room →
  state_ok (set_rooms (<[roomId := room']> (rooms s)) s).
Proof.
  intros [Hr Hs] Hroom Hl Hp Hq. split; simpl; [|done].
  apply registry_ok_insert; [|done].
  eapply room_ok_same; eauto using registry_ok_lookup.
Qed.

Lemma alter_socket_ids (f : Socket → Socket) sid (m : gmap string Socket) :
  (∀ i, is_Some (m !! i) → i ≠ "") →
  ∀ i, is_Some (alter f sid m !! i) → i ≠ "".
Proof. intros H i Hi. apply H. by apply lookup_alter_is_Some in Hi. Qed.

Lemma join_directly_ok sid roomId name asLeader s :
  sid ≠ "" → state_ok s → state_ok (join_directly sid roomId name asLeader s).1.
Proof.
  intros Hsid [Hr Hs]. unfold join_directly.
  destruct (addParticipant roomId sid name (rooms s)) as [[rooms1 room]|] eqn:Hadd;
    simpl; split; simpl; try by apply alter_socket_ids.
  - by eapply addParticipant_registry_ok.
  - done.
Qed.

Lemma on_join_room_ok now sid roomId name shareToken s :
  sid ≠ "" → state_ok s → state_ok (on_join_room now sid roomId name shareToken s).1.
Proof.
  intros Hsid Hok. unfold on_join_room, getRoom.
  destruct (get roomId (rooms s)) as [existingRoom| |] eqn:Hroom;
    [|by apply join_directly_ok..].
  apply get_Own_inv in Hroom.
  destruct (leader_of existingRoom) as [leader|]; [|by apply join_directly_ok].
  destruct (lookup_token shareToken existingRoom) as [[tok found]|].
  - destruct (still_valid now found); [by apply join_directly_ok|].
    simpl. by eapply state_ok_update.
  - simpl. destruct Hok as [Hr Hs]. split; simpl; [|by apply alter_socket_ids].
    apply registry_ok_insert; [|done].
    destruct (registry_ok_lookup _ _ _ Hr Hroom) as [H1 H2 H3 H4].
    split; simpl; [done..|].
    intros pending rid req [= <-] Hreq.
    apply lookup_insert_Some in Hreq as [[_ <-]|[_ Hreq]]; [done|].
    destruct (pendingRequests existingRoom) as [pend|] eqn:Hpend; simpl in Hreq.
    + by eapply H4.
    + by rewrite lookup_empty in Hreq.
Qed.

Lemma on_leader_state_ok now sid roomId mediaTime isPlaying mediaKind mediaRef s :
  state_ok s →
  state_ok (on_leader_state now sid roomId mediaTime isPlaying mediaKind mediaRef s).1.
Proof.
  intros Hok. unfold on_leader_state.
  destruct (led_by sid roomId s) as [room|] eqn:Hled; [|done].
  apply led_by_Some in Hled as [Hroom _]. simpl.
  eapply state_ok_update; eauto;
    by destruct (truthy mediaKind), (truthy mediaRef).
Qed.

Lemma apply_control_same now type toTime room :
  leaderId (apply_control now type toTime room) = leaderId room ∧
  participants (apply_control now type toTime room) = participants room ∧
  pendingRequests (apply_control now type toTime room) = pendingRequests room ∧
  shareTokens (apply_control now type toTime room) = shareTokens room.
Proof.
  unfold apply_control.
  destruct (String.eqb type "PLAY"); [done|].
  destruct (String.eqb type "PAUSE"); [done|].
  destruct (String.eqb type "SEEK"); [|done].
  by destruct (is_number toTime).
Qed.

Lemma on_control_ok now sid roomId type toTime s :
  state_ok s → state_ok (on_control now sid roomId type toTime s).1.
Proof.
  intros Hok. unfold on_control.
  destruct (led_by sid roomId s) as [room|] eqn:Hled; [|done].
  apply led_by_Some in Hled as [Hroom _]. simpl.
  destruct (apply_control_same now type toTime room) as (? & ? & ? & _).
  by eapply state_ok_update.
Qed.

Lemma on_media_cleared_ok now sid roomId s :
  state_ok s → state_ok (on_media_cleared now sid roomId s).1.
Proof.
  intros Hok. unfold on_media_cleared.
  destruct (led_by sid roomId s) as [room|] eqn:Hled; [|done].
  apply led_by_Some in Hled as [Hroom _]. simpl.
  by eapply state_ok_update.
Qed.

Lemma on_promote_leader_ok sid roomId participantId s :
  state_ok s → state_ok (on_promote_leader sid roomId participantId s).1.
Proof.
  intros [Hr Hs]. unfold on_promote_leader.
  destruct (led_by sid roomId s) as [room|]; [|done].
  destruct (promoteLeader roomId participantId (rooms s)) as [[rooms1 u]|] eqn:Hp;
    [|done].
  apply (promoteLeader_registry_ok _ _ _ _ _ Hr) in Hp.
  destruct u; by split.
Qed.

Lemma on_kick_participant_ok sid roomId participantId s :
  state_ok s → state_ok (on_kick_participant sid roomId participantId s).1.
Proof.
  intros [Hr Hs]. unfold on_kick_participant.
  destruct (led_by sid roomId s) as [room|]; [|done].
  case_bool_decide; [done|].
  destruct (removeParticipant roomId participantId (rooms s))
    as [[rooms1 u]|] eqn:Hp;
    [apply (removeParticipant_registry_ok _ _ _ _ _ Hr) in Hp|];
    destruct (sockets s !! participantId) as [k|]; try destruct u;
    simpl in *; split; simpl;
    first [assumption | by apply alter_socket_ids].
Qed.

Lemma on_create_share_token_ok now sid roomId shareToken s :
  state_ok s → state_ok (on_create_share_token now sid roomId shareToken s).1.
Proof.
  intros Hok. unfold on_create_share_token.
  destruct (led_by sid roomId s) as [room|] eqn:Hled; [|done].
  apply led_by_Some in Hled as [Hroom _]. simpl.
  by eapply state_ok_update.
Qed.

(** Dropping a pending request keeps a room well-formed. *)
Lemma room_ok_drop_request room pending requestId :
  pendingRequests room = Some pending → room_ok room →
  room_ok (set_pendingRequests (Some (delete requestId pending)) room).
Proof.
  intros Hp [H1 H2 H3 H4]. split; simpl; [done..|].
  intros pending' rid req [= <-] Hreq.
  apply lookup_delete_Some in Hreq as [_ Hreq]. by eapply H4.
Qed.

Lemma drop_request_ok roomId requestId pending room s :
  state_ok s → rooms s !! roomId = Some room →
  pendingRequests room = Some pending →
  state_ok (drop_request roomId requestId pending room s).
Proof.
  intros [Hr Hs] Hroom Hpend. split; simpl; [|done].
  apply registry_ok_insert; [|done].
  apply room_ok_drop_request; [done|]. by eapply registry_ok_lookup.
Qed.

Lemma on_approve_participant_ok sid roomId requestId s :
  state_ok s → state_ok (on_approve_participant sid roomId requestId s).1.
Proof.
  intros Hok. unfold on_approve_participant.
  destruct (led_by sid roomId s) as [room|] eqn:Hled; [|done].
  apply led_by_Some in Hled as [Hroom _].
  destruct (pendingRequests room) as [pending|] eqn:Hpend; [|done].
  pose proof (drop_request_ok roomId requestId pending room s Hok Hroom Hpend)
    as Hclean.
  destruct (get requestId pending) as [request| |] eqn:Hreq; [|done..].
  apply get_Own_inv in Hreq.
  destruct Hok as [Hr Hs].
  pose proof (registry_ok_lookup _ _ _ Hr Hroom) as Hroom_ok.
  destruct (sockets s !! socketId request) as [k|]; [|done].
  destruct (joinCallback k); simpl; [|done].
  assert (socketId request ≠ "") as Hne
    by (by eapply (requester_ids _ Hroom_ok)).
  destruct (addParticipant roomId (socketId request) (requestName request) (rooms s))
    as [[rooms1 room1]|] eqn:Hadd; simpl.
  - pose proof (addParticipant_room_ok _ _ _ _ _ _ Hne Hr Hadd) as H2.
    split; simpl.
    + apply registry_ok_insert.
      * destruct H2 as [H21 H22 H23 H24]. split; simpl; [done..|].
        intros pending' rid req Hp' Hreq'.
        destruct (pendingRequests room1) as [pend1|] eqn:Hp1; [|done].
        simpl in Hp'. injection Hp' as <-.
        apply lookup_delete_Some in Hreq' as [_ Hreq']. by eapply H24.
      * by eapply addParticipant_registry_ok.
    + by do 2 apply alter_socket_ids.
  - split; simpl; [done | by apply alter_socket_ids].
Qed.

Lemma on_reject_participant_ok sid roomId requestId s :
  state_ok s → state_ok (on_reject_participant sid roomId requestId s).1.
Proof.
  intros Hok. unfold on_reject_participant.
  destruct (led_by sid roomId s) as [room|] eqn:Hled; [|done].
  apply led_by_Some in Hled as [Hroom _].
  destruct (pendingRequests room) as [pending|] eqn:Hpend; [|done].
  pose proof (drop_request_ok roomId requestId pending room s Hok Hroom Hpend)
    as [Hclean _].
  destruct (get requestId pending) as [request| |] eqn:Hreq;
    [|by apply drop_request_ok | done].
  destruct Hok as [Hr Hs].
  destruct (sockets s !! socketId request) as [k|]; [|by split].
  destruct (joinCallback k); simpl; split; simpl;
    first [assumption | by apply alter_socket_ids].
Qed.

Lemma on_leader_leave_room_ok sid roomId s :
  state_ok s → state_ok (on_leader_leave_room sid roomId s).1.
Proof.
  intros [Hr Hs]. unfold on_leader_leave_room.
  destruct (led_by sid roomId s) as [room|]; [|done].
  simpl. split; simpl; [by apply registry_ok_delete|].
  intros i Hi. apply Hs. rewrite lookup_fmap in Hi.
  by apply fmap_is_Some in Hi.
Qed.

Lemma on_snapshot_request_ok sid roomId s :
  state_ok s → state_ok (on_snapshot_request sid roomId s).1.
Proof.
  intros Hok. unfold on_snapshot_request.
  by destruct (getRoom roomId (rooms s)).
Qed.

(** A disconnection leaves the registry alone and sends nothing: the
    handler's loop over [socket.rooms] has nothing to visit. *)
Lemma disconnection_result sid s :
  disconnection sid s = (set_sockets (delete sid (sockets s)) s, []).
Proof.
  unfold disconnection, on_disconnect. simpl. rewrite lookup_alter_eq.
  destruct (sockets s !! sid); simpl; unfold set_sockets, set_rooms; simpl;
    by rewrite delete_alter_eq.
Qed.

Lemma disconnection_ok sid s :
  state_ok s → state_ok (disconnection sid s).1.
Proof.
  intros [Hr Hs]. rewrite disconnection_result. split; simpl; [done|].
  intros i Hi. apply Hs. apply lookup_delete_is_Some in Hi. tauto.
Qed.

Lemma step_ok now sid e s : state_ok s → state_ok (step now sid e s).1.
Proof.
  intros Hok. unfold step.
  destruct (sockets s !! sid) as [k|] eqn:Hk.
  - assert (sid ≠ "") as Hsid by (apply (socket_ids _ Hok); eauto).
    destruct e; simpl;
      auto using on_join_room_ok, on_leader_state_ok, on_control_ok,
        on_media_cleared_ok, on_promote_leader_ok, on_kick_participant_ok,
        on_create_share_token_ok, on_approve_participant_ok,
        on_reject_participant_ok, on_leader_leave_room_ok,
        on_snapshot_request_ok, disconnection_ok.
  - destruct e; simpl; try done.
    destruct (String.eqb_spec sid ""); [done|].
    destruct (String.eqb sid "__proto__"); [done|]. simpl.
    destruct Hok as [Hr Hs]. split; simpl; [done|].
    intros i Hi. apply lookup_insert_is_Some in Hi as [<-|[_ Hi]]; auto.
Qed.

Lemma init_ok : state_ok init.
Proof.
  split; simpl.
  - apply map_Forall_empty.
  - intros sid [k Hk]. by rewrite lookup_empty in Hk.
Qed.

Lemma reachable_ok s : reachable s → state_ok s.
Proof. induction 1; [apply init_ok | by apply step_ok]. Qed.

End HandlerFacts.

(** ** The scenarios of the specification, run on the model *)

Section SpecScenarios.
Import Registry Server.

(** Scenario A: L creates R1, is told it leads, and is the only participant. *)
Example scenario_A :
  (step 1000 "L" (JoinRoom "R1" (JStr "Lea") None)
     (step 1000 "L" Connection init).1).2
  = [ (Callback "L", join_ack "L" true (roomState newRoom));
      (SocketTo "L" "R1",
       participant_joined "L" (JStr "Lea") {[ "L" := {| name := JStr "Lea" |} ]}) ] ∧
  (leaderId <$> rooms Scenario.opened !! "R1") = Some (Some "L") ∧
  (dom <$> (participants <$> rooms Scenario.opened !! "R1")) = Some {[ "L" ]}.
Proof. repeat split. Qed.

(** Scenario B: P's join lands in the pending requests; after L approves,
    P is a participant and no request is pending. *)
Example scenario_B :
  (pendingRequests <$> rooms Scenario.P_pending !! "R1")
  = Some (Some {[ "P_2500" :=
        {| socketId := "P"; requestName := JStr "Pat"; timestamp := 2500 |} ]}) ∧
  (participants <$> rooms Scenario.P_pending !! "R1")
  = Some {[ "L" := {| name := JStr "Lea" |} ]} ∧
  (participants <$> rooms Scenario.two_members !! "R1")
  = Some (<[ "P" := {| name := JStr "Pat" |} ]>
            {[ "L" := {| name := JStr "Lea" |} ]}) ∧
  (pendingRequests <$> rooms Scenario.two_members !! "R1") = Some (Some ∅).
Proof. repeat split. Qed.

(** Scenario D: the leader leaves; the whole room is told and R1 is gone. *)
Example scenario_D :
  (step 4000 "L" (LeaderLeaveRoom "R1") Scenario.two_members).2
  = [ (IoTo "R1", room_closed "Leader left the room") ] ∧
  rooms (step 4000 "L" (LeaderLeaveRoom "R1") Scenario.two_members).1 !! "R1"
  = None.
Proof. repeat split. Qed.

End SpecScenarios.

(** ** Registry invariants over reachable states *)

Section RegistryInvariants.
Import JsObject Registry Server Invariant.

Lemma reachable_opened : reachable Scenario.opened.
Proof. unfold Scenario.opened. do 2 apply reachable_step. apply reachable_init. Qed.

Lemma reachable_two_members : reachable Scenario.two_members.
Proof.
  unfold Scenario.two_members, Scenario.P_pending, Scenario.with_P_connected.
  do 3 apply reachable_step. apply reachable_opened.
Qed.

(** Every room of a reachable state has a leader, and the leader test of
    the handlers ([if (room.leaderId)]) succeeds on it. *)
Lemma reachable_has_leader s roomId room :
  reachable s → rooms s !! roomId = Some room →
  truthy_str (leaderId room) = true.
Proof.
  intros Hs Hr. apply room_ok_leader_truthy.
  eapply registry_ok_lookup; [apply (rooms_ok _ (reachable_ok _ Hs)) | done].
Qed.

(** C3: after any sequence of connections, joins, approvals, rejections,
    kicks, promotions, leaves and disconnections, a room that is present in
    the registry has a non-empty participants map; so a room id is present
    iff it names a room with at least one participant. *)
Theorem C3_no_empty_room (s : State) (roomId : string) :
  reachable s →
  (∀ room, rooms s !! roomId = Some room → participants room ≠ ∅) ∧
  (is_Some (rooms s !! roomId) ↔
   ∃ room, rooms s !! roomId = Some room ∧ (1 ≤ size (participants room))%nat).
Proof.
  intros Hs.
  assert (∀ room, rooms s !! roomId = Some room → participants room ≠ ∅) as Hne.
  { intros room Hr.
    exact (has_member _
             (registry_ok_lookup _ _ _ (rooms_ok _ (reachable_ok _ Hs)) Hr)). }
  split; [exact Hne|]. split.
  - intros [room Hr]. exists room. split; [done|].
    apply Hne, map_size_non_empty_iff in Hr. lia.
  - intros (room & Hr & _). eauto.
Qed.

Lemma C3_no_empty_room_witness :
  reachable Scenario.two_members ∧
  (is_Some (rooms Scenario.two_members !! "R1") ↔
   ∃ room, rooms Scenario.two_members !! "R1" = Some room ∧
           (1 ≤ size (participants room))%nat).
Proof.
  split; [apply reachable_two_members|].
  apply (C3_no_empty_room Scenario.two_members "R1"), reachable_two_members.
Defined.

Lemma reachable_misled : reachable Scenario.misled.
Proof. unfold Scenario.misled. apply reachable_step, reachable_opened. Qed.

(** C4 fails on the code.  promoteLeader tests [room.participants[newLeaderId]]
    for truthiness, and a participants object inherits the properties of
    Object.prototype.  L, alone in R1 and its leader, promotes the name
    "constructor": the promotion goes through and is announced to the room,
    and R1 is left with a leaderId that is neither null nor one of its
    participants, whose only key is still "L". *)
Theorem C4_leader_not_member :
  reachable Scenario.misled ∧
  (step 1500 "L" (PromoteLeader "R1" "constructor") Scenario.opened).2
  = [ (IoTo "R1",
       leader_changed "constructor" {[ "L" := {| name := JStr "Lea" |} ]}) ] ∧
  ∃ room, rooms Scenario.misled !! "R1" = Some room ∧
    leaderId room = Some "constructor" ∧
    participants room = {[ "L" := {| name := JStr "Lea" |} ]} ∧
    "constructor" ∉ dom (participants room).
Proof.
  split; [apply reachable_misled|]. split; [reflexivity|].
  destruct (rooms Scenario.misled !! "R1") as [room|] eqn:Hr;
    [|vm_compute in Hr; discriminate Hr].
  exists room. split; [reflexivity|].
  vm_compute in Hr. injection Hr; intros <-.
  split; [reflexivity|]. split; [reflexivity|].
  intros Hin. apply elem_of_dom in Hin as [p Hp].
  vm_compute in Hp. discriminate Hp.
Qed.

End RegistryInvariants.

(** ** Adding a participant twice *)

Section DuplicateAdd.
Import JsObject Registry Server Invariant.

(** A duplicate add in a room that has a leader: keys, leader, media and
    playback fields, requests and tokens are as before; only the name
    stored for socketId is replaced. *)
Lemma addParticipant_duplicate (rooms : gmap string Room) (roomId socketId : string)
    (name : jsval) (room : Room) :
  rooms !! roomId = Some room →
  is_Some (participants room !! socketId) →
  truthy_str (leaderId room) = true →
  ∃ rooms' room',
  addParticipant roomId socketId name rooms = Returned (rooms', room') ∧
  dom (participants room') = dom (participants room) ∧
  leaderId room' = leaderId room ∧
  mediaKind room' = mediaKind room ∧
  mediaRef room' = mediaRef room ∧
  isPlaying room' = isPlaying room ∧
  leaderMediaTime room' = leaderMediaTime room ∧
  leaderServerTs room' = leaderServerTs room ∧
  pendingRequests room' = pendingRequests room ∧
  shareTokens room' = shareTokens room ∧
  rooms' !! roomId = Some room' ∧
  (∀ other, other ≠ roomId → rooms' !! other = rooms !! other).
Proof.
  intros Hroom Hin Hlead.
  rewrite (addParticipant_existing_room _ _ _ _ _ Hroom), Hlead.
  eexists _, _. split; [reflexivity|]. simpl.
  repeat split; try reflexivity.
  - rewrite dom_insert_L. apply elem_of_dom in Hin.
    by apply subseteq_union_1_L, singleton_subseteq_l.
  - apply lookup_insert_eq.
  - intros other Hne. by apply lookup_insert_ne.
Qed.

(** C10: in any state the server can reach, calling addParticipant for a
    socketId that is already a key of the room's participants leaves the
    set of participant keys and the leaderId as they were (leadership is
    not taken from the leader), touches no media or playback field (nor the
    pending requests and share tokens), and changes no other room. *)
Theorem C10_duplicate_add (s : State) (roomId socketId : string)
    (name : jsval) (room : Room) :
  reachable s →
  rooms s !! roomId = Some room →
  is_Some (participants room !! socketId) →
  ∃ rooms' room',
  addParticipant roomId socketId name (rooms s) = Returned (rooms', room') ∧
  dom (participants room') = dom (participants room) ∧
  leaderId room' = leaderId room ∧
  mediaKind room' = mediaKind room ∧
  mediaRef room' = mediaRef room ∧
  isPlaying room' = isPlaying room ∧
  leaderMediaTime room' = leaderMediaTime room ∧
  leaderServerTs room' = leaderServerTs room ∧
  pendingRequests room' = pendingRequests room ∧
  shareTokens room' = shareTokens room ∧
  rooms' !! roomId = Some room' ∧
  (∀ other, other ≠ roomId → rooms' !! other = rooms s !! other).
Proof.
  intros Hs Hroom Hin.
  apply addParticipant_duplicate; [done..|].
  by eapply reachable_has_leader.
Qed.

Lemma C10_duplicate_add_witness :
  ∃ room, rooms Scenario.two_members !! "R1" = Some room ∧
    ∃ rooms' room',
    addParticipant "R1" "P" (JStr "Pat again") (rooms Scenario.two_members)
      = Returned (rooms', room') ∧
    dom (participants room') = dom (participants room) ∧
    leaderId room' = leaderId room ∧
    mediaKind room' = mediaKind room ∧
    mediaRef room' = mediaRef room ∧
    isPlaying room' = isPlaying room ∧
    leaderMediaTime room' = leaderMediaTime room ∧
    leaderServerTs room' = leaderServerTs room ∧
    pendingRequests room' = pendingRequests room ∧
    shareTokens room' = shareTokens room ∧
    rooms' !! "R1" = Some room' ∧
    (∀ other, other ≠ "R1" → rooms' !! other = rooms Scenario.two_members !! other).
Proof.
  destruct (rooms Scenario.two_members !! "R1") as [room|] eqn:Hr;
    [|vm_compute in Hr; discriminate Hr].
  exists room. split; [reflexivity|].
  apply (C10_duplicate_add Scenario.two_members "R1" "P"
           (JStr "Pat again") room reachable_two_members Hr).
  vm_compute in Hr. injection Hr; intros <-. vm_compute. eauto.
Defined.

End DuplicateAdd.

(** ** Removal of a leader *)

Section LeaderDisconnect.
Import JsObject Registry Server Invariant.

Lemma removeParticipant_other (rooms : gmap string Room) r sid roomId rooms' left :
  removeParticipant r sid rooms = Returned (rooms', left) →
  r ≠ roomId → rooms' !! roomId = rooms !! roomId.
Proof.
  intros Hrem Hne. revert Hrem.
  destruct (rooms !! r) as [room|] eqn:Hroom.
  - rewrite (removeParticipant_room _ _ _ _ Hroom).
    repeat case_bool_decide; intros [= <- _];
      by rewrite ?lookup_delete_ne, ?lookup_insert_ne.
  - unfold removeParticipant, getRoom, get. rewrite Hroom.
    destruct (inherited r); [done|]. by intros [= <- _].
Qed.

Lemma removeParticipant_leader (rooms : gmap string Room) roomId sid room :
  rooms !! roomId = Some room → leaderId room = Some sid →
  removeParticipant roomId sid rooms = Returned (delete roomId rooms, None).
Proof.
  intros Hroom Hl. rewrite (removeParticipant_room _ _ _ _ Hroom).
  by rewrite bool_decide_eq_true_2.
Qed.

(** [removeParticipant] never writes a [leaderId]: a room that is in the
    registry afterwards was there before, with the same leader. *)
Lemma removeParticipant_keeps_leaders (rooms : gmap string Room) roomId sid
    rooms' left r kept :
  removeParticipant roomId sid rooms = Returned (rooms', left) →
  rooms' !! r = Some kept →
  ∃ before, rooms !! r = Some before ∧ leaderId kept = leaderId before.
Proof.
  destruct (rooms !! roomId) as [room|] eqn:Hroom.
  - rewrite (removeParticipant_room _ _ _ _ Hroom).
    repeat case_bool_decide; intros [= <- _] Hkept.
    + apply lookup_delete_Some in Hkept as [_ Hkept]. eauto.
    + apply lookup_delete_Some in Hkept as [_ Hkept]. eauto.
    + apply lookup_insert_Some in Hkept as [[<- <-]|[_ Hkept]]; eauto.
  - unfold removeParticipant, getRoom, get. rewrite Hroom.
    destruct (inherited roomId); [done|]. intros [= <- _] Hkept. eauto.
Qed.

(** C1 (as the code has it): the registry operation for a departure,
    removeParticipant, does not keep a room whose leader is removed.  It
    deletes the room from the registry, whether or not other participants
    remain, and returns null; and whoever is removed, it never assigns a
    leader: every room left in the registry has the leaderId it had. *)
Theorem C1_leader_removal_deletes_room (rooms : gmap string Room)
    (roomId socketId : string) (room : Room) :
  rooms !! roomId = Some room → leaderId room = Some socketId →
  removeParticipant roomId socketId rooms = Returned (delete roomId rooms, None) ∧
  delete roomId rooms !! roomId = None ∧
  (∀ who rooms' left r kept,
     removeParticipant roomId who rooms = Returned (rooms', left) →
     rooms' !! r = Some kept →
     ∃ before, rooms !! r = Some before ∧ leaderId kept = leaderId before).
Proof.
  intros Hroom Hl. split; [by eapply removeParticipant_leader|].
  split; [apply lookup_delete_eq|].
  intros who rooms' left r kept. apply removeParticipant_keeps_leaders.
Qed.

Lemma C1_leader_removal_deletes_room_witness :
  ∃ room, rooms Scenario.two_members !! "R1" = Some room ∧
    is_Some (participants room !! "P") ∧
    removeParticipant "R1" "L" (rooms Scenario.two_members)
    = Returned (delete "R1" (rooms Scenario.two_members), None) ∧
    delete "R1" (rooms Scenario.two_members) !! "R1" = None.
Proof.
  destruct (rooms Scenario.two_members !! "R1") as [room|] eqn:Hr;
    [|vm_compute in Hr; discriminate Hr].
  assert (leaderId room = Some "L") as Hl
    by (vm_compute in Hr; injection Hr; intros <-; reflexivity).
  assert (is_Some (participants room !! "P")) as Hp
    by (vm_compute in Hr; injection Hr; intros <-; vm_compute; eauto).
  exists room. split; [reflexivity|]. split; [exact Hp|].
  destruct (C1_leader_removal_deletes_room (rooms Scenario.two_members)
              "R1" "L" room Hr Hl) as (Hrem & Hgone & _).
  split; [exact Hrem | exact Hgone].
Defined.

(** C1 as stated fails.  Take room R1 with leader L and follower P and let
    L's connection drop.  In the run, nothing is sent and R1 stays as it
    was: L is still one of its participants and still its leader.  And the
    registry operation for L's departure, applied to that registry, deletes
    R1 although P remained.  Neither keeps R1 with L removed and without
    leader. *)
Lemma C1_counterexample :
  (∃ room, rooms Scenario.two_members !! "R1" = Some room ∧
           leaderId room = Some "L" ∧
           is_Some (participants room !! "P") ∧
           is_Some (participants room !! "L")) ∧
  (step 4000 "L" Disconnect Scenario.two_members).2 = [] ∧
  (∃ room, rooms (step 4000 "L" Disconnect Scenario.two_members).1 !! "R1"
             = Some room ∧
           leaderId room = Some "L" ∧
           is_Some (participants room !! "L")) ∧
  (∃ rooms', removeParticipant "R1" "L" (rooms Scenario.two_members)
             = Returned (rooms', None) ∧
             rooms' !! "R1" = None).
Proof.
  split; [|split; [|split]].
  - destruct (rooms Scenario.two_members !! "R1") as [room|] eqn:Hr;
      [|vm_compute in Hr; discriminate Hr].
    exists room. split; [reflexivity|].
    vm_compute in Hr. injection Hr; intros <-.
    split; [reflexivity|]. split; vm_compute; eauto.
  - vm_compute. reflexivity.
  - destruct (rooms (step 4000 "L" Disconnect Scenario.two_members).1
                !! "R1") as [room|] eqn:Hr;
      [|vm_compute in Hr; discriminate Hr].
    exists room. split; [reflexivity|].
    vm_compute in Hr. injection Hr; intros <-.
    split; [reflexivity|]. vm_compute; eauto.
  - eexists. split; [vm_compute; reflexivity|]. vm_compute. reflexivity.
Qed.

End LeaderDisconnect.

(** ** Leader-only playback messages *)

Section Playback.
Import Registry Server.

(** C7: a control or leader_state message for a room that does not exist, or
    whose leader is not the sender, changes nothing in the server state and
    emits nothing, whatever its payload. *)
Theorem C7_non_leader_dropped (s : State) (now : Z) (sid roomId type : string)
    (toTime mediaTime isPlaying mediaKind mediaRef : jsval) :
  (∀ room, rooms s !! roomId = Some room → leaderId room ≠ Some sid) →
  on_control now sid roomId type toTime s = (s, []) ∧
  on_leader_state now sid roomId mediaTime isPlaying mediaKind mediaRef s = (s, []) ∧
  step now sid (Control roomId type toTime) s = (s, []) ∧
  step now sid (LeaderState roomId mediaTime isPlaying mediaKind mediaRef) s = (s, []).
Proof.
  intros Hnot. apply led_by_None in Hnot.
  assert (on_control now sid roomId type toTime s = (s, [])) as Hc
    by (unfold on_control; by rewrite Hnot).
  assert (on_leader_state now sid roomId mediaTime isPlaying mediaKind mediaRef s
          = (s, [])) as Hl
    by (unfold on_leader_state; by rewrite Hnot).
  repeat split; try done; unfold step; by destruct (sockets s !! sid).
Qed.

Lemma C7_non_leader_dropped_witness :
  on_control 2600 "P" "R1" "PAUSE" JUndefined Scenario.two_members
    = (Scenario.two_members, []) ∧
  on_leader_state 2600 "P" "R1" (JNum 12.5%float) (JBool true) JNull JNull
    Scenario.two_members = (Scenario.two_members, []) ∧
  step 2600 "P" (Control "R1" "PAUSE" JUndefined) Scenario.two_members
    = (Scenario.two_members, []) ∧
  step 2600 "P" (LeaderState "R1" (JNum 12.5%float) (JBool true) JNull JNull)
    Scenario.two_members = (Scenario.two_members, []).
Proof.
  apply (C7_non_leader_dropped Scenario.two_members 2600 "P" "R1" "PAUSE"
           JUndefined (JNum 12.5%float) (JBool true) JNull JNull).
  intros room Hr. vm_compute in Hr. injection Hr; intros <-. discriminate.
Defined.

(** C8: a SEEK from the leader with a numeric toTime t stores t as
    leaderMediaTime, stamps leaderServerTs with the current time and keeps
    isPlaying; the one emission is control_update with that state, addressed
    to the whole room without excluding the sender, so every socket in the
    room, the leader included, receives it; a follower handling that update
    ends with an empty drift history.  With a toTime that is not a number
    the room (leaderMediaTime included) is left as it was. *)
Theorem C8_seek (s : State) (now : Z) (sid roomId : string) (toTime : jsval)
    (room : Room) :
  rooms s !! roomId = Some room → leaderId room = Some sid →
  let result := on_control now sid roomId "SEEK" toTime s in
  (∀ t, toTime = JNum t →
     (∃ room', rooms result.1 !! roomId = Some room' ∧
        leaderMediaTime room' = JNum t ∧
        leaderServerTs room' = now ∧
        isPlaying room' = isPlaying room) ∧
     result.2 =
       [ (IoTo roomId,
          control_update "SEEK" (JNum t) (JNum t) now (isPlaying room)) ] ∧
     (∀ m, in_room s m roomId → receives s (IoTo roomId) m) ∧
     (in_room s sid roomId → receives s (IoTo roomId) sid) ∧
     (∀ localNow mediaTime serverTs playing st,
        SyncEngine.driftHistory
          (Store.syncEngine
             (Store.on_control_update localNow "SEEK" (JNum t) mediaTime
                serverTs playing st)) = [])) ∧
  (is_number toTime = false →
     rooms result.1 !! roomId = Some room ∧
     result.2 =
       [ (IoTo roomId,
          control_update "SEEK" toTime (leaderMediaTime room)
            (leaderServerTs room) (isPlaying room)) ]).
Proof.
  intros Hroom Hl result. subst result.
  assert (led_by sid roomId s = Some room) as Hled
    by (by apply led_by_intro).
  unfold on_control. rewrite Hled. simpl. split.
  - intros t ->. simpl. repeat split; try done.
    exists (apply_control now "SEEK" (JNum t) room).
    by rewrite lookup_insert_eq.
  - intros Hnum. unfold apply_control. simpl. rewrite Hnum.
    by rewrite lookup_insert_eq.
Qed.

End Playback.

(** ** Joining with a share token *)

Section ShareToken.
Import JsObject Registry Server.

Lemma addParticipant_existing (rooms : gmap string Room) roomId sid name room :
  rooms !! roomId = Some room → truthy_str (leaderId room) = true →
  addParticipant roomId sid name rooms =
  Returned
    (<[roomId := set_participants
                   (<[sid := {| name := name |}]> (participants room)) room]> rooms,
     set_participants (<[sid := {| name := name |}]> (participants room)) room).
Proof.
  intros Hroom Hl. rewrite (addParticipant_existing_room _ _ _ _ _ Hroom).
  by rewrite Hl.
Qed.

(** A token stored in the table is found under its name. *)
Lemma lookup_token_stored room tok toks tokenData :
  tok ≠ "" → shareTokens room = Some toks →
  own_tokens toks !! tok = Some tokenData →
  lookup_token (Some tok) room = Some (tok, Some tokenData).
Proof.
  intros Htok Htoks Hdata. unfold lookup_token, token_get.
  by rewrite (truthy_str_Some _ Htok), Htoks, Hdata.
Qed.



End ShareToken.

Section ShareTokenWitness.
Import Registry Server.


End ShareTokenWitness.

(** ** Approvals after the requester has gone *)

Section StaleApproval.
Import JsObject Registry Server.

Lemma disconnection_socket_gone sid s :
  sockets (disconnection sid s).1 !! sid = None.
Proof. rewrite disconnection_result. apply lookup_delete_eq. Qed.

(** C9: once a socket has disconnected it is no longer among the connected
    sockets, and with it the join callback stored on it is out of reach: if
    the leader then approves (or rejects) a pending request of that socket,
    the handler only deletes the request; the participants of the room are
    unchanged, no socket joins the room and nothing is emitted, so the
    callback is never invoked. *)
Theorem C9_stale_approval (s : State)
    (sid approver roomId requestId : string)
    (room : Room) (pending : gmap string PendingRequest)
    (request : PendingRequest) :
  let s1 := (disconnection sid s).1 in
  rooms s1 !! roomId = Some room → leaderId room = Some approver →
  pendingRequests room = Some pending → pending !! requestId = Some request →
  socketId request = sid →
  let room' := set_pendingRequests (Some (delete requestId pending)) room in
  sockets s1 !! sid = None ∧
  on_approve_participant approver roomId requestId s1
    = (set_rooms (<[roomId := room']> (rooms s1)) s1, []) ∧
  on_reject_participant approver roomId requestId s1
    = (set_rooms (<[roomId := room']> (rooms s1)) s1, []) ∧
  participants room' = participants room ∧
  leaderId room' = leaderId room ∧
  delete requestId pending !! requestId = None.
Proof.
  intros s1 Hroom Hl Hpend Hreq Hsid room'.
  assert (sockets s1 !! sid = None) as Hgone
    by apply disconnection_socket_gone.
  assert (led_by approver roomId s1 = Some room) as Hled
    by (by apply led_by_intro).
  split; [done|]. split; [|split].
  - unfold on_approve_participant.
    rewrite Hled, Hpend, (get_own _ _ _ Hreq), Hsid, Hgone. done.
  - unfold on_reject_participant.
    rewrite Hled, Hpend, (get_own _ _ _ Hreq), Hsid, Hgone.
    by destruct s1.
  - repeat split; try done. apply lookup_delete_eq.
Qed.

Lemma C9_stale_approval_witness :
  ∃ room pending request,
    rooms Scenario.P_gone !! "R1" = Some room ∧
    pendingRequests room = Some pending ∧
    pending !! "P_2500" = Some request ∧
    socketId request = "P" ∧
    sockets Scenario.P_gone !! "P" = None ∧
    on_approve_participant "L" "R1" "P_2500" Scenario.P_gone
    = (set_rooms
         (<["R1" := set_pendingRequests (Some (delete "P_2500" pending)) room]>
            (rooms Scenario.P_gone)) Scenario.P_gone, []).
Proof.
  assert (Scenario.P_gone = (disconnection "P" Scenario.P_pending).1) as Hs
    by reflexivity.
  destruct (rooms Scenario.P_gone !! "R1") as [room|] eqn:Hr;
    [|vm_compute in Hr; discriminate Hr].
  set (request := {| socketId := "P"; requestName := JStr "Pat"; timestamp := 2500 |}).
  exists room, {[ "P_2500" := request ]}, request.
  assert (pendingRequests room = Some {[ "P_2500" := request ]}) as Hpend
    by (vm_compute in Hr; injection Hr; intros <-; reflexivity).
  assert (leaderId room = Some "L") as Hl
    by (vm_compute in Hr; injection Hr; intros <-; reflexivity).
  assert (({[ "P_2500" := request ]} : gmap string PendingRequest) !! "P_2500"
          = Some request) as Hreq by reflexivity.
  split; [reflexivity|]. split; [exact Hpend|]. split; [exact Hreq|].
  split; [reflexivity|].
  rewrite Hs in Hr |- *.
  pose proof (C9_stale_approval Scenario.P_pending "P" "L" "R1" "P_2500" room
                _ request Hr Hl Hpend Hreq eq_refl) as (Hgone & Happrove & _).
  split; [exact Hgone | exact Happrove].
Defined.

End StaleApproval.

(** ** Comparisons of binary64 numbers *)

Section FloatFacts.

Lemma SFcompare_antisym (x y : SpecFloat.spec_float) :
  SpecFloat.SFcompare y x = option_map CompOpp (SpecFloat.SFcompare x y).
Proof.
  destruct x as [sx|sx| |sx mx ex], y as [sy|sy| |sy my ey]; simpl;
    try reflexivity;
    repeat match goal with b : bool |- _ => destruct b end; simpl;
    try reflexivity.
  - rewrite (Z.compare_antisym ex ey).
    destruct (ex ?= ey)%Z; simpl; try reflexivity.
    pose proof (Pos.compare_cont_antisym mx my Eq) as H. simpl in H.
    exact (f_equal (λ c, Some (CompOpp c)) (eq_sym H)).
  - rewrite (Z.compare_antisym ex ey).
    destruct (ex ?= ey)%Z; simpl; try reflexivity.
    pose proof (Pos.compare_cont_antisym mx my Eq) as H. simpl in H.
    exact (f_equal Some (eq_sym H)).
Qed.

Lemma float_not_lt_ge (a b c : float) :
  PrimFloat.ltb c a = true →
  Prim2SF b ≠ SpecFloat.S754_nan →
  (PrimFloat.ltb a b = false ↔ PrimFloat.leb b a = true).
Proof.
  rewrite !ltb_spec, leb_spec. unfold SpecFloat.SFltb, SpecFloat.SFleb.
  rewrite (SFcompare_antisym (Prim2SF a) (Prim2SF b)).
  intros Hc Hb.
  assert (is_Some (SpecFloat.SFcompare (Prim2SF a) (Prim2SF b))) as [o Ho].
  { destruct (Prim2SF a) eqn:Ha, (Prim2SF b) eqn:Hb'; simpl; eauto;
      try done.
    all: destruct (Prim2SF c); simpl in Hc; discriminate Hc. }
  rewrite Ho. simpl. destruct o; simpl; split; congruence.
Qed.


Lemma SFleb_finite_exp (m1 m : positive) (e1 e : Z) :
  SpecFloat.SFleb (SpecFloat.S754_finite false m1 e1)
    (SpecFloat.S754_finite false m e) = true → (e1 ≤ e)%Z.
Proof.
  unfold SpecFloat.SFleb, SpecFloat.SFcompare.
  destruct (Z.compare_spec e1 e); [lia | lia | discriminate].
Qed.

Lemma SFltb_finite_exp (m1 m : positive) (e1 e : Z) :
  (e1 < e)%Z →
  SpecFloat.SFltb (SpecFloat.S754_finite false m1 e1)
    (SpecFloat.S754_finite false m e) = true.
Proof.
  intros Hlt. unfold SpecFloat.SFltb, SpecFloat.SFcompare.
  destruct (Z.compare_spec e1 e); [lia | reflexivity | lia].
Qed.

Lemma ge_half_gt_threshold (a : float) :
  PrimFloat.leb 0.5%float a = true →
  PrimFloat.ltb (150 / 1000)%float a = true.
Proof.
  rewrite leb_spec, ltb_spec.
  replace (Prim2SF 0.5%float)
    with (SpecFloat.S754_finite false 4503599627370496 (-53))
    by (vm_compute; reflexivity).
  replace (Prim2SF (150 / 1000)%float)
    with (SpecFloat.S754_finite false 5404319552844595 (-55))
    by (vm_compute; reflexivity).
  destruct (Prim2SF a) as [s|s| |s m e].
  - by destruct s.
  - by destruct s.
  - done.
  - destruct s; [done|]. intros H%SFleb_finite_exp.
    apply SFltb_finite_exp. lia.
Qed.

End FloatFacts.

(** ** The sync engine and the follower *)

Section Sync.
Import SyncEngine Store App.

Example threshold_is_150ms : (MAX_DRIFT_MS / 1000)%float = 0.15%float.
Proof. reflexivity. Qed.

(** C5: the offset stored after a health reply with timestamp S, sent at t0
    and read at t1, is S + (t1 - t0)/2 - t1; the expected media position is
    leaderMediaTime + (localNow + offset - leaderServerTs)/1000 while
    playing and leaderMediaTime itself while paused. *)
Theorem C5_offset_and_expected (t0 S t1 tEnd localNow : float)
    (leaderMediaTime leaderServerTs : float) (st : SyncState) :
  serverOffset (calculateServerOffset t0 (HealthReply S t1) tEnd st)
    = (S + (t1 - t0) / 2 - t1)%float ∧
  calculateCurrentMediaTime localNow leaderMediaTime leaderServerTs true st
    = (leaderMediaTime
       + (localNow + serverOffset st - leaderServerTs) / 1000)%float ∧
  calculateCurrentMediaTime localNow leaderMediaTime leaderServerTs false st
    = leaderMediaTime.
Proof. repeat split. Qed.

(** Scenario E of the specification: offset 50 ms, leader at 10.0 s stamped
    T, read 700 ms later: 10.75 s expected. *)
Example expected_after_700ms :
  let st := calculateServerOffset 1000%float (HealthReply 1080%float 1060%float)
              1060%float initial in
  serverOffset st = 50%float ∧
  calculateCurrentMediaTime 500700%float 10%float 500000%float true st
    = 10.75%float.
Proof. split; reflexivity. Qed.

(** C2 (as the code has it): the engine's applyCorrectionIfNeeded seeks iff
    |drift| > 0.15 s; the target is actual - 0.1 * drift when |drift| < 0.5 s
    and actual - 0.5 * drift when |drift| >= 0.5 s.  The follower effect of
    the application does not use it: with the leader state and the player
    both playing, it seeks to the expected time iff |expected - actual| >
    0.5 s and corrects nothing otherwise. *)
Theorem C2_drift_correction (expectedTime actualTime : float) (st : SyncState) :
  let drift := calculateDrift expectedTime actualTime in
  let seek := (applyCorrectionIfNeeded expectedTime actualTime st).2 in
  (is_Some seek ↔ PrimFloat.ltb (150 / 1000)%float (PrimFloat.abs drift) = true) ∧
  (PrimFloat.ltb (150 / 1000)%float (PrimFloat.abs drift) = true →
   PrimFloat.ltb (PrimFloat.abs drift) 0.5%float = true →
   seek = Some (actualTime - drift * 0.1)%float) ∧
  (PrimFloat.leb 0.5%float (PrimFloat.abs drift) = true →
   seek = Some (actualTime - drift * 0.5)%float) ∧
  (∀ (tsArg localNow : float) (store : Store),
     isLeader (room store) = false →
     is_Some (mediaKind (room store)) →
     truthy_str (mediaRef (room store)) = true →
     isPlaying (room store) = true →
     let expected :=
       calculateCurrentMediaTime localNow (currentTime (room store)) tsArg
         true (syncEngine store) in
     (follower_sync tsArg localNow true true 1 actualTime store).2 =
     if PrimFloat.ltb 0.5%float (PrimFloat.abs (expected - actualTime)%float)
     then [seekTo expected] else []).
Proof.
  intros drift seek. subst seek. unfold applyCorrectionIfNeeded.
  fold drift. unfold shouldCorrectDrift, calculateCorrectionAmount.
  change (MAX_DRIFT_MS / 1000)%float with (150 / 1000)%float.
  split; [|split; [|split]].
  - destruct (PrimFloat.ltb (150 / 1000) (PrimFloat.abs drift)); simpl.
    + split; eauto.
    + split; [by intros [? ?] | done].
  - intros -> ->. reflexivity.
  - intros Hge.
    pose proof (ge_half_gt_threshold _ Hge) as Hgt. rewrite Hgt. simpl.
    assert (Prim2SF 0.5%float ≠ SpecFloat.S754_nan) as Hnan
      by (vm_compute; discriminate).
    apply (float_not_lt_ge _ _ _ Hgt Hnan) in Hge. by rewrite Hge.
  - intros tsArg localNow store Hlead Hkind Href Hplay.
    unfold follower_sync. rewrite Hlead, Href, Hplay. simpl.
    rewrite bool_decide_eq_true_2 by done. simpl.
    by destruct (PrimFloat.ltb 0.5 _).
Qed.

(** C2 as stated fails twice.  In the engine, a drift of 1 s (expected 10,
    actual 11) leads to a seek to 10.5, not to the expected 10.  In the
    application's follower effect, a drift of 0.25 s (expected 10, actual
    10.25), which exceeds 150 ms, leads to no seek at all. *)
Lemma C2_counterexample :
  (applyCorrectionIfNeeded 10%float 11%float initial).2 = Some 10.5%float ∧
  PrimFloat.eqb 10.5%float 10%float = false ∧
  calculateCurrentMediaTime 5000%float (currentTime (room Scenario.follower))
    5000%float true (syncEngine Scenario.follower) = 10%float ∧
  calculateDrift 10%float 10.25%float = 0.25%float ∧
  shouldCorrectDrift 0.25%float = true ∧
  follower_sync 5000%float 5000%float true true 1 10.25%float Scenario.follower
    = (Scenario.follower, []).
Proof. repeat split. Qed.

(** A control_update that is not a SEEK with a numeric toTime leaves the
    follower's drift history as it is. *)
Lemma on_control_update_keeps_history localNow type toTime mediaTime serverTs
    playing st :
  String.eqb type "SEEK" && is_number toTime = false →
  driftHistory (syncEngine
    (on_control_update localNow type toTime mediaTime serverTs playing st))
  = driftHistory (syncEngine st).
Proof.
  unfold on_control_update.
  destruct (String.eqb type "SEEK"), toTime; simpl; done.
Qed.

End Sync.

Section PlaybackWitness.
Import Registry Server.

Lemma C8_seek_witness :
  ∃ room, rooms Scenario.two_members !! "R1" = Some room ∧
    leaderId room = Some "L" ∧
    (on_control 5000 "L" "R1" "SEEK" (JNum 42%float) Scenario.two_members).2
    = [ (IoTo "R1",
         control_update "SEEK" (JNum 42%float) (JNum 42%float) 5000
           (isPlaying room)) ] ∧
    receives Scenario.two_members (IoTo "R1") "L" ∧
    SyncEngine.driftHistory
      (Store.syncEngine
         (Store.on_control_update 5300%float "SEEK" (JNum 42%float) 42%float
            5000%float false Scenario.follower)) = [].
Proof.
  destruct (rooms Scenario.two_members !! "R1") as [room|] eqn:Hr;
    [|vm_compute in Hr; discriminate Hr].
  assert (leaderId room = Some "L") as Hl
    by (vm_compute in Hr; injection Hr; intros <-; reflexivity).
  exists room. split; [reflexivity|]. split; [exact Hl|].
  destruct (C8_seek Scenario.two_members 5000 "L" "R1" (JNum 42%float) room Hr Hl)
    as (Hnum & _).
  destruct (Hnum 42%float eq_refl) as (_ & Hout & _ & Hself & Hreset).
  split; [exact Hout|]. split; [|apply Hreset].
  apply Hself. eexists. split; [vm_compute; reflexivity|].
  apply elem_of_cons. right. apply list_elem_of_singleton. reflexivity.
Defined.

End PlaybackWitness.

(** * Further properties of the code *)

(** ** The registry operations (state.js) *)

Section RegistryOperations.
Import JsObject Registry Server.

(** X1: addParticipant throws exactly when roomId names no room and is a
    name inherited from Object.prototype; nothing is stored then.  In every
    other case it stores the room it returns under roomId, with socketId
    recorded under the given name and every other participant and every
    other room as before.  The leader afterwards is the old leader if the
    room had one, and socketId otherwise (new or leaderless room). *)
Theorem addParticipant_stores (rooms : gmap string Room) (roomId socketId : string)
    (name : jsval) :
  let before := default newRoom (rooms !! roomId) in
  (addParticipant roomId socketId name rooms = Thrown ↔
   rooms !! roomId = None ∧ inherited roomId = true) ∧
  (∀ rooms' room',
     addParticipant roomId socketId name rooms = Returned (rooms', room') →
     rooms' !! roomId = Some room' ∧
     participants room' = <[socketId := {| name := name |}]> (participants before) ∧
     leaderId room' =
       (if truthy_str (leaderId before) then leaderId before else Some socketId) ∧
     roomState room' = roomState before ∧
     pendingRequests room' = pendingRequests before ∧
     shareTokens room' = shareTokens before ∧
     (∀ other, other ≠ roomId → rooms' !! other = rooms !! other)).
Proof.
  intros before. subst before.
  destruct (rooms !! roomId) as [room|] eqn:Hroom; simpl.
  - rewrite (addParticipant_existing_room _ _ _ _ _ Hroom). split.
    + split; [done | by intros [? _]].
    + intros rooms' room' [= <- <-].
      destruct (truthy_str (leaderId room)); simpl;
        repeat split; try apply lookup_insert_eq;
        intros other Hne; by rewrite lookup_insert_ne.
  - destruct (inherited roomId) eqn:Hin.
    + rewrite (addParticipant_inherited _ _ _ _ Hroom Hin). by split.
    + rewrite (addParticipant_fresh _ _ _ _ Hroom Hin). split.
      * split; [done | by intros [_ ?]].
      * intros rooms' room' [= <- <-]. simpl.
        repeat split; try apply lookup_insert_eq; try reflexivity.
        intros other Hne. by rewrite lookup_insert_ne.
Qed.

(** X2: adding a socket that is not yet a participant to a room led by
    someone else and then removing it again gives back the registry as it
    was, and removeParticipant returns the room as it was. *)
Theorem add_then_remove (rooms : gmap string Room) (roomId socketId : string)
    (name : jsval) (room : Room) :
  rooms !! roomId = Some room →
  truthy_str (leaderId room) = true →
  leaderId room ≠ Some socketId →
  participants room !! socketId = None →
  participants room ≠ ∅ →
  ∃ added,
    addParticipant roomId socketId name rooms = Returned added ∧
    removeParticipant roomId socketId added.1 = Returned (rooms, Some room).
Proof.
  intros Hroom Htruthy Hlead Hnew Hne.
  rewrite (addParticipant_existing _ _ _ _ _ Hroom Htruthy).
  eexists. split; [reflexivity|]. simpl.
  rewrite (removeParticipant_room _ _ _ _ (lookup_insert_eq _ _ _)). simpl.
  rewrite bool_decide_eq_false_2 by done.
  rewrite delete_insert_id by done.
  rewrite bool_decide_eq_false_2 by (by apply map_size_non_empty_iff).
  rewrite insert_insert_eq.
  assert (set_participants (participants room)
            (set_participants
               (<[socketId := {| name := name |}]> (participants room)) room)
          = room) as -> by (by destruct room).
  by rewrite insert_id.
Qed.

Lemma add_then_remove_witness :
  ∃ room, rooms Scenario.opened !! "R1" = Some room ∧
    ∃ added,
      addParticipant "R1" "P" (JStr "Pat") (rooms Scenario.opened)
        = Returned added ∧
      removeParticipant "R1" "P" added.1
        = Returned (rooms Scenario.opened, Some room).
Proof.
  destruct (rooms Scenario.opened !! "R1") as [room|] eqn:Hr;
    [|vm_compute in Hr; discriminate Hr].
  exists room. split; [reflexivity|].
  apply (add_then_remove (rooms Scenario.opened) "R1" "P" (JStr "Pat") room Hr);
    vm_compute in Hr; injection Hr; intros <-.
  - reflexivity.
  - discriminate.
  - reflexivity.
  - intros Hempty. apply (f_equal (λ m, m !! "L")) in Hempty.
    vm_compute in Hempty. discriminate Hempty.
Defined.

(** X3: removeParticipant throws exactly when roomId names no room and is
    a name inherited from Object.prototype.  When it returns, it returns
    null exactly when roomId names no room afterwards.  Otherwise the
    returned room is the stored one, socketId is not among its
    participants, the other participants, the leader and the playback
    state are as before; the leader is then not socketId.  Rooms under
    other ids are never touched. *)
Theorem removeParticipant_result (rooms : gmap string Room) (roomId socketId : string) :
  (removeParticipant roomId socketId rooms = Thrown ↔
   rooms !! roomId = None ∧ inherited roomId = true) ∧
  (∀ rooms' left,
     removeParticipant roomId socketId rooms = Returned (rooms', left) →
     (left = None ↔ rooms' !! roomId = None) ∧
     (∀ room', left = Some room' →
        rooms' !! roomId = Some room' ∧
        ∃ room, rooms !! roomId = Some room ∧
          participants room' = delete socketId (participants room) ∧
          leaderId room' = leaderId room ∧
          leaderId room' ≠ Some socketId ∧
          roomState room' = roomState room) ∧
     (∀ other, other ≠ roomId → rooms' !! other = rooms !! other)).
Proof.
  split.
  - destruct (rooms !! roomId) as [room|] eqn:Hroom.
    + rewrite (removeParticipant_room _ _ _ _ Hroom).
      repeat case_bool_decide; (split; [done | by intros [? _]]).
    + unfold removeParticipant, getRoom, get. rewrite Hroom.
      destruct (inherited roomId); [done|]. split; [done | by intros [_ ?]].
  - intros rooms' left Hrem. split; [|split].
    + revert Hrem. destruct (rooms !! roomId) as [room|] eqn:Hroom.
      * rewrite (removeParticipant_room _ _ _ _ Hroom).
        repeat case_bool_decide; intros [= <- <-];
          rewrite ?lookup_delete_eq, ?lookup_insert_eq; split; done.
      * unfold removeParticipant, getRoom, get. rewrite Hroom.
        destruct (inherited roomId); [done|]. by intros [= <- <-].
    + intros room' ->. revert Hrem.
      destruct (rooms !! roomId) as [room|] eqn:Hroom.
      * rewrite (removeParticipant_room _ _ _ _ Hroom).
        repeat case_bool_decide; intros [= <- <-].
        rewrite lookup_insert_eq. split; [done|].
        exists room. by repeat split.
      * unfold removeParticipant, getRoom, get. rewrite Hroom.
        by destruct (inherited roomId).
    + intros other Hne. by eapply removeParticipant_other.
Qed.

(** X4: promoteLeader throws exactly when roomId names no room and is a
    name inherited from Object.prototype.  When it returns, it has
    succeeded exactly when the room exists and the new leader is one of its
    participants or a name that the participants object inherits.  On
    failure the registry is as it was; on success only the leaderId of that
    room has changed. *)
Theorem promoteLeader_result (rooms : gmap string Room) (roomId newLeaderId : string) :
  (promoteLeader roomId newLeaderId rooms = Thrown ↔
   rooms !! roomId = None ∧ inherited roomId = true) ∧
  (∀ rooms' promoted,
     promoteLeader roomId newLeaderId rooms = Returned (rooms', promoted) →
     (is_Some promoted ↔
      ∃ room, rooms !! roomId = Some room ∧
        (is_Some (participants room !! newLeaderId) ∨
         inherited newLeaderId = true)) ∧
     (promoted = None → rooms' = rooms) ∧
     (∀ room', promoted = Some room' →
        ∃ room, rooms !! roomId = Some room ∧
          room' = set_leaderId (Some newLeaderId) room ∧
          rooms' = <[roomId := room']> rooms)).
Proof.
  destruct (rooms !! roomId) as [room|] eqn:Hroom.
  - rewrite (promoteLeader_room _ _ _ _ Hroom).
    destruct (present (get newLeaderId (participants room))) eqn:Hp.
    + split; [split; [done | by intros [? _]]|].
      intros rooms' promoted [= <- <-]. split; [|split]; try done.
      * split; [|eauto]. intros _. exists room. split; [done|].
        by apply present_get.
      * intros room' [= <-]. eauto.
    + split; [split; [done | by intros [? _]]|].
      intros rooms' promoted [= <- <-]. split; [|split]; try done.
      split; [by intros [? ?]|].
      intros (room0 & [= <-] & Hin). apply present_get in Hin. congruence.
  - unfold promoteLeader, getRoom, get. rewrite Hroom.
    destruct (inherited roomId); [by split|].
    split; [split; [done | by intros [_ ?]]|].
    intros rooms' promoted [= <- <-]. split; [|split]; try done.
    split; [by intros [? ?]|]. by intros (room0 & ? & _).
Qed.

(** X5: createRoom returns what the registry then holds under roomId, is
    idempotent, never replaces a room that exists, and stores a new room
    exactly when roomId named nothing, which a name inherited from
    Object.prototype always does.  After deleteRoom the id names no room of
    the registry (a lookup still finds the inherited value under an
    inherited name), and deleting an unknown id changes nothing. *)
Theorem createRoom_deleteRoom (rooms : gmap string Room) (roomId : string) :
  createRoom roomId (createRoom roomId rooms).1 = createRoom roomId rooms ∧
  (createRoom roomId rooms).2 = getRoom roomId (createRoom roomId rooms).1 ∧
  present (createRoom roomId rooms).2 = true ∧
  (∀ room, rooms !! roomId = Some room →
           createRoom roomId rooms = (rooms, Own room)) ∧
  (rooms !! roomId = None →
   createRoom roomId rooms =
   if inherited roomId then (rooms, Inherited roomId)
   else (<[roomId := newRoom]> rooms, Own newRoom)) ∧
  deleteRoom roomId rooms !! roomId = None ∧
  getRoom roomId (deleteRoom roomId rooms)
    = (if inherited roomId then Inherited roomId else Undefined) ∧
  (rooms !! roomId = None → deleteRoom roomId rooms = rooms) ∧
  deleteRoom roomId (createRoom roomId rooms).1 = deleteRoom roomId rooms.
Proof.
  unfold createRoom, getRoom, deleteRoom, get.
  rewrite lookup_delete_eq.
  destruct (rooms !! roomId) as [room|] eqn:Hroom; simpl.
  - rewrite Hroom. repeat split; try done.
    by intros room' [= <-].
  - destruct (inherited roomId) eqn:Hin; simpl.
    + rewrite ?Hroom, ?Hin. repeat split; try done.
      intros _. by apply delete_id.
    + rewrite lookup_insert_eq. repeat split; try done.
      * intros _. by apply delete_id.
      * by rewrite delete_insert_eq.
Qed.

End RegistryOperations.

(** ** Authority and locality of the server's handlers *)

Section Authority.
Import JsObject Registry Server Protocol.

Lemma leader_only_dropped s now sid e roomId :
  leader_only e = Some roomId →
  led_by sid roomId s = None →
  handle now sid e s = (s, []).
Proof.
  intros He Hnot.
  destruct e; simpl in He; try discriminate He; injection He as ->; simpl.
  - unfold on_leader_state. by rewrite Hnot.
  - unfold on_control. by rewrite Hnot.
  - unfold on_media_cleared. by rewrite Hnot.
  - unfold on_promote_leader. by rewrite Hnot.
  - unfold on_kick_participant. by rewrite Hnot.
  - unfold on_create_share_token. by rewrite Hnot.
  - unfold on_approve_participant. by rewrite Hnot.
  - unfold on_reject_participant. by rewrite Hnot.
  - unfold on_leader_leave_room. by rewrite Hnot.
Qed.

(** X6: every message reserved to the leader (leader_state, control,
    media_cleared, promote_leader, kick_participant, create_share_token,
    approve_participant, reject_participant, leader_leave_room) is dropped
    when the room does not exist or the sender is not its leader: the state
    is unchanged and nothing is emitted. *)
Theorem only_the_leader (s : State) (now : Z) (sid : string) (e : event)
    (roomId : string) :
  leader_only e = Some roomId →
  (∀ room, rooms s !! roomId = Some room → leaderId room ≠ Some sid) →
  handle now sid e s = (s, []) ∧ step now sid e s = (s, []).
Proof.
  intros He Hnot. apply led_by_None in Hnot.
  pose proof (leader_only_dropped s now sid e roomId He Hnot) as Hdrop.
  split; [done|]. unfold step.
  destruct e, (sockets s !! sid); simpl in *; done.
Qed.

Lemma only_the_leader_witness :
  handle 3500 "P" (KickParticipant "R1" "L") Scenario.two_members
    = (Scenario.two_members, []) ∧
  step 3500 "P" (KickParticipant "R1" "L") Scenario.two_members
    = (Scenario.two_members, []).
Proof.
  apply (only_the_leader Scenario.two_members 3500 "P"
           (KickParticipant "R1" "L") "R1"); [reflexivity|].
  intros room Hr. vm_compute in Hr. injection Hr; intros <-. discriminate.
Defined.

Lemma addParticipant_other (rooms : gmap string Room) r sid name roomId
    rooms' room' :
  addParticipant r sid name rooms = Returned (rooms', room') →
  r ≠ roomId → rooms' !! roomId = rooms !! roomId.
Proof.
  intros Hadd Hne. rewrite (addParticipant_rooms _ _ _ _ _ _ Hadd).
  by rewrite lookup_insert_ne.
Qed.

Lemma promoteLeader_other (rooms : gmap string Room) r p roomId rooms' promoted :
  promoteLeader r p rooms = Returned (rooms', promoted) →
  r ≠ roomId → rooms' !! roomId = rooms !! roomId.
Proof.
  intros Hp Hne. revert Hp.
  destruct (rooms !! r) as [room|] eqn:Hroom.
  - rewrite (promoteLeader_room _ _ _ _ Hroom).
    destruct (present (get p (participants room))); intros [= <- _]; [|done].
    by rewrite lookup_insert_ne.
  - unfold promoteLeader, getRoom, get. rewrite Hroom.
    destruct (inherited r); [done|]. by intros [= <- _].
Qed.

Lemma join_directly_other sid r name asLeader s roomId :
  r ≠ roomId →
  rooms (join_directly sid r name asLeader s).1 !! roomId = rooms s !! roomId.
Proof.
  intros Hne. unfold join_directly.
  destruct (addParticipant r sid name (rooms s)) as [[rooms1 room1]|] eqn:Hadd;
    simpl; [|done].
  by eapply addParticipant_other.
Qed.

(** A message changes no room but the one it names. *)
Lemma handle_other_rooms s now sid e r roomId :
  room_of e = Some r → r ≠ roomId →
  rooms (handle now sid e s).1 !! roomId = rooms s !! roomId.
Proof.
  intros He Hne.
  destruct e; simpl in He; try discriminate He; injection He as ->; simpl.
  - unfold on_join_room, getRoom.
    destruct (get r (rooms s)) as [existingRoom| |];
      [|by apply join_directly_other..].
    destruct (leader_of existingRoom); [|by apply join_directly_other].
    destruct (lookup_token shareToken existingRoom) as [[tok found]|].
    + destruct (still_valid now found); [by apply join_directly_other|].
      simpl. by rewrite lookup_insert_ne.
    + simpl. by rewrite lookup_insert_ne.
  - unfold on_leader_state. destruct (led_by sid r s); [|done].
    simpl. by rewrite lookup_insert_ne.
  - unfold on_control. destruct (led_by sid r s); [|done].
    simpl. by rewrite lookup_insert_ne.
  - unfold on_media_cleared. destruct (led_by sid r s); [|done].
    simpl. by rewrite lookup_insert_ne.
  - unfold on_promote_leader. destruct (led_by sid r s); [|done].
    destruct (promoteLeader r participantId (rooms s)) as [[rooms1 u]|] eqn:Hp;
      [|done].
    apply (promoteLeader_other _ _ _ roomId) in Hp; [|done].
    by destruct u.
  - unfold on_kick_participant. destruct (led_by sid r s); [|done].
    case_bool_decide as Hself; [done|].
    destruct (removeParticipant r participantId (rooms s))
      as [[rooms1 u]|] eqn:Hp;
      [apply (removeParticipant_other _ _ _ roomId) in Hp; [|done]|];
      destruct (sockets s !! participantId); try destruct u; done.
  - unfold on_create_share_token. destruct (led_by sid r s); [|done].
    simpl. by rewrite lookup_insert_ne.
  - unfold on_approve_participant. destruct (led_by sid r s) as [room|]; [|done].
    destruct (pendingRequests room) as [pending|]; [|done].
    destruct (get requestId pending) as [request| |];
      [|simpl; by rewrite lookup_insert_ne | done].
    destruct (sockets s !! socketId request) as [k|];
      [|simpl; by rewrite lookup_insert_ne].
    destruct (joinCallback k); simpl; [|by rewrite lookup_insert_ne].
    destruct (addParticipant r (socketId request) (requestName request) (rooms s))
      as [[rooms1 room1]|] eqn:Hadd; simpl; [|done].
    rewrite lookup_insert_ne by done. by eapply addParticipant_other.
  - unfold on_reject_participant. destruct (led_by sid r s) as [room|]; [|done].
    destruct (pendingRequests room) as [pending|]; [|done].
    destruct (get requestId pending) as [request| |];
      [|simpl; by rewrite lookup_insert_ne | done].
    destruct (sockets s !! socketId request) as [k|];
      [destruct (joinCallback k)|]; simpl; by rewrite lookup_insert_ne.
  - unfold on_leader_leave_room. destruct (led_by sid r s); [|done].
    simpl. unfold deleteRoom. by rewrite lookup_delete_ne.
  - unfold on_snapshot_request. by destruct (getRoom r (rooms s)).
Qed.

(** X7: a message that names a room changes no other room of the
    registry, and a connection or disconnection changes none at all. *)
Theorem other_rooms_untouched (s : State) (now : Z) (sid : string) (e : event)
    (roomId : string) :
  (∀ r, room_of e = Some r → r ≠ roomId) →
  rooms (step now sid e s).1 !! roomId = rooms s !! roomId.
Proof.
  intros Hroom. unfold step.
  destruct (sockets s !! sid) as [k|] eqn:Hk.
  - destruct (room_of e) as [r|] eqn:He.
    + destruct e; try (by eapply handle_other_rooms; eauto);
        simpl in He; discriminate He.
    + destruct e; simpl in He; try discriminate He; simpl; [done|].
      by rewrite disconnection_result.
  - destruct e; simpl; try done.
    by destruct (String.eqb sid "" || String.eqb sid "__proto__").
Qed.

Lemma other_rooms_untouched_witness :
  rooms (step 3500 "L" (LeaderLeaveRoom "R1") Scenario.two_members).1 !! "R2"
  = rooms Scenario.two_members !! "R2" ∧
  rooms (step 3500 "P" Disconnect Scenario.two_members).1 !! "R1"
  = rooms Scenario.two_members !! "R1".
Proof.
  split.
  - apply (other_rooms_untouched Scenario.two_members 3500 "L"
             (LeaderLeaveRoom "R1") "R2").
    intros r [= <-]. discriminate.
  - apply (other_rooms_untouched Scenario.two_members 3500 "P" Disconnect "R1").
    intros r Hr. discriminate Hr.
Defined.

End Authority.

(** ** Who can change the playback state *)

Section PlaybackAuthority.
Import JsObject Registry Server Protocol.

Lemma join_directly_view sid roomId name asLeader s room room' :
  rooms s !! roomId = Some room →
  rooms (join_directly sid roomId name asLeader s).1 !! roomId = Some room' →
  roomState room' = roomState room.
Proof.
  intros Hroom. unfold join_directly.
  rewrite (addParticipant_existing_room _ _ _ _ _ Hroom). simpl.
  rewrite lookup_insert_eq. intros [= <-].
  by destruct (truthy_str (leaderId room)).
Qed.

(** X8: whatever a socket sends, and also when it disconnects, the playback
    state (media kind and reference, isPlaying, leaderMediaTime,
    leaderServerTs) of a room it does not lead is, as long as the room
    exists afterwards, what it was before. *)
Theorem playback_needs_leader (s : State) (now : Z) (sid : string) (e : event)
    (roomId : string) (room room' : Room) :
  rooms s !! roomId = Some room → leaderId room ≠ Some sid →
  rooms (step now sid e s).1 !! roomId = Some room' →
  roomState room' = roomState room.
Proof.
  intros Hroom Hlead. unfold step.
  destruct (sockets s !! sid) as [k|] eqn:Hk.
  2:{ destruct e; simpl; try congruence.
      destruct (String.eqb sid "" || String.eqb sid "__proto__"); simpl;
        congruence. }
  assert (led_by sid roomId s = None) as Hnot.
  { apply led_by_None. intros r0 Hr0. congruence. }
  destruct (room_of e) as [r|] eqn:He.
  - destruct (decide (r = roomId)) as [->|Hne].
    + destruct (leader_only e) as [r|] eqn:Hlo.
      * assert (r = roomId) as -> by (destruct e; simpl in *; congruence).
        rewrite (leader_only_dropped s now sid e roomId Hlo Hnot).
        destruct e; simpl; congruence.
      * destruct e; simpl in *; try discriminate; injection He as ->.
        -- unfold on_join_room, getRoom. rewrite (get_own _ _ _ Hroom).
           destruct (leader_of room); [|by apply join_directly_view].
           destruct (lookup_token shareToken room) as [[tok found]|].
           ++ destruct (still_valid now found);
                [by apply join_directly_view|].
              simpl. rewrite lookup_insert_eq. by intros [= <-].
           ++ simpl. rewrite lookup_insert_eq. by intros [= <-].
        -- unfold on_snapshot_request, getRoom. rewrite (get_own _ _ _ Hroom).
           simpl. congruence.
    + assert (rooms (handle now sid e s).1 !! roomId = rooms s !! roomId) as Hsame
        by (by eapply handle_other_rooms).
      destruct e; simpl in He; try discriminate He; rewrite Hsame; congruence.
  - destruct e; simpl in He; try discriminate He; simpl; [congruence|].
    rewrite disconnection_result. simpl. congruence.
Qed.

Lemma playback_needs_leader_witness :
  ∃ room room',
    rooms Scenario.two_members !! "R1" = Some room ∧
    rooms (step 3500 "P" (JoinRoom "R1" (JStr "Pat") None)
             Scenario.two_members).1 !! "R1"
      = Some room' ∧
    roomState room' = roomState room.
Proof.
  destruct (rooms Scenario.two_members !! "R1") as [room|] eqn:Hr;
    [|vm_compute in Hr; discriminate Hr].
  destruct (rooms (step 3500 "P" (JoinRoom "R1" (JStr "Pat") None)
                     Scenario.two_members).1
              !! "R1") as [room'|] eqn:Hr';
    [|vm_compute in Hr'; discriminate Hr'].
  exists room, room'. split; [reflexivity|]. split; [reflexivity|].
  apply (playback_needs_leader Scenario.two_members 3500 "P"
           (JoinRoom "R1" (JStr "Pat") None) "R1" room room' Hr); [|exact Hr'].
  vm_compute in Hr. injection Hr; intros <-. discriminate.
Defined.

End PlaybackAuthority.

(** ** Promotion, kick and the leader's leave *)

Section Membership.
Import JsObject Registry Server Protocol.

(** X9: when the leader promotes another participant, only the leaderId of
    the room changes, the whole room is told leader_changed, and authority
    moves with it: a control message of the old leader is now dropped and
    one of the new leader is relayed.  The same happens for a name that is
    no participant but one the participants object inherits from
    Object.prototype.  Promoting any other name changes nothing and emits
    nothing. *)
Theorem promote_transfers_authority (s : State) (now : Z)
    (sid roomId p type : string) (toTime : jsval) (room : Room) :
  rooms s !! roomId = Some room → leaderId room = Some sid → p ≠ sid →
  (is_Some (participants room !! p) ∨ inherited p = true →
   let result := on_promote_leader sid roomId p s in
   let room' := set_leaderId (Some p) room in
   let after := apply_control now type toTime room' in
   rooms result.1 = <[roomId := room']> (rooms s) ∧
   sockets result.1 = sockets s ∧
   result.2 = [ (IoTo roomId, leader_changed p (participants room)) ] ∧
   on_control now sid roomId type toTime result.1 = (result.1, []) ∧
   (on_control now p roomId type toTime result.1).2 =
     [ (IoTo roomId,
        control_update type toTime (leaderMediaTime after)
          (leaderServerTs after) (isPlaying after)) ]) ∧
  (participants room !! p = None → inherited p = false →
   on_promote_leader sid roomId p s = (s, [])).
Proof.
  intros Hroom Hl Hne.
  pose proof (led_by_intro _ _ _ _ Hroom Hl) as Hled.
  split.
  - intros Hq%present_get result room' after. subst result.
    unfold on_promote_leader.
    rewrite Hled, (promoteLeader_room _ _ _ _ Hroom), Hq. simpl.
    split; [done|]. split; [done|]. split; [done|].
    unfold on_control, led_by, getRoom. simpl.
    rewrite (get_own _ _ _ (lookup_insert_eq _ _ _)). simpl.
    rewrite bool_decide_eq_false_2 by congruence.
    rewrite bool_decide_eq_true_2 by done. done.
  - intros Hq Hplain. unfold on_promote_leader.
    rewrite Hled, (promoteLeader_room _ _ _ _ Hroom).
    rewrite (get_plain _ _ Hq Hplain). by destruct s.
Qed.

Lemma promote_transfers_authority_witness :
  (on_promote_leader "L" "R1" "P" Scenario.two_members).2
  = [ (IoTo "R1",
       leader_changed "P"
         (<["P" := {| name := JStr "Pat" |}]>
            {[ "L" := {| name := JStr "Lea" |} ]})) ] ∧
  on_control 4000 "L" "R1" "PLAY" JUndefined
    (on_promote_leader "L" "R1" "P" Scenario.two_members).1
  = ((on_promote_leader "L" "R1" "P" Scenario.two_members).1, []).
Proof.
  destruct (rooms Scenario.two_members !! "R1") as [room|] eqn:Hr;
    [|vm_compute in Hr; discriminate Hr].
  assert (leaderId room = Some "L") as Hl
    by (vm_compute in Hr; injection Hr; intros <-; reflexivity).
  assert (participants room
          = <["P" := {| name := JStr "Pat" |}]>
              {[ "L" := {| name := JStr "Lea" |} ]}) as Hp
    by (vm_compute in Hr; injection Hr; intros <-; reflexivity).
  assert ("P" ≠ "L") as Hne by discriminate.
  destruct (promote_transfers_authority Scenario.two_members 4000 "L" "R1" "P"
              "PLAY" JUndefined room Hr Hl Hne) as [Hyes _].
  assert (is_Some (participants room !! "P") ∨ inherited "P" = true) as Hin
    by (left; rewrite Hp; vm_compute; eauto).
  destruct (Hyes Hin) as (_ & _ & Hout & Hold & _).
  split; [by rewrite Hout, Hp | exact Hold].
Defined.

Lemma not_in_room_after_leave (m : gmap string Socket) p roomId s :
  sockets s = alter (leave roomId) p m → ¬ in_room s p roomId.
Proof.
  intros Hs (k & Hk & Hin). rewrite Hs, lookup_alter_eq in Hk.
  destruct (m !! p) as [k0|]; [|discriminate Hk].
  injection Hk as <-. simpl in Hin.
  apply list_elem_of_filter in Hin as [Hne _]. done.
Qed.

(** X10: a kick by the leader of anyone but itself deletes the target from
    the participants and leaves leader and playback state alone; a
    connected target is told participant_kicked and leaves the transport
    room; the others are sent participant_left (reason "kicked") and the
    kick notification.  The name shown in both is the participant's name,
    or "Unknown" if that is falsy.  All of this also happens when the
    target was no participant: the registry is then unchanged but the
    notifications go out, showing "Unknown", or, for a name that the
    participants object inherits, the name of the inherited function
    ("Object" under "constructor").  The leader cannot kick itself. *)
Theorem kick_removes_target (s : State) (sid roomId p : string) (room : Room) :
  rooms s !! roomId = Some room → leaderId room = Some sid → p ≠ sid →
  is_Some (participants room !! sid) →
  let result := on_kick_participant sid roomId p s in
  let room' := set_participants (delete p (participants room)) room in
  let shown := shown_name p room in
  rooms result.1 = <[roomId := room']> (rooms s) ∧
  sockets result.1 = alter (leave roomId) p (sockets s) ∧
  ¬ in_room result.1 p roomId ∧
  result.2 =
    (match sockets s !! p with
     | Some _ => [ (SocketEmit p, participant_kicked "Removed by room leader") ]
     | None => []
     end ++
     [ (SocketTo sid roomId,
        participant_left p (participants room') (Some sid) (Some "kicked")
          (Some shown));
       (SocketTo sid roomId,
        participant_kicked_notification p shown "leader") ])%list ∧
  (∀ q, participants room !! p = Some q →
        shown = js_or (name q) (JStr "Unknown")) ∧
  (participants room !! p = None →
   rooms result.1 = rooms s ∧
   shown = (if inherited p
            then js_or (inherited_name p) (JStr "Unknown")
            else JStr "Unknown") ∧
   (p = "constructor" → shown = JStr "Object")) ∧
  on_kick_participant sid roomId sid s = (s, []).
Proof.
  intros Hroom Hl Hne [q Hq] result room' shown.
  pose proof (led_by_intro _ _ _ _ Hroom Hl) as Hled.
  assert (removeParticipant roomId p (rooms s)
          = Returned (<[roomId := room']> (rooms s), Some room')) as Hrem.
  { rewrite (removeParticipant_room _ _ _ _ Hroom).
    rewrite bool_decide_eq_false_2 by congruence.
    rewrite bool_decide_eq_false_2; [done|].
    apply map_size_non_empty_iff. intros Hempty.
    apply (f_equal (λ m, m !! sid)) in Hempty.
    rewrite lookup_delete_ne, Hq, lookup_empty in Hempty by done. done. }
  assert (result =
          ({| rooms := <[roomId := room']> (rooms s);
              sockets := alter (leave roomId) p (sockets s) |},
           (match sockets s !! p with
            | Some _ =>
                [ (SocketEmit p, participant_kicked "Removed by room leader") ]
            | None => []
            end ++
            [ (SocketTo sid roomId,
               participant_left p (participants room') (Some sid) (Some "kicked")
                 (Some shown));
              (SocketTo sid roomId,
               participant_kicked_notification p shown "leader") ])%list))
    as Hresult.
  { subst result. unfold on_kick_participant. rewrite Hled.
    rewrite bool_decide_eq_false_2 by done. rewrite Hrem.
    destruct (sockets s !! p) as [k|] eqn:Hk; simpl.
    - subst room'. simpl. by rewrite Hl.
    - subst room'. simpl. rewrite Hl. do 2 f_equal.
      apply map_eq. intros i. rewrite lookup_alter.
      case_decide as Hi; [|done]. subst i. by rewrite Hk. }
  rewrite Hresult. simpl.
  split; [done|]. split; [done|]. split; [|split; [done|split; [|split]]].
  - by eapply not_in_room_after_leave.
  - intros q' Hq'. subst shown. unfold shown_name. by rewrite (get_own _ _ _ Hq').
  - intros Hp. split; [|split].
    + subst room'. rewrite delete_id by done.
      assert (set_participants (participants room) room = room) as ->
        by (by destruct room).
      by apply insert_id.
    + subst shown. unfold shown_name, get. rewrite Hp.
      by destruct (inherited p).
    + intros ->. subst shown. unfold shown_name, get. by rewrite Hp.
  - unfold on_kick_participant. rewrite Hled.
    by rewrite bool_decide_eq_true_2.
Qed.

Lemma kick_removes_target_witness :
  (participants <$> rooms (on_kick_participant "L" "R1" "P" Scenario.two_members).1
                       !! "R1")
  = Some {[ "L" := {| name := JStr "Lea" |} ]} ∧
  ¬ in_room (on_kick_participant "L" "R1" "P" Scenario.two_members).1 "P" "R1".
Proof.
  destruct (rooms Scenario.two_members !! "R1") as [room|] eqn:Hr;
    [|vm_compute in Hr; discriminate Hr].
  assert (leaderId room = Some "L") as Hl
    by (vm_compute in Hr; injection Hr; intros <-; reflexivity).
  assert (is_Some (participants room !! "L")) as Hin
    by (vm_compute in Hr; injection Hr; intros <-; vm_compute; eauto).
  assert ("P" ≠ "L") as Hne by discriminate.
  destruct (kick_removes_target Scenario.two_members "L" "R1" "P" room
              Hr Hl Hne Hin) as (_ & _ & Hout & _).
  split; [reflexivity | exact Hout].
Defined.

(** X11: when the leader leaves, the room is deleted from the registry, the
    whole room is sent room_closed("Leader left the room"), every socket
    has left the transport room and the other transport rooms are as
    before.  Further leader messages for that room are dropped, and the next
    join_room for the id opens a fresh room led by the joiner (the id is
    not a name of Object.prototype: under such a name no room is stored). *)
Theorem leader_leave_closes_room (s : State) (now : Z) (sid roomId : string)
    (room : Room) :
  rooms s !! roomId = Some room → leaderId room = Some sid →
  let result := on_leader_leave_room sid roomId s in
  rooms result.1 = delete roomId (rooms s) ∧
  result.2 = [ (IoTo roomId, room_closed "Leader left the room") ] ∧
  (∀ m, ¬ in_room result.1 m roomId) ∧
  (∀ m r, r ≠ roomId → in_room result.1 m r ↔ in_room s m r) ∧
  (∀ e who, leader_only e = Some roomId →
            handle now who e result.1 = (result.1, [])) ∧
  (∀ joiner name shareToken, inherited roomId = false →
     (on_join_room now joiner roomId name shareToken result.1).2 =
     [ (Callback joiner, join_ack joiner true (roomState newRoom));
       (SocketTo joiner roomId,
        participant_joined joiner name {[ joiner := {| name := name |} ]}) ]).
Proof.
  intros Hroom Hl result. subst result.
  pose proof (led_by_intro _ _ _ _ Hroom Hl) as Hled.
  unfold on_leader_leave_room. rewrite Hled. simpl.
  split; [done|]. split; [done|]. split; [|split; [|split]].
  - intros m (k & Hk & Hin). simpl in Hk. rewrite lookup_fmap in Hk.
    destruct (sockets s !! m) as [k0|]; [|discriminate Hk].
    injection Hk as <-. simpl in Hin.
    apply list_elem_of_filter in Hin as [Hne _]. done.
  - intros m r Hne. unfold in_room. simpl. rewrite lookup_fmap. split.
    + intros (k & Hk & Hin). destruct (sockets s !! m) as [k0|]; [|discriminate Hk].
      injection Hk as <-. simpl in Hin.
      apply list_elem_of_filter in Hin as [_ Hin]. eauto.
    + intros (k & Hk & Hin). rewrite Hk. simpl. eexists. split; [done|].
      simpl. apply list_elem_of_filter. done.
  - intros e who He. apply (leader_only_dropped _ now who e roomId He).
    apply led_by_None. unfold deleteRoom. simpl. intros r0 Hr0.
    by rewrite lookup_delete_eq in Hr0.
  - intros joiner name shareToken Hplain.
    unfold on_join_room, getRoom, deleteRoom. simpl.
    rewrite (get_plain _ _ (lookup_delete_eq _ _) Hplain).
    unfold join_directly. simpl.
    rewrite (addParticipant_fresh _ _ _ _ (lookup_delete_eq _ _) Hplain).
    simpl. by rewrite bool_decide_eq_true_2.
Qed.

Lemma leader_leave_closes_room_witness :
  rooms (on_leader_leave_room "L" "R1" Scenario.two_members).1
  = delete "R1" (rooms Scenario.two_members) ∧
  (on_leader_leave_room "L" "R1" Scenario.two_members).2
  = [ (IoTo "R1", room_closed "Leader left the room") ].
Proof.
  destruct (rooms Scenario.two_members !! "R1") as [room|] eqn:Hr;
    [|vm_compute in Hr; discriminate Hr].
  assert (leaderId room = Some "L") as Hl
    by (vm_compute in Hr; injection Hr; intros <-; reflexivity).
  destruct (leader_leave_closes_room Scenario.two_members 4000 "L" "R1" room
              Hr Hl) as (Hrooms & Hout & _).
  split; [exact Hrooms | exact Hout].
Defined.

End Membership.

(** ** The approval path *)

Section Approval.
Import JsObject Registry Server Protocol.

Lemma join_pending now sid roomId name shareToken s room leader :
  rooms s !! roomId = Some room → leader_of room = Some leader →
  lookup_token shareToken room = None →
  on_join_room now sid roomId name shareToken s =
  ({| rooms :=
        <[roomId :=
            set_pendingRequests
              (Some (<[sid +:+ "_" +:+ pretty now :=
                         {| socketId := sid; requestName := name;
                            timestamp := now |}]>
                       (default ∅ (pendingRequests room)))) room]> (rooms s);
      sockets := alter (store_pending roomId name) sid (sockets s) |},
   [ (SocketTo sid leader,
      participant_join_request (sid +:+ "_" +:+ pretty now) name) ]).
Proof.
  intros Hroom Hleader Htok. unfold on_join_room, getRoom.
  by rewrite (get_own _ _ _ Hroom), Hleader, Htok.
Qed.

Lemma leader_of_intro room leader :
  leaderId room = Some leader → leader ≠ "" → leader_of room = Some leader.
Proof.
  intros Hl Hne. unfold leader_of. rewrite Hl.
  by rewrite (truthy_str_Some _ Hne).
Qed.

(** X12: a join_room without a share token to a room that has a leader
    admits nobody: the participants are unchanged, the joiner gets no
    acknowledgement, and the leader alone is asked; the request is stored
    under the id made of the socket id and the time.  When the leader then
    approves that id, the joiner becomes a participant under the name it
    gave, the leader and the playback state stay, the request is gone, the
    joiner's socket is in the transport room with its stored callback
    cleared, the joiner is acknowledged with isLeader = false and the
    others are told participant_joined. *)
Theorem join_then_approve (s : State) (now : Z) (sid roomId leader : string)
    (name : jsval) (room : Room) (k : Socket) :
  rooms s !! roomId = Some room → leaderId room = Some leader → leader ≠ "" →
  sockets s !! sid = Some k →
  let requestId := sid +:+ "_" +:+ pretty now in
  let asked := on_join_room now sid roomId name None s in
  let result := on_approve_participant leader roomId requestId asked.1 in
  (∃ waiting, rooms asked.1 !! roomId = Some waiting ∧
     participants waiting = participants room ∧
     (pendingRequests waiting ≫= (.!! requestId)) =
       Some {| socketId := sid; requestName := name; timestamp := now |}) ∧
  asked.2 = [ (SocketTo sid leader, participant_join_request requestId name) ] ∧
  (∃ room', rooms result.1 !! roomId = Some room' ∧
     participants room' = <[sid := {| name := name |}]> (participants room) ∧
     leaderId room' = Some leader ∧
     roomState room' = roomState room ∧
     (pendingRequests room' ≫= (.!! requestId)) = None ∧
     result.2 =
       [ (Callback sid, join_ack sid false (roomState room));
         (SocketTo sid roomId,
          participant_joined sid name (participants room')) ]) ∧
  in_room result.1 sid roomId ∧
  (joinCallback <$> sockets result.1 !! sid) = Some false.
Proof.
  intros Hroom Hl Hne Hk requestId asked result.
  pose proof (leader_of_intro _ _ Hl Hne) as Hleader.
  assert (lookup_token None room = None) as Htok by done.
  subst asked result.
  rewrite (join_pending now sid roomId name None s room leader Hroom Hleader Htok).
  fold requestId. simpl.
  set (request := {| socketId := sid; requestName := name; timestamp := now |}).
  set (pend := <[requestId := request]> (default ∅ (pendingRequests room))).
  set (waiting := set_pendingRequests (Some pend) room).
  split; [|split; [done|]].
  { exists waiting. rewrite lookup_insert_eq. split; [done|]. split; [done|].
    simpl. subst pend. by rewrite lookup_insert_eq. }
  unfold on_approve_participant, led_by, getRoom. simpl.
  rewrite (get_own _ _ _ (lookup_insert_eq _ _ _)). simpl. rewrite Hl.
  rewrite bool_decide_eq_true_2 by done. simpl.
  subst pend. rewrite (get_own _ _ _ (lookup_insert_eq _ _ _)). simpl.
  rewrite lookup_alter_eq, Hk. simpl.
  rewrite (addParticipant_existing_room _ _ _ _ _ (lookup_insert_eq _ _ _)).
  simpl. rewrite Hl, (truthy_str_Some _ Hne). simpl.
  split; [|split].
  - eexists. rewrite lookup_insert_eq. split; [reflexivity|]. simpl.
    split; [done|]. split; [done|]. split; [done|]. split; [|done].
    by rewrite lookup_delete_eq.
  - unfold in_room. simpl. eexists. split.
    + rewrite !lookup_alter_eq, Hk. reflexivity.
    + simpl. case_bool_decide as Hin; [done|].
      apply elem_of_app. right. by apply list_elem_of_singleton.
  - simpl. by rewrite !lookup_alter_eq, Hk.
Qed.

Lemma join_then_approve_witness :
  (participants <$>
     rooms (on_approve_participant "L" "R1" ("P" +:+ "_" +:+ pretty 2500)
              (on_join_room 2500 "P" "R1" (JStr "Pat") None
                 Scenario.with_P_connected).1).1 !! "R1")
  = Some (<["P" := {| name := JStr "Pat" |}]>
            {[ "L" := {| name := JStr "Lea" |} ]}).
Proof.
  destruct (rooms Scenario.with_P_connected !! "R1") as [room|] eqn:Hr;
    [|vm_compute in Hr; discriminate Hr].
  assert (leaderId room = Some "L") as Hl
    by (vm_compute in Hr; injection Hr; intros <-; reflexivity).
  assert (participants room = {[ "L" := {| name := JStr "Lea" |} ]}) as Hp
    by (vm_compute in Hr; injection Hr; intros <-; reflexivity).
  assert ("L" ≠ "") as Hne by discriminate.
  destruct (join_then_approve Scenario.with_P_connected 2500 "P" "R1" "L"
              (JStr "Pat") room
              {| joinCallback := false; pendingRoomId := None;
                 pendingName := None; socket_rooms := ["P"] |}
              Hr Hl Hne eq_refl)
    as (_ & _ & (room' & Hr' & Hp' & _) & _).
  rewrite Hr'. simpl. by rewrite Hp', Hp.
Defined.

(** X13: when the leader rejects the pending request of a connected joiner
    instead, the participants, the leader and the transport rooms stay as
    they were, the request is gone, the joiner's stored callback is
    answered with the rejection error and cleared, and nobody else is told
    anything. *)
Theorem join_then_reject (s : State) (now : Z) (sid roomId leader : string)
    (name : jsval) (room : Room) (k : Socket) :
  rooms s !! roomId = Some room → leaderId room = Some leader → leader ≠ "" →
  sockets s !! sid = Some k →
  let requestId := sid +:+ "_" +:+ pretty now in
  let asked := on_join_room now sid roomId name None s in
  let result := on_reject_participant leader roomId requestId asked.1 in
  (∃ room', rooms result.1 !! roomId = Some room' ∧
     participants room' = participants room ∧
     leaderId room' = Some leader ∧
     roomState room' = roomState room ∧
     (pendingRequests room' ≫= (.!! requestId)) = None) ∧
  result.2 = [ (Callback sid, join_error rejected_error) ] ∧
  (∀ m r, in_room result.1 m r ↔ in_room s m r) ∧
  (joinCallback <$> sockets result.1 !! sid) = Some false.
Proof.
  intros Hroom Hl Hne Hk requestId asked result.
  pose proof (leader_of_intro _ _ Hl Hne) as Hleader.
  assert (lookup_token None room = None) as Htok by done.
  subst asked result.
  rewrite (join_pending now sid roomId name None s room leader Hroom Hleader Htok).
  fold requestId. simpl.
  unfold on_reject_participant, led_by, getRoom. simpl.
  rewrite (get_own _ _ _ (lookup_insert_eq _ _ _)). simpl. rewrite Hl.
  rewrite bool_decide_eq_true_2 by done. simpl.
  rewrite (get_own _ _ _ (lookup_insert_eq _ _ _)). simpl.
  rewrite lookup_alter_eq, Hk. simpl.
  split; [|split; [done|split]].
  - eexists. rewrite lookup_insert_eq. split; [reflexivity|]. simpl.
    split; [done|]. split; [done|]. split; [done|].
    by rewrite lookup_delete_eq.
  - intros m r. unfold in_room. simpl.
    destruct (decide (m = sid)) as [->|Hm].
    + rewrite !lookup_alter_eq, Hk. simpl. split.
      * intros (k' & [= <-] & Hin). eauto.
      * intros (k' & [= <-] & Hin). eauto.
    + by rewrite !lookup_alter_ne.
  - by rewrite !lookup_alter_eq, Hk.
Qed.

Lemma join_then_reject_witness :
  (on_reject_participant "L" "R1" ("P" +:+ "_" +:+ pretty 2500)
     (on_join_room 2500 "P" "R1" (JStr "Pat") None
        Scenario.with_P_connected).1).2
  = [ (Callback "P", join_error rejected_error) ].
Proof.
  destruct (rooms Scenario.with_P_connected !! "R1") as [room|] eqn:Hr;
    [|vm_compute in Hr; discriminate Hr].
  assert (leaderId room = Some "L") as Hl
    by (vm_compute in Hr; injection Hr; intros <-; reflexivity).
  assert ("L" ≠ "") as Hne by discriminate.
  destruct (join_then_reject Scenario.with_P_connected 2500 "P" "R1" "L"
              (JStr "Pat") room
              {| joinCallback := false; pendingRoomId := None;
                 pendingName := None; socket_rooms := ["P"] |}
              Hr Hl Hne eq_refl)
    as (_ & Hout & _).
  exact Hout.
Defined.

(** Deleting a request that is not there leaves the state as it is. *)
Lemma drop_request_absent roomId requestId pending room s :
  rooms s !! roomId = Some room → pendingRequests room = Some pending →
  pending !! requestId = None →
  drop_request roomId requestId pending room s = s.
Proof.
  intros Hroom Hpend Hnone. unfold drop_request.
  rewrite delete_id by done.
  assert (set_pendingRequests (Some pending) room = room) as ->
    by (destruct room; simpl in *; by subst).
  rewrite insert_id by done. by destruct s.
Qed.

Lemma no_request_no_effect who roomId requestId s :
  (∀ room pending, rooms s !! roomId = Some room →
     pendingRequests room = Some pending → pending !! requestId = None) →
  on_approve_participant who roomId requestId s = (s, []) ∧
  on_reject_participant who roomId requestId s = (s, []).
Proof.
  intros Hnone. unfold on_approve_participant, on_reject_participant.
  destruct (led_by who roomId s) as [room|] eqn:Hled; [|done].
  apply led_by_Some in Hled as [Hroom _].
  destruct (pendingRequests room) as [pending|] eqn:Hpend; [|done].
  pose proof (Hnone room pending Hroom Hpend) as Habsent.
  unfold get. rewrite Habsent.
  destruct (inherited requestId); [|done].
  by rewrite (drop_request_absent _ _ _ _ _ Hroom Hpend Habsent).
Qed.

(** X14: a pending request is resolved once.  After the leader has approved
    or rejected a request id (whatever became of the requester), approving
    or rejecting the same id again, by anyone, changes nothing and emits
    nothing: no second acknowledgement is ever sent. *)
Theorem request_resolved_once (s : State) (leader roomId requestId who : string)
    (room : Room) (pending : gmap string PendingRequest)
    (request : PendingRequest) :
  rooms s !! roomId = Some room → leaderId room = Some leader →
  pendingRequests room = Some pending → pending !! requestId = Some request →
  let approved := (on_approve_participant leader roomId requestId s).1 in
  let rejected := (on_reject_participant leader roomId requestId s).1 in
  on_approve_participant who roomId requestId approved = (approved, []) ∧
  on_reject_participant who roomId requestId approved = (approved, []) ∧
  on_approve_participant who roomId requestId rejected = (rejected, []) ∧
  on_reject_participant who roomId requestId rejected = (rejected, []).
Proof.
  intros Hroom Hl Hpend Hreq approved rejected.
  pose proof (led_by_intro _ _ _ _ Hroom Hl) as Hled.
  assert (∀ room' pending', rooms approved !! roomId = Some room' →
            pendingRequests room' = Some pending' →
            pending' !! requestId = None) as Happroved.
  { subst approved. unfold on_approve_participant.
    rewrite Hled, Hpend, (get_own _ _ _ Hreq).
    destruct (sockets s !! socketId request) as [k|].
    - destruct (joinCallback k); simpl.
      + rewrite (addParticipant_existing_room _ _ _ _ _ Hroom). simpl.
        intros room' pending'. rewrite lookup_insert_eq. intros [= <-]. simpl.
        destruct (truthy_str (leaderId room)); simpl; rewrite Hpend; simpl;
          intros [= <-]; apply lookup_delete_eq.
      + intros room' pending'. rewrite lookup_insert_eq. intros [= <-]. simpl.
        intros [= <-]. apply lookup_delete_eq.
    - simpl. intros room' pending'. rewrite lookup_insert_eq. intros [= <-].
      simpl. intros [= <-]. apply lookup_delete_eq. }
  assert (∀ room' pending', rooms rejected !! roomId = Some room' →
            pendingRequests room' = Some pending' →
            pending' !! requestId = None) as Hrejected.
  { subst rejected. unfold on_reject_participant.
    rewrite Hled, Hpend, (get_own _ _ _ Hreq).
    destruct (sockets s !! socketId request) as [k|];
      [destruct (joinCallback k)|]; simpl;
      intros room' pending'; rewrite lookup_insert_eq; intros [= <-]; simpl;
      intros [= <-]; apply lookup_delete_eq. }
  destruct (no_request_no_effect who roomId requestId approved Happroved).
  destruct (no_request_no_effect who roomId requestId rejected Hrejected).
  done.
Qed.

Lemma request_resolved_once_witness :
  on_approve_participant "L" "R1" "P_2500"
    (on_approve_participant "L" "R1" "P_2500" Scenario.P_pending).1
  = ((on_approve_participant "L" "R1" "P_2500" Scenario.P_pending).1, []).
Proof.
  destruct (rooms Scenario.P_pending !! "R1") as [room|] eqn:Hr;
    [|vm_compute in Hr; discriminate Hr].
  set (request := {| socketId := "P"; requestName := JStr "Pat"; timestamp := 2500 |}).
  assert (leaderId room = Some "L") as Hl
    by (vm_compute in Hr; injection Hr; intros <-; reflexivity).
  assert (pendingRequests room = Some {[ "P_2500" := request ]}) as Hpend
    by (vm_compute in Hr; injection Hr; intros <-; reflexivity).
  assert (({[ "P_2500" := request ]} : gmap string PendingRequest) !! "P_2500"
          = Some request) as Hreq by reflexivity.
  destruct (request_resolved_once Scenario.P_pending "L" "R1" "P_2500" "L" room
              _ request Hr Hl Hpend Hreq) as (Hagain & _).
  exact Hagain.
Defined.

End Approval.

(** ** Share tokens and the first join *)

Section Tokens.
Import JsObject Registry Server Protocol.

(** The join handler once the token condition holds. *)
Lemma join_with_found now sid roomId name tok s room leader found :
  rooms s !! roomId = Some room → leader_of room = Some leader →
  lookup_token (Some tok) room = Some (tok, found) →
  on_join_room now sid roomId name (Some tok) s =
  if still_valid now found
  then join_directly sid roomId name (λ _, false) s
  else (set_rooms
          (<[roomId := set_shareTokens (token_delete tok <$> shareTokens room)
                         room]> (rooms s)) s,
        [ (Callback sid, join_error expired_error) ]).
Proof.
  intros Hroom Hleader Hfound. unfold on_join_room, getRoom.
  by rewrite (get_own _ _ _ Hroom), Hleader, Hfound.
Qed.

Lemma join_with_token now sid roomId name tok s room leader
    (toks : TokenTable) tokenData :
  rooms s !! roomId = Some room → leader_of room = Some leader → tok ≠ "" →
  shareTokens room = Some toks → own_tokens toks !! tok = Some tokenData →
  on_join_room now sid roomId name (Some tok) s =
  if (now <? expiresAt tokenData)%Z
  then join_directly sid roomId name (λ _, false) s
  else (set_rooms
          (<[roomId := set_shareTokens (Some (token_delete tok toks)) room]>
             (rooms s)) s,
        [ (Callback sid, join_error expired_error) ]).
Proof.
  intros Hroom Hleader Htok Htoks Hdata.
  rewrite (join_with_found now sid roomId name tok s room leader (Some tokenData)
             Hroom Hleader (lookup_token_stored _ _ _ _ Htok Htoks Hdata)).
  by rewrite Htoks.
Qed.

(** What is assigned under a name is what a lookup of that name yields,
    also when the name is [__proto__]. *)
Lemma token_get_set tok tokenData t :
  token_get tok (token_set tok tokenData t) = TokenData tokenData.
Proof.
  unfold token_set, token_get.
  destruct (String.eqb_spec tok "__proto__") as [->|Hne]; simpl.
  - case_bool_decide as Hown; simpl.
    + by rewrite Hown.
    + by rewrite lookup_insert_eq.
  - by rewrite lookup_insert_eq.
Qed.

(** A lookup that does not hit an own entry yields a token record only
    under [__proto__]. *)
Lemma token_get_absent tok t :
  own_tokens t !! tok = None → tok ≠ "__proto__" →
  ∀ tokenData, token_get tok t ≠ TokenData tokenData.
Proof.
  intros Hown Hne tokenData. unfold token_get. rewrite Hown.
  destruct (String.eqb_spec tok "__proto__"); [done|].
  destruct (proto_token t) as [p|];
    repeat match goal with
           | |- context [if ?b then _ else _] => destruct b
           end; done.
Qed.

Lemma join_directly_existing sid roomId name asLeader s room :
  rooms s !! roomId = Some room → truthy_str (leaderId room) = true →
  join_directly sid roomId name asLeader s =
  let room_in :=
    set_participants (<[sid := {| name := name |}]> (participants room)) room in
  ({| rooms := <[roomId := room_in]> (rooms s);
      sockets := alter (join roomId) sid (sockets s) |},
   [ (Callback sid, join_ack sid (asLeader room_in) (roomState room));
     (SocketTo sid roomId, participant_joined sid name (participants room_in)) ]).
Proof.
  intros Hroom Hl. unfold join_directly.
  by rewrite (addParticipant_existing _ _ _ _ _ Hroom Hl).
Qed.

(** X15: a share token created by the leader at time t0 opens the room for
    exactly 24 hours: a join_room presenting it at a time before
    t0 + 86400000 ms makes the joiner a participant at once (isLeader =
    false, leader unchanged); from t0 + 86400000 on the joiner is refused
    with the expired-link error and stays out, and the table has no entry
    of its own under the token's name any more (unless the name is
    __proto__, it then yields no token record).  Creating the token itself
    emits nothing and changes neither participants nor leader. *)
Theorem token_opens_for_a_day (s : State) (t0 now : Z)
    (leader roomId tok joiner : string) (name : jsval) (room : Room) :
  rooms s !! roomId = Some room → leaderId room = Some leader → leader ≠ "" →
  tok ≠ "" →
  let created := on_create_share_token t0 leader roomId tok s in
  let result := on_join_room now joiner roomId name (Some tok) created.1 in
  created.2 = [] ∧
  (∃ room1, rooms created.1 !! roomId = Some room1 ∧
     participants room1 = participants room ∧ leaderId room1 = Some leader ∧
     (token_get tok <$> shareTokens room1) =
       Some (TokenData {| createdAt := t0; createdBy := leader;
                          expiresAt := t0 + 86400000 |})) ∧
  (now < t0 + 86400000 →
   (∃ room', rooms result.1 !! roomId = Some room' ∧
      participants room' = <[joiner := {| name := name |}]> (participants room) ∧
      leaderId room' = Some leader) ∧
   result.2 =
     [ (Callback joiner, join_ack joiner false (roomState room));
       (SocketTo joiner roomId,
        participant_joined joiner name
          (<[joiner := {| name := name |}]> (participants room))) ]) ∧
  (t0 + 86400000 ≤ now →
   (∃ room', rooms result.1 !! roomId = Some room' ∧
      participants room' = participants room ∧
      (shareTokens room' ≫= λ t, own_tokens t !! tok) = None ∧
      (tok ≠ "__proto__" →
       ∀ tokenData,
         (token_get tok <$> shareTokens room') ≠ Some (TokenData tokenData))) ∧
   result.2 = [ (Callback joiner, join_error expired_error) ]).
Proof.
  intros Hroom Hl Hne Htok created result.
  pose proof (led_by_intro _ _ _ _ Hroom Hl) as Hled.
  set (tokenData := {| createdAt := t0; createdBy := leader;
                       expiresAt := t0 + 86400000 |}).
  set (toks := token_set tok tokenData (default no_tokens (shareTokens room))).
  set (room1 := set_shareTokens (Some toks) room).
  assert (created = (set_rooms (<[roomId := room1]> (rooms s)) s, [])) as Hcreated.
  { subst created. unfold on_create_share_token. by rewrite Hled. }
  assert (rooms created.1 !! roomId = Some room1) as Hroom1.
  { rewrite Hcreated. simpl. apply lookup_insert_eq. }
  assert (leader_of room1 = Some leader) as Hleader1
    by (by apply leader_of_intro).
  assert (token_get tok toks = TokenData tokenData) as Hdata
    by (subst toks; apply token_get_set).
  assert (lookup_token (Some tok) room1 = Some (tok, Some tokenData)) as Hfound.
  { unfold lookup_token. rewrite (truthy_str_Some _ Htok). simpl.
    by rewrite Hdata. }
  pose proof (join_with_found now joiner roomId name tok created.1 room1 leader
                (Some tokenData) Hroom1 Hleader1 Hfound) as Hrun.
  fold result in Hrun. simpl in Hrun.
  split; [by rewrite Hcreated|]. split; [|split].
  - exists room1. split; [done|]. split; [done|]. split; [done|].
    simpl. by rewrite Hdata.
  - intros Hlt. rewrite (proj2 (Z.ltb_lt _ _) Hlt) in Hrun.
    rewrite (join_directly_existing _ _ _ _ _ _ Hroom1) in Hrun
      by (simpl; rewrite Hl; by apply truthy_str_Some).
    rewrite Hrun. simpl. split; [|done].
    eexists. rewrite lookup_insert_eq. split; [reflexivity|]. done.
  - intros Hge. rewrite (proj2 (Z.ltb_ge _ _) Hge) in Hrun.
    rewrite Hrun. simpl. split; [|done].
    eexists. rewrite lookup_insert_eq. split; [reflexivity|]. simpl.
    split; [done|]. split; [apply lookup_delete_eq|].
    intros Hproto d [= Hd]. revert Hd.
    apply token_get_absent; [apply lookup_delete_eq | done].
Qed.

Lemma token_opens_for_a_day_witness :
  (on_join_room 86402099 "P" "R1" (JStr "Pat") (Some "tok")
     (on_create_share_token 2100 "L" "R1" "tok" Scenario.with_P_connected).1).2
  = [ (Callback "P", join_ack "P" false (roomState newRoom));
      (SocketTo "P" "R1",
       participant_joined "P" (JStr "Pat")
         (<["P" := {| name := JStr "Pat" |}]>
            {[ "L" := {| name := JStr "Lea" |} ]})) ] ∧
  (on_join_room 86402100 "P" "R1" (JStr "Pat") (Some "tok")
     (on_create_share_token 2100 "L" "R1" "tok" Scenario.with_P_connected).1).2
  = [ (Callback "P", join_error expired_error) ].
Proof.
  destruct (rooms Scenario.with_P_connected !! "R1") as [room|] eqn:Hr;
    [|vm_compute in Hr; discriminate Hr].
  assert (leaderId room = Some "L") as Hl
    by (vm_compute in Hr; injection Hr; intros <-; reflexivity).
  assert (participants room = {[ "L" := {| name := JStr "Lea" |} ]}) as Hp
    by (vm_compute in Hr; injection Hr; intros <-; reflexivity).
  assert (roomState room = roomState newRoom) as Hv
    by (vm_compute in Hr; injection Hr; intros <-; reflexivity).
  assert ("L" ≠ "") as Hne by discriminate.
  assert ("tok" ≠ "") as Htok by discriminate.
  split.
  - destruct (token_opens_for_a_day Scenario.with_P_connected 2100 86402099
                "L" "R1" "tok" "P" (JStr "Pat") room Hr Hl Hne Htok)
      as (_ & _ & Hyes & _).
    destruct Hyes as [_ Hout]; [lia|]. by rewrite Hout, Hp, Hv.
  - destruct (token_opens_for_a_day Scenario.with_P_connected 2100 86402100
                "L" "R1" "tok" "P" (JStr "Pat") room Hr Hl Hne Htok)
      as (_ & _ & _ & Hno).
    destruct Hno as [_ Hout]; [lia|]. exact Hout.
Defined.

(** X16: a share token is not used up by a join: after one socket has
    joined with it, a second socket presenting the same token before the
    expiry is admitted as well, and both are participants.  An attempt
    after the expiry deletes the token's entry.  What presenting the name
    again then leads to depends on what the table still yields under it:
    nothing, and the join is treated like one without token (a request is
    sent to the leader); or a truthy value without expiry date, and the
    expired-link error is returned once more.  The second is the case of
    every name the table inherits from Object.prototype. *)
Theorem token_reuse_and_purge (s : State) (now now' : Z)
    (leader roomId tok first second : string) (name name' : jsval)
    (room : Room) (toks : TokenTable) (tokenData : ShareToken) :
  rooms s !! roomId = Some room → leaderId room = Some leader → leader ≠ "" →
  tok ≠ "" → shareTokens room = Some toks →
  own_tokens toks !! tok = Some tokenData →
  let result := on_join_room now first roomId name (Some tok) s in
  let again := on_join_room now' second roomId name' (Some tok) result.1 in
  (now < expiresAt tokenData → now' < expiresAt tokenData →
   ∃ room2, rooms again.1 !! roomId = Some room2 ∧
     is_Some (participants room2 !! first) ∧
     is_Some (participants room2 !! second) ∧
     leaderId room2 = Some leader ∧
     again.2 =
       [ (Callback second, join_ack second false (roomState room));
         (SocketTo second roomId,
          participant_joined second name' (participants room2)) ]) ∧
  (expiresAt tokenData ≤ now →
   let purged := token_delete tok toks in
   (shareTokens <$> rooms result.1 !! roomId) = Some (Some purged) ∧
   own_tokens purged !! tok = None ∧
   (token_get tok purged = NoValue →
    again.2 =
      [ (SocketTo second leader,
         participant_join_request (second +:+ "_" +:+ pretty now') name') ]) ∧
   (token_get tok purged = OtherValue →
    again.2 = [ (Callback second, join_error expired_error) ]) ∧
   (proto_token toks = None →
    token_get tok purged = if inherited tok then OtherValue else NoValue)).
Proof.
  intros Hroom Hl Hne Htok Htoks Hdata result again.
  pose proof (leader_of_intro _ _ Hl Hne) as Hleader.
  pose proof (join_with_token now first roomId name tok s room leader toks
                tokenData Hroom Hleader Htok Htoks Hdata) as Hrun.
  fold result in Hrun. split.
  - intros Hlt Hlt'. rewrite (proj2 (Z.ltb_lt _ _) Hlt) in Hrun.
    rewrite (join_directly_existing _ _ _ _ _ _ Hroom) in Hrun
      by (rewrite Hl; by apply truthy_str_Some).
    simpl in Hrun.
    set (room_in := set_participants
                      (<[first := {| name := name |}]> (participants room)) room)
      in Hrun.
    assert (rooms result.1 !! roomId = Some room_in) as Hroom_in
      by (rewrite Hrun; simpl; apply lookup_insert_eq).
    pose proof (join_with_token now' second roomId name' tok result.1 room_in
                  leader toks tokenData Hroom_in
                  (leader_of_intro room_in leader Hl Hne) Htok Htoks Hdata)
      as Hrun'.
    fold again in Hrun'. rewrite (proj2 (Z.ltb_lt _ _) Hlt') in Hrun'.
    rewrite (join_directly_existing _ _ _ _ _ _ Hroom_in) in Hrun'
      by (simpl; rewrite Hl; by apply truthy_str_Some).
    simpl in Hrun'. rewrite Hrun'. simpl.
    eexists. rewrite lookup_insert_eq. split; [reflexivity|]. simpl.
    split; [|split; [|done]].
    + destruct (decide (second = first)) as [->|Hsf].
      * rewrite lookup_insert_eq. eauto.
      * rewrite lookup_insert_ne, lookup_insert_eq by done. eauto.
    + rewrite lookup_insert_eq. eauto.
  - intros Hge purged. rewrite (proj2 (Z.ltb_ge _ _) Hge) in Hrun.
    set (room_out := set_shareTokens (Some purged) room).
    fold purged room_out in Hrun.
    assert (rooms result.1 !! roomId = Some room_out) as Hroom_out
      by (rewrite Hrun; simpl; apply lookup_insert_eq).
    pose proof (leader_of_intro room_out leader Hl Hne) as Hleader_out.
    split; [by rewrite Hroom_out|]. split; [apply lookup_delete_eq|].
    split; [|split].
    + intros Hnone.
      assert (lookup_token (Some tok) room_out = None) as Hgone.
      { unfold lookup_token. rewrite (truthy_str_Some _ Htok). simpl.
        by rewrite Hnone. }
      subst again.
      by rewrite (join_pending now' second roomId name' (Some tok) result.1
                    room_out leader Hroom_out Hleader_out Hgone).
    + intros Hother.
      assert (lookup_token (Some tok) room_out = Some (tok, None)) as Hfound.
      { unfold lookup_token. rewrite (truthy_str_Some _ Htok). simpl.
        by rewrite Hother. }
      subst again.
      by rewrite (join_with_found now' second roomId name' tok result.1
                    room_out leader None Hroom_out Hleader_out Hfound).
    + intros Hproto. subst purged. unfold token_get. simpl.
      by rewrite lookup_delete_eq, Hproto.
Qed.

Lemma token_reuse_and_purge_witness :
  (on_join_room 86402200 "Q" "R1" (JStr "Quin") (Some "tok")
     (on_join_room 86402100 "P" "R1" (JStr "Pat") (Some "tok")
        Scenario.with_token).1).2
  = [ (SocketTo "Q" "L",
       participant_join_request ("Q" +:+ "_" +:+ pretty 86402200) (JStr "Quin")) ].
Proof.
  destruct (rooms Scenario.with_token !! "R1") as [room|] eqn:Hr;
    [|vm_compute in Hr; discriminate Hr].
  set (tokenData :=
         {| createdAt := 2100; createdBy := "L"; expiresAt := 86402100 |}).
  set (toks := {| own_tokens := {[ "tok" := tokenData ]}; proto_token := None |}).
  assert (leaderId room = Some "L") as Hl
    by (vm_compute in Hr; injection Hr; intros <-; reflexivity).
  assert (shareTokens room = Some toks) as Htoks
    by (vm_compute in Hr; injection Hr; intros <-; reflexivity).
  assert (own_tokens toks !! "tok" = Some tokenData) as Hdata by reflexivity.
  assert ("L" ≠ "") as Hne by discriminate.
  assert ("tok" ≠ "") as Htok by discriminate.
  destruct (token_reuse_and_purge Scenario.with_token 86402100 86402200
              "L" "R1" "tok" "P" "Q" (JStr "Pat") (JStr "Quin") room toks
              tokenData Hr Hl Hne Htok Htoks Hdata) as [_ Hpurged].
  destruct Hpurged as (_ & _ & Hnone & _ & Hyield); [simpl; lia|].
  apply Hnone. by rewrite Hyield.
Defined.

(** X17: a join_room for an id that names no room and is no name of
    Object.prototype opens the room, whatever token is presented: the
    joiner is its only participant and its leader, the playback state is
    the initial one (no media, paused, time 0) and the joiner is
    acknowledged with isLeader = true.  Under a name of Object.prototype
    no room is opened: the registry is unchanged and the joiner is answered
    "Failed to join room".  Either way a connected joiner is in the
    transport room of that name afterwards. *)
Theorem first_join_leads (s : State) (now : Z) (sid roomId : string)
    (name : jsval) (shareToken : option string) :
  rooms s !! roomId = None →
  let result := on_join_room now sid roomId name shareToken s in
  (inherited roomId = false →
   (∃ room', rooms result.1 !! roomId = Some room' ∧
      participants room' = {[ sid := {| name := name |} ]} ∧
      leaderId room' = Some sid ∧
      roomState room' = roomState newRoom ∧
      pendingRequests room' = None ∧ shareTokens room' = None) ∧
   result.2 =
     [ (Callback sid, join_ack sid true (roomState newRoom));
       (SocketTo sid roomId,
        participant_joined sid name {[ sid := {| name := name |} ]}) ]) ∧
  (inherited roomId = true →
   rooms result.1 = rooms s ∧
   result.2 = [ (Callback sid, join_error failed_error) ]) ∧
  (is_Some (sockets s !! sid) → in_room result.1 sid roomId).
Proof.
  intros Hroom result. subst result.
  unfold on_join_room, getRoom, get. rewrite Hroom.
  assert (∀ asLeader, is_Some (sockets s !! sid) →
            in_room (join_directly sid roomId name asLeader s).1 sid roomId)
    as Hjoined.
  { intros asLeader [k Hk]. unfold in_room, join_directly.
    exists (join roomId k). split.
    - destruct (addParticipant roomId sid name (rooms s)) as [[? ?]|]; simpl;
        by rewrite lookup_alter_eq, Hk.
    - simpl. case_bool_decide as Hin; [done|].
      apply elem_of_app. right. by apply list_elem_of_singleton. }
  destruct (inherited roomId) eqn:Hin.
  - split; [done|]. split; [|apply Hjoined]. intros _.
    unfold join_directly.
    by rewrite (addParticipant_inherited _ _ _ _ Hroom Hin).
  - split; [|split; [done | apply Hjoined]]. intros _.
    unfold join_directly.
    rewrite (addParticipant_fresh _ _ _ _ Hroom Hin). simpl.
    rewrite bool_decide_eq_true_2 by done. split; [|done].
    eexists. rewrite lookup_insert_eq. split; [reflexivity|]. done.
Qed.

Lemma first_join_leads_witness :
  (on_join_room 5000 "P" "R2" (JStr "Pat") (Some "tok")
     Scenario.with_P_connected).2
  = [ (Callback "P", join_ack "P" true (roomState newRoom));
      (SocketTo "P" "R2",
       participant_joined "P" (JStr "Pat") {[ "P" := {| name := JStr "Pat" |} ]}) ] ∧
  (on_join_room 5000 "P" "constructor" (JStr "Pat") None
     Scenario.with_P_connected).2
  = [ (Callback "P", join_error failed_error) ].
Proof.
  split.
  - destruct (first_join_leads Scenario.with_P_connected 5000 "P" "R2"
                (JStr "Pat") (Some "tok")) as (Hplain & _ & _);
      [reflexivity|].
    apply Hplain. reflexivity.
  - destruct (first_join_leads Scenario.with_P_connected 5000 "P" "constructor"
                (JStr "Pat") None) as (_ & Hin & _);
      [reflexivity|].
    apply Hin. reflexivity.
Defined.

End Tokens.

(** ** Heartbeats, media reset and control verbs *)

Section LeaderWrites.
Import JsObject Registry Server Protocol.

(** X18: a leader_state from the leader stores the reported media time and
    play state, stamps the server time, and replaces media kind and
    reference only by truthy values; leader and participants are
    untouched.  The one emission, sync_state with the stored values, goes
    to the room without the sender.  Sending the same heartbeat again at
    the same time changes nothing further, and a snapshot requested
    afterwards, by anyone, returns exactly the stored state to the
    requester alone. *)
Theorem heartbeat_stored_and_relayed (s : State) (now : Z) (sid roomId who : string)
    (mediaTime playing kind ref : jsval) (room : Room) :
  rooms s !! roomId = Some room → leaderId room = Some sid →
  let result := on_leader_state now sid roomId mediaTime playing kind ref s in
  ∃ room', rooms result.1 = <[roomId := room']> (rooms s) ∧
    sockets result.1 = sockets s ∧
    leaderMediaTime room' = mediaTime ∧
    leaderServerTs room' = now ∧
    isPlaying room' = playing ∧
    mediaKind room' = (if truthy kind then kind else mediaKind room) ∧
    mediaRef room' = (if truthy ref then ref else mediaRef room) ∧
    leaderId room' = leaderId room ∧
    participants room' = participants room ∧
    result.2 =
      [ (SocketTo sid roomId,
         sync_state mediaTime now playing (mediaKind room') (mediaRef room')) ] ∧
    ¬ receives s (SocketTo sid roomId) sid ∧
    on_leader_state now sid roomId mediaTime playing kind ref result.1 = result ∧
    on_snapshot_request who roomId result.1 =
      (result.1,
       [ (SocketEmit who,
          snapshot_response (roomState room') (leaderId room)
            (participants room)) ]).
Proof.
  intros Hroom Hl result. subst result.
  pose proof (led_by_intro _ _ _ _ Hroom Hl) as Hled.
  unfold on_leader_state. rewrite Hled. simpl.
  set (room' :=
         (if truthy ref
          then set_mediaRef ref
          else id)
           ((if truthy kind then set_mediaKind kind else id)
              (set_isPlaying playing
                 (set_leaderServerTs now (set_leaderMediaTime mediaTime room))))).
  assert ((if truthy ref
           then set_mediaRef ref
                  (if truthy kind
                   then set_mediaKind kind
                          (set_isPlaying playing
                             (set_leaderServerTs now
                                (set_leaderMediaTime mediaTime room)))
                   else set_isPlaying playing
                          (set_leaderServerTs now
                             (set_leaderMediaTime mediaTime room)))
           else if truthy kind
                then set_mediaKind kind
                       (set_isPlaying playing
                          (set_leaderServerTs now
                             (set_leaderMediaTime mediaTime room)))
                else set_isPlaying playing
                       (set_leaderServerTs now
                          (set_leaderMediaTime mediaTime room))) = room') as ->.
  { subst room'. by destruct (truthy ref), (truthy kind). }
  assert (leaderId room' = leaderId room ∧ participants room' = participants room ∧
          leaderMediaTime room' = mediaTime ∧ leaderServerTs room' = now ∧
          isPlaying room' = playing ∧
          mediaKind room' = (if truthy kind then kind else mediaKind room) ∧
          mediaRef room' = (if truthy ref then ref else mediaRef room))
    as (H1 & H2 & H3 & H4 & H5 & H6 & H7).
  { subst room'. by destruct (truthy ref), (truthy kind). }
  exists room'. split; [done|]. split; [done|].
  repeat (split; [done|]).
  split; [by rewrite H4|]. split; [by intros [_ ?]|]. split.
  - unfold led_by, getRoom. simpl.
    rewrite (get_own _ _ _ (lookup_insert_eq _ _ _)). simpl.
    rewrite H1, Hl. rewrite bool_decide_eq_true_2 by done. simpl.
    rewrite insert_insert_eq.
    assert ((if truthy ref
             then set_mediaRef ref
                    (if truthy kind
                     then set_mediaKind kind
                            (set_isPlaying playing
                               (set_leaderServerTs now
                                  (set_leaderMediaTime mediaTime room')))
                     else set_isPlaying playing
                            (set_leaderServerTs now
                               (set_leaderMediaTime mediaTime room')))
             else if truthy kind
                  then set_mediaKind kind
                         (set_isPlaying playing
                            (set_leaderServerTs now
                               (set_leaderMediaTime mediaTime room')))
                  else set_isPlaying playing
                         (set_leaderServerTs now
                            (set_leaderMediaTime mediaTime room'))) = room') as ->.
    { subst room'. by destruct (truthy ref), (truthy kind). }
    by rewrite H4.
  - unfold on_snapshot_request, getRoom. simpl.
    rewrite (get_own _ _ _ (lookup_insert_eq _ _ _)).
    by rewrite H1, H2.
Qed.

Lemma heartbeat_stored_and_relayed_witness :
  (on_leader_state 6000 "L" "R1" (JNum 12.5%float) (JBool true) JNull JNull
     Scenario.two_members).2
  = [ (SocketTo "L" "R1",
       sync_state (JNum 12.5%float) 6000 (JBool true) JNull JNull) ].
Proof.
  destruct (rooms Scenario.two_members !! "R1") as [room|] eqn:Hr;
    [|vm_compute in Hr; discriminate Hr].
  assert (leaderId room = Some "L") as Hl
    by (vm_compute in Hr; injection Hr; intros <-; reflexivity).
  destruct (heartbeat_stored_and_relayed Scenario.two_members 6000 "L" "R1" "P"
              (JNum 12.5%float) (JBool true) JNull JNull room Hr Hl)
    as (room' & _ & _ & _ & _ & _ & Hkind & Href & _ & _ & Hout & _).
  rewrite Hout, Hkind, Href. simpl.
  vm_compute in Hr. injection Hr; intros <-. reflexivity.
Defined.

(** X19: media_cleared from the leader puts the room back to "no media,
    paused, time 0" stamped with the current time, keeps leader,
    participants, requests and tokens, and tells the whole room (the leader
    included); a snapshot afterwards reports that state. *)
Theorem media_cleared_resets (s : State) (now : Z) (sid roomId who : string)
    (room : Room) :
  rooms s !! roomId = Some room → leaderId room = Some sid →
  let result := on_media_cleared now sid roomId s in
  let view :=
    {| v_mediaKind := JNull; v_mediaRef := JNull; v_isPlaying := JBool false;
       v_leaderMediaTime := JNum 0%float; v_leaderServerTs := now |} in
  (∃ room', rooms result.1 = <[roomId := room']> (rooms s) ∧
     roomState room' = view ∧
     leaderId room' = leaderId room ∧
     participants room' = participants room ∧
     pendingRequests room' = pendingRequests room ∧
     shareTokens room' = shareTokens room) ∧
  sockets result.1 = sockets s ∧
  result.2 = [ (IoTo roomId, media_cleared) ] ∧
  (in_room s sid roomId → receives s (IoTo roomId) sid) ∧
  on_snapshot_request who roomId result.1 =
    (result.1,
     [ (SocketEmit who,
        snapshot_response view (leaderId room) (participants room)) ]).
Proof.
  intros Hroom Hl result view. subst result.
  pose proof (led_by_intro _ _ _ _ Hroom Hl) as Hled.
  unfold on_media_cleared. rewrite Hled. simpl.
  split; [eexists; split; [reflexivity|done]|].
  split; [done|]. split; [done|]. split; [done|].
  unfold on_snapshot_request, getRoom. simpl.
  by rewrite (get_own _ _ _ (lookup_insert_eq _ _ _)).
Qed.

Lemma media_cleared_resets_witness :
  (on_media_cleared 7000 "L" "R1" Scenario.two_members).2
  = [ (IoTo "R1", media_cleared) ].
Proof.
  destruct (rooms Scenario.two_members !! "R1") as [room|] eqn:Hr;
    [|vm_compute in Hr; discriminate Hr].
  assert (leaderId room = Some "L") as Hl
    by (vm_compute in Hr; injection Hr; intros <-; reflexivity).
  destruct (media_cleared_resets Scenario.two_members 7000 "L" "R1" "P" room
              Hr Hl) as (_ & _ & Hout & _).
  exact Hout.
Defined.

(** X20: for the leader, PLAY and PAUSE set isPlaying and stamp the time
    but never move leaderMediaTime, and they ignore toTime.  A control
    message with any other type than PLAY, PAUSE or SEEK leaves the
    registry exactly as it was, and is nevertheless relayed to the whole
    room with the unchanged state.  No control message changes leader,
    participants, requests or tokens. *)
Theorem control_verbs (s : State) (now : Z) (sid roomId type : string)
    (toTime : jsval) (room : Room) :
  rooms s !! roomId = Some room → leaderId room = Some sid →
  rooms (on_control now sid roomId "PLAY" toTime s).1
    = <[roomId := set_leaderServerTs now (set_isPlaying (JBool true) room)]>
        (rooms s) ∧
  rooms (on_control now sid roomId "PAUSE" toTime s).1
    = <[roomId := set_leaderServerTs now (set_isPlaying (JBool false) room)]>
        (rooms s) ∧
  (type ≠ "PLAY" → type ≠ "PAUSE" → type ≠ "SEEK" →
   on_control now sid roomId type toTime s =
     (s, [ (IoTo roomId,
            control_update type toTime (leaderMediaTime room)
              (leaderServerTs room) (isPlaying room)) ])) ∧
  (∃ room', rooms (on_control now sid roomId type toTime s).1
              = <[roomId := room']> (rooms s) ∧
     leaderId room' = leaderId room ∧
     participants room' = participants room ∧
     pendingRequests room' = pendingRequests room ∧
     shareTokens room' = shareTokens room ∧
     mediaKind room' = mediaKind room ∧
     mediaRef room' = mediaRef room).
Proof.
  intros Hroom Hl.
  pose proof (led_by_intro _ _ _ _ Hroom Hl) as Hled.
  unfold on_control. rewrite Hled. simpl.
  split; [done|]. split; [done|]. split.
  - intros H1 H2 H3. unfold apply_control.
    rewrite (proj2 (String.eqb_neq _ _) H1), (proj2 (String.eqb_neq _ _) H2),
      (proj2 (String.eqb_neq _ _) H3).
    rewrite insert_id by done. by destruct s.
  - eexists. split; [reflexivity|].
    destruct (apply_control_same now type toTime room) as (? & ? & ? & ?).
    repeat (split; [done|]).
    unfold apply_control.
    destruct (String.eqb type "PLAY"); [done|].
    destruct (String.eqb type "PAUSE"); [done|].
    destruct (String.eqb type "SEEK"); [|done].
    by destruct (is_number toTime).
Qed.

Lemma control_verbs_witness :
  on_control 8000 "L" "R1" "STOP" JUndefined Scenario.two_members
  = (Scenario.two_members,
     [ (IoTo "R1",
        control_update "STOP" JUndefined (JNum 0%float) 0 (JBool false)) ]).
Proof.
  destruct (rooms Scenario.two_members !! "R1") as [room|] eqn:Hr;
    [|vm_compute in Hr; discriminate Hr].
  assert (leaderId room = Some "L") as Hl
    by (vm_compute in Hr; injection Hr; intros <-; reflexivity).
  destruct (control_verbs Scenario.two_members 8000 "L" "R1" "STOP" JUndefined
              room Hr Hl) as (_ & _ & Hother & _).
  rewrite Hother by discriminate.
  vm_compute in Hr. injection Hr; intros <-. reflexivity.
Defined.

End LeaderWrites.

(** ** Room ids that are names of Object.prototype *)

Section InheritedNames.
Import JsObject Registry Server Protocol.

(** No handler stores a room under an inherited name. *)
Lemma handle_inherited_id s now sid e roomId :
  rooms s !! roomId = None → inherited roomId = true →
  rooms (handle now sid e s).1 !! roomId = None.
Proof.
  intros Hnone Hin.
  assert (∀ who, led_by who roomId s = None) as Hnot.
  { intros who. apply led_by_None. intros r0 Hr0. congruence. }
  destruct (room_of e) as [r|] eqn:He.
  - destruct (decide (r = roomId)) as [->|Hne];
      [|by rewrite (handle_other_rooms s now sid e r roomId He Hne)].
    destruct (leader_only e) as [r|] eqn:Hlo.
    + assert (r = roomId) as -> by (destruct e; simpl in *; congruence).
      by rewrite (leader_only_dropped s now sid e roomId Hlo (Hnot sid)).
    + destruct e; simpl in *; try discriminate; injection He as ->.
      * unfold on_join_room, getRoom. rewrite (get_inherited _ _ Hnone Hin).
        unfold join_directly.
        by rewrite (addParticipant_inherited _ _ _ _ Hnone Hin).
      * unfold on_snapshot_request, getRoom.
        by rewrite (get_inherited _ _ Hnone Hin).
  - destruct e; simpl in He; try discriminate He; simpl; [done|].
    by rewrite disconnection_result.
Qed.

Lemma reachable_plain_ids s roomId :
  reachable s → inherited roomId = true → rooms s !! roomId = None.
Proof.
  intros Hs Hin. induction Hs as [|now sid e s Hs IH]; [done|].
  unfold step. destruct (sockets s !! sid) as [k|].
  - destruct e; try (by apply handle_inherited_id). done.
  - destruct e; simpl; try done.
    by destruct (String.eqb sid "" || String.eqb sid "__proto__").
Qed.

(** X21: in every state the server can reach, no room is stored under a
    name of Object.prototype ("constructor", "toString", "__proto__", ...).
    A join_room for such a name opens nothing: createRoom finds the
    inherited value and stores no room, addParticipant throws on it, and
    the joiner is answered "Failed to join room"; the registry is as it
    was, but the socket has joined the transport room of that name.  A
    snapshot request for such a name is answered, with a response all of
    whose fields are undefined. *)
Theorem no_room_under_inherited_name (s : State) (now : Z) (sid roomId : string)
    (name : jsval) (shareToken : option string) (k : Socket) :
  reachable s → inherited roomId = true → sockets s !! sid = Some k →
  let result := step now sid (JoinRoom roomId name shareToken) s in
  rooms s !! roomId = None ∧
  createRoom roomId (rooms s) = (rooms s, Inherited roomId) ∧
  addParticipant roomId sid name (rooms s) = Thrown ∧
  rooms result.1 = rooms s ∧
  result.2 = [ (Callback sid, join_error failed_error) ] ∧
  in_room result.1 sid roomId ∧
  step now sid (SnapshotRequest roomId) s
    = (s, [ (SocketEmit sid, snapshot_undefined) ]).
Proof.
  intros Hs Hin Hk result. subst result.
  pose proof (reachable_plain_ids s roomId Hs Hin) as Hnone.
  split; [done|]. split.
  { unfold createRoom. by rewrite (get_inherited _ _ Hnone Hin). }
  split; [by apply addParticipant_inherited|].
  unfold step. rewrite Hk. simpl.
  unfold on_join_room, on_snapshot_request, getRoom.
  rewrite (get_inherited _ _ Hnone Hin).
  unfold join_directly. rewrite (addParticipant_inherited _ _ _ _ Hnone Hin).
  simpl. split; [done|]. split; [done|]. split; [|done].
  exists (join roomId k). simpl. split; [by rewrite lookup_alter_eq, Hk|].
  simpl. case_bool_decide as Hmem; [done|].
  apply elem_of_app. right. by apply list_elem_of_singleton.
Qed.

Lemma no_room_under_inherited_name_witness :
  rooms Scenario.with_P_connected !! "constructor" = None ∧
  (step 2200 "P" (JoinRoom "constructor" (JStr "Pat") None)
     Scenario.with_P_connected).2
  = [ (Callback "P", join_error failed_error) ] ∧
  in_room (step 2200 "P" (JoinRoom "constructor" (JStr "Pat") None)
             Scenario.with_P_connected).1 "P" "constructor".
Proof.
  assert (reachable Scenario.with_P_connected) as Hs.
  { unfold Scenario.with_P_connected. apply reachable_step, reachable_opened. }
  destruct (no_room_under_inherited_name Scenario.with_P_connected 2200 "P"
              "constructor" (JStr "Pat") None
              {| joinCallback := false; pendingRoomId := None;
                 pendingName := None; socket_rooms := ["P"] |} Hs)
    as (Hnone & _ & _ & _ & Hout & Hin & _); [reflexivity | reflexivity |].
  split; [exact Hnone|]. split; [exact Hout | exact Hin].
Defined.

End InheritedNames.

(** ** The sync engine's drift bookkeeping *)

Section DriftHistory.
Import SyncEngine.
Local Open Scope nat_scope.

Lemma recordDrift_history (d : float) (st : SyncState) :
  length (driftHistory st) ≤ 10 →
  driftHistory (recordDrift d st) =
  drop (length (driftHistory st ++ [d]) - 10) (driftHistory st ++ [d]).
Proof.
  intros Hlen. unfold recordDrift, DRIFT_HISTORY_SIZE. simpl.
  rewrite length_app. simpl.
  destruct (Nat.ltb_spec 10 (length (driftHistory st) + 1)) as [Hfull|Hroom].
  - replace (length (driftHistory st) + 1 - 10) with 1 by lia.
    by destruct (driftHistory st ++ [d])%list.
  - by replace (length (driftHistory st) + 1 - 10) with 0 by lia.
Qed.

Lemma drop_window (h ds : list float) (d : float) :
  drop (length (drop (length (h ++ ds) - 10) (h ++ ds) ++ [d]) - 10)
    (drop (length (h ++ ds) - 10) (h ++ ds) ++ [d])
  = drop (length (h ++ ds ++ [d]) - 10) (h ++ ds ++ [d]).
Proof.
  rewrite (app_assoc h ds [d]).
  generalize (h ++ ds)%list. intros l.
  rewrite !length_app, length_drop. simpl.
  destruct (decide (length l < 10)) as [Hshort|Hlong].
  - replace (length l - 10) with 0 by lia. simpl.
    by rewrite Nat.sub_0_r.
  - replace (length l - (length l - 10) + 1 - 10) with 1 by lia.
    replace (length l + 1 - 10) with (S (length l - 10)) by lia.
    rewrite (drop_app_le l [d] (S (length l - 10))) by lia.
    replace (S (length l - 10)) with (length l - 10 + 1) by lia.
    rewrite <- (drop_drop l 1 (length l - 10)).
    assert (length (drop (length l - 10) l) = 10) as Hten
      by (rewrite length_drop; lia).
    destruct (drop (length l - 10) l) as [|x rest]; [discriminate Hten|].
    reflexivity.
Qed.

(** X22: the drift history is a sliding window of the ten latest samples:
    starting from a history of at most ten entries, after recording any
    sequence of samples the history consists of the last ten entries of
    the old history followed by the samples, oldest first; it never grows
    beyond ten.  applyCorrectionIfNeeded records its sample in this way
    whether or not it seeks, and changes nothing else in the engine. *)
Theorem drift_history_window (st : SyncState) (ds : list float) :
  length (driftHistory st) ≤ 10 →
  let st' := foldl (λ acc d, recordDrift d acc) st ds in
  driftHistory st' =
    drop (length (driftHistory st ++ ds) - 10) (driftHistory st ++ ds) ∧
  length (driftHistory st') ≤ 10 ∧
  serverOffset st' = serverOffset st ∧
  (∀ expectedTime actualTime,
     (applyCorrectionIfNeeded expectedTime actualTime st).1 =
     recordDrift (calculateDrift expectedTime actualTime) st).
Proof.
  intros Hlen st'. subst st'.
  assert (driftHistory (foldl (λ acc d, recordDrift d acc) st ds) =
          drop (length (driftHistory st ++ ds) - 10) (driftHistory st ++ ds) ∧
          serverOffset (foldl (λ acc d, recordDrift d acc) st ds)
          = serverOffset st) as [Hhist Hoff].
  { induction ds as [|d ds IH] using rev_ind.
    - simpl. rewrite app_nil_r. split; [|done].
      by replace (length (driftHistory st) - 10) with 0 by lia.
    - rewrite foldl_app. cbn [foldl]. destruct IH as [IHh IHo].
      split; [|exact IHo].
      rewrite recordDrift_history.
      + rewrite IHh. apply drop_window.
      + rewrite IHh, length_drop. lia. }
  split; [done|]. split; [rewrite Hhist, length_drop; lia|]. split; [done|].
  intros expectedTime actualTime. unfold applyCorrectionIfNeeded.
  by destruct (shouldCorrectDrift _).
Qed.

Lemma drift_history_window_witness :
  driftHistory
    (foldl (λ acc d, recordDrift d acc) initial
       [1; 2; 3; 4; 5; 6; 7; 8; 9; 10; 11; 12]%float)
  = [3; 4; 5; 6; 7; 8; 9; 10; 11; 12]%float.
Proof.
  destruct (drift_history_window initial
              [1; 2; 3; 4; 5; 6; 7; 8; 9; 10; 11; 12]%float) as [Hhist _].
  - simpl. lia.
  - rewrite Hhist. reflexivity.
Defined.

Lemma abs_opp (x : float) : PrimFloat.abs (- x)%float = PrimFloat.abs x.
Proof.
  rewrite <- (SF2Prim_Prim2SF (PrimFloat.abs (- x))),
    <- (SF2Prim_Prim2SF (PrimFloat.abs x)).
  f_equal. rewrite !abs_spec, opp_spec.
  by destruct (Prim2SF x).
Qed.

(** X23: the decision to correct does not depend on the direction of the
    drift: being ahead by some amount and being behind by the same amount
    are treated alike, and so is the choice between the gentle and the
    aggressive factor. *)
Theorem correction_decision_symmetric (drift : float) :
  shouldCorrectDrift (- drift)%float = shouldCorrectDrift drift ∧
  (PrimFloat.ltb (PrimFloat.abs (- drift)%float) 0.5%float
   = PrimFloat.ltb (PrimFloat.abs drift) 0.5%float).
Proof. unfold shouldCorrectDrift. by rewrite abs_opp. Qed.

End DriftHistory.

(** ** The follower effect and the client's actions *)

Section ClientSide.
Import Store App Client.

(** X24: one run of the follower effect never touches the room state and
    makes at most one call on the player.  It does nothing at all for a
    leader, without player, media or readiness.  It calls play exactly when
    the leader state is playing and the player is neither playing (state
    1) nor buffering (state 3), pause exactly when the leader state is
    paused and the player is playing, and it seeks only when both are
    playing, clearing the drift history when it does. *)
Theorem follower_effect_commands (tsArg localNow : float)
    (hasPlayer isPlayerReady : bool) (playerState : Z) (actualTime : float)
    (st : Store) :
  let result :=
    follower_sync tsArg localNow hasPlayer isPlayerReady playerState actualTime st in
  let active :=
    negb (isLeader (room st)) && hasPlayer
    && bool_decide (is_Some (mediaKind (room st)))
    && truthy_str (mediaRef (room st)) && isPlayerReady in
  room result.1 = room st ∧
  (length result.2 ≤ 1)%nat ∧
  (active = false → result = (st, [])) ∧
  (play ∈ result.2 ↔
   active = true ∧ isPlaying (room st) = true ∧ playerState ≠ 1 ∧ playerState ≠ 3) ∧
  (pause ∈ result.2 ↔
   active = true ∧ isPlaying (room st) = false ∧ playerState = 1) ∧
  (∀ t, seekTo t ∈ result.2 →
     active = true ∧ isPlaying (room st) = true ∧ playerState = 1 ∧
     SyncEngine.driftHistory (syncEngine result.1) = []).
Proof.
  intros result active. subst result. unfold follower_sync. fold active.
  destruct active; [|by repeat split; simpl; try lia; try done;
                        repeat intros ?; simpl in *;
                        repeat match goal with
                        | H : _ ∈ [] |- _ => apply elem_of_nil in H
                        | H : _ ∧ _ |- _ => destruct H
                        end].
  destruct (isPlaying (room st)), (Z.eqb_spec playerState 1) as [->|H1];
    simpl; [destruct (PrimFloat.ltb 0.5 _)
           |destruct (Z.eqb_spec playerState 3) as [->|H3]| |]; simpl;
    repeat split; simpl; try lia; try done;
    repeat intros ?; simpl in *;
    repeat match goal with
    | H : _ ∈ [] |- _ => apply elem_of_nil in H
    | H : _ ∈ [_] |- _ => apply list_elem_of_singleton in H
    | H : _ ∧ _ |- _ => destruct H
    | |- _ ∈ [_] => apply list_elem_of_singleton
    end; try done.
Qed.

Lemma leading_Some (c : Client) (roomId : string) :
  leading c = Some roomId ↔
  socket c = true ∧ isLeader (room (store c)) = true ∧
  Store.roomId (room (store c)) = Some roomId ∧ roomId ≠ "".
Proof.
  unfold leading.
  destruct (socket c), (isLeader (room (store c))); simpl;
    try (split; [discriminate | by intros (? & ? & _)]).
  destruct (truthy_str (Store.roomId (room (store c)))) eqn:Ht.
  - apply truthy_str_inv in Ht as (r & Hr & Hne). rewrite Hr. split.
    + intros [= ->]. done.
    + by intros (_ & _ & [= ->] & _).
  - split; [discriminate|]. intros (_ & _ & Hr & Hne).
    rewrite Hr in Ht. by rewrite (truthy_str_Some _ Hne) in Ht.
Qed.

(** X25: the client sends a leader message (control, promote_leader,
    kick_participant, approve_participant, reject_participant,
    leader_state) only when it has a socket, believes itself leader and
    is in a room with a non-empty id, and then the message names that
    room; otherwise the action does nothing.  An action emits at most one
    message (a kick none when the dialog is declined) and never changes the
    room state; a seek also clears the drift history. *)
Theorem client_guards_leader_actions (a : action) (c : Client) :
  let result := act a c in
  (leading c = None → result = (c, [])) ∧
  (∀ e, e ∈ result.2 →
     ∃ roomId, Protocol.leader_only e = Some roomId ∧
       socket c = true ∧ isLeader (room (store c)) = true ∧
       Store.roomId (room (store c)) = Some roomId ∧ roomId ≠ "") ∧
  (length result.2 ≤ 1)%nat ∧
  room (store result.1) = room (store c) ∧
  (∀ roomId time, leading c = Some roomId → a = Seek time →
     result.2 = [Server.Control roomId "SEEK" (JNum time)] ∧
     SyncEngine.driftHistory (syncEngine (store result.1)) = []).
Proof.
  intros result. subst result. unfold act.
  destruct (leading c) as [roomId|] eqn:Hlead.
  2:{ repeat split; simpl; try lia; try done.
      intros e H. by apply elem_of_nil in H. }
  apply leading_Some in Hlead.
  split; [done|]. split; [|split; [|split]].
  - intros e He. exists roomId.
    destruct a; simpl in He;
      try (apply list_elem_of_singleton in He; subst e; by split).
    destruct confirmed; [|by apply elem_of_nil in He].
    apply list_elem_of_singleton in He. subst e. by split.
  - destruct a; simpl; try lia. destruct confirmed; simpl; lia.
  - by destruct a.
  - intros r time [= <-] ->. done.
Qed.

(** X26: room_closed (whatever the reason and the answer to its dialog),
    participant_kicked and leaveRoom all put the store's room back to the
    empty room while keeping the sync engine.  leaveRoom, which does
    nothing without socket or room id, tells the server leader_leave_room
    when the client was leader and leaves the connection flags alone;
    otherwise it drops and reopens the connection, and isConnected is
    false when it returns.  After any of them no leader action sends
    anything. *)
Theorem client_room_reset (c : Client) (reason : string) (confirmed : bool)
    (a : action) :
  on_room_closed reason confirmed c = reset_room c ∧
  on_participant_kicked c = reset_room c ∧
  room (store (reset_room c)) = left_room ∧
  syncEngine (store (reset_room c)) = syncEngine (store c) ∧
  act a (reset_room c) = (reset_room c, []) ∧
  (socket c && truthy_str (roomId (room (store c))) = false →
   leaveRoom c = (c, [])) ∧
  (∀ r, socket c = true → roomId (room (store c)) = Some r → r ≠ "" →
     let gone := leaveRoom c in
     room (store gone.1) = left_room ∧
     syncEngine (store gone.1) = syncEngine (store c) ∧
     socket gone.1 = true ∧
     connectionError gone.1 = connectionError c ∧
     act a gone.1 = (gone.1, []) ∧
     (isLeader (room (store c)) = true →
      gone = (reset_room c, [EmitLeaderLeave r])) ∧
     (isLeader (room (store c)) = false →
      gone.2 = [Reconnect] ∧ isConnected gone.1 = false)).
Proof.
  split; [|split; [|split; [|split; [|split; [|split]]]]]; try done.
  - unfold on_room_closed.
    by destruct (String.eqb reason "Leader left the room"), confirmed.
  - unfold act, leading. simpl. by rewrite andb_false_r.
  - intros H. unfold leaveRoom. by rewrite H.
  - intros r Hs Hr Hne gone. subst gone. unfold leaveRoom.
    rewrite Hs, Hr, (truthy_str_Some _ Hne). simpl.
    destruct (isLeader (room (store c))) eqn:Hlead; simpl.
    + rewrite Hs. repeat split; try done.
      unfold act, leading. simpl. by rewrite andb_false_r.
    + unfold socket_disconnect.
      destruct (isConnected c) eqn:Hconn; simpl; rewrite ?Hs, ?Hconn;
        repeat split; try done;
        unfold act, leading; simpl; by rewrite andb_false_r.
Qed.

End ClientSide.

(** ** Server and clients together *)

Section EndToEnd.
Import JsObject Registry Server Client.

(** X27: a promotion seen from both ends.  When the leader promotes
    participant p, the server's one emission is leader_changed for the
    whole room; once the client of the old leader has handled it, none of
    its leader actions sends anything any more; once the client of p (in
    that room, with a socket) has handled it, its actions pass the client
    guard, and the control message it then sends is relayed by the server
    and not dropped. *)
Theorem promotion_end_to_end (s : State) (now : Z) (sid roomId p : string)
    (room : Room) (old new : Client) (a : action) :
  rooms s !! roomId = Some room → leaderId room = Some sid →
  is_Some (participants room !! p) → p ≠ sid → roomId ≠ "" →
  Store.participantId (Store.room (store old)) = Some sid →
  Store.participantId (Store.room (store new)) = Some p →
  Store.roomId (Store.room (store new)) = Some roomId →
  socket new = true →
  let promoted := on_promote_leader sid roomId p s in
  let members := participants room in
  promoted.2 = [ (IoTo roomId, leader_changed p members) ] ∧
  act a (on_leader_changed p members old)
    = (on_leader_changed p members old, []) ∧
  (act Pause (on_leader_changed p members new)).2
    = [ Control roomId "PAUSE" JUndefined ] ∧
  ∃ update,
    (handle now p (Control roomId "PAUSE" JUndefined) promoted.1).2
    = [ (IoTo roomId, update) ].
Proof.
  intros Hroom Hl [q Hq] Hne Hrid Hold Hnew Hnewroom Hsock promoted members.
  subst promoted members.
  pose proof (led_by_intro _ _ _ _ Hroom Hl) as Hled.
  assert (present (get p (participants room)) = true) as Hp
    by (apply present_get; eauto).
  unfold on_promote_leader.
  rewrite Hled, (promoteLeader_room _ _ _ _ Hroom), Hp.
  simpl. split; [reflexivity|]. split; [|split].
  - unfold act, leading, on_leader_changed, follow_leader. simpl.
    rewrite Hold. rewrite bool_decide_eq_false_2 by congruence.
    by rewrite andb_false_r.
  - unfold act, leading, on_leader_changed, follow_leader. simpl.
    rewrite Hnew, Hnewroom, Hsock. rewrite bool_decide_eq_true_2 by done.
    by rewrite (truthy_str_Some _ Hrid).
  - unfold on_control, led_by, getRoom. simpl.
    rewrite (get_own _ _ _ (lookup_insert_eq _ _ _)). simpl.
    rewrite bool_decide_eq_true_2 by done. eauto.
Qed.

Lemma promotion_end_to_end_witness :
  ∃ members,
    (on_promote_leader "L" "R1" "P" Scenario.two_members).2
      = [ (IoTo "R1", leader_changed "P" members) ] ∧
    act Play (on_leader_changed "P" members ClientScenario.of_L)
      = (on_leader_changed "P" members ClientScenario.of_L, []) ∧
    (act Pause (on_leader_changed "P" members ClientScenario.of_P)).2
      = [ Control "R1" "PAUSE" JUndefined ].
Proof.
  destruct (rooms Scenario.two_members !! "R1") as [room|] eqn:Hr;
    [|vm_compute in Hr; discriminate Hr].
  assert (Registry.leaderId room = Some "L") as Hl
    by (vm_compute in Hr; injection Hr; intros <-; reflexivity).
  assert (is_Some (Registry.participants room !! "P")) as Hq
    by (vm_compute in Hr; injection Hr; intros <-; vm_compute; eauto).
  destruct (promotion_end_to_end Scenario.two_members 9000 "L" "R1" "P" room
              ClientScenario.of_L ClientScenario.of_P Play Hr Hl Hq)
    as (Hout & Hold & Hnew & _);
    [discriminate | discriminate | reflexivity | reflexivity | reflexivity
    | reflexivity |].
  exists (Registry.participants room).
  split; [exact Hout|]. split; [exact Hold | exact Hnew].
Defined.

End EndToEnd.

